(** * generate-android-icons.py: a shallow embedding

    The script reads [assets/icon.png], writes five launcher-icon densities
    (square and round variant) under the Android resource tree, and copies a
    few XML resources.  The state threaded through the program is

    - the file system: a finite map from absolute paths (lists of path
      components) to directory or file entries; files carry their
      modification time, so that [shutil.copy2] preserving metadata and
      [Image.save] stamping a new time can be told apart;
    - the Python heap of Pillow image objects, indexed by object identity;
      an object opened with [Image.open] is lazy until [load] decodes it;
    - the lines printed on standard output.

    Python exceptions are an explicit error result that keeps the state
    reached when the exception was raised ([Exc]).  The numeric kernels of
    Pillow (resampling filters, mode conversion, ellipse rasterisation) are
    section variables: the program only chooses their arguments. *)

From stdpp Require Import base gmap strings list.
From Stdlib Require Import ZArith Lia.

Open Scope Z_scope.

(** ** Pillow data *)

Inductive mode :=
  | mode_1 | mode_L | mode_P | mode_RGB | mode_RGBA | mode_CMYK | mode_YCbCr
  | mode_LAB | mode_HSV | mode_I | mode_F | mode_LA | mode_PA | mode_RGBX
  | mode_RGBa | mode_La | mode_I16.

#[global] Instance mode_eq_dec : EqDecision mode.
Proof. intros x y. unfold Decision. decide equality. Defined.

(** [Image.Resampling] *)
Inductive resampling := NEAREST | BOX | BILINEAR | HAMMING | BICUBIC | LANCZOS.

(** A pixel is the list of its band values; an image's pixels are a
    function of the column and the row. *)
Definition pixel := list Z.
Definition pixels := Z -> Z -> pixel.

(** Contents of a file.  [Encoded m w h body] is a file Pillow identifies
    from its header (mode [m], size [w] x [h]); [body] is the decoded pixel
    data, or [None] when the data stream is corrupt or truncated (the header
    parses but decoding fails).  [Raw s] is any other file (text, XML, data
    no Pillow plugin recognises). *)
Inductive blob :=
  | Encoded (m : mode) (w h : Z) (body : option pixels)
  | Raw (s : string).

Inductive entry :=
  | Dir
  | File (b : blob) (mtime : Z).

Abbreviation path := (list string).

(** Pillow image objects: lazy (opened, not yet decoded) or loaded. *)
Inductive imdata :=
  | Lazy (body : option pixels)
  | Loaded (px : pixels).

Record imgobj := mkimg {
  im_mode : mode;
  im_w : Z;
  im_h : Z;
  im_data : imdata
}.

(** Exceptions that reach the program. *)
Inductive exc :=
  | FileNotFoundError
  | IsADirectoryError
  | NotADirectoryError
  | FileExistsError
  | UnidentifiedImageError        (* Image.open: no plugin identifies the file *)
  | DecompressionBombError        (* Image.open: the header declares too many pixels *)
  | OSError_truncated             (* load: "image file is truncated" / broken data stream *)
  | OSError_cannot_write          (* save: mode not supported by the PNG writer *)
  | ValueError                    (* conversion not supported, images do not match, ... *)
  | SameFileError                 (* shutil: source and destination are the same file *)
  | NotModelled                   (* a Pillow path this program never takes *)
  | SystemExit (code : Z).

(** Printed lines.  Constant lines are kept as text; f-strings keep their
    arguments. *)
Inductive msg :=
  | Text (s : string)
  | MsgLoading (p : path)                 (* Loading source icon: {p} *)
  | MsgLoadError (p : path) (e : exc)     (* ERROR: Could not load {p}: {e} *)
  | MsgSourceSize (w h : Z)               (* Source icon size: {size} *)
  | MsgCreated (p : path) (size : Z)      (* ✓ Created {p} ({size}x{size}) *)
  | MsgCopied (p : path)                  (* ✓ Copied {dest} *)
  | MsgSourceNotFound (p : path)          (* ✗ Source not found: {src} *)
  | MsgSourceIconNotFound (p : path)      (* ERROR: Source icon not found at {p} *)
  | MsgResNotFound (p : path).            (* ERROR: Android res directory not found at {p} *)

Record state := mkState {
  fs : gmap path entry;
  clock : Z;
  heap : gmap Z imgobj;
  next_id : Z;
  out : list msg
}.

Definition set_fs (s : state) (m : gmap path entry) : state :=
  mkState m (clock s) (heap s) (next_id s) (out s).
Definition set_heap (s : state) (h : gmap Z imgobj) (n : Z) : state :=
  mkState (fs s) (clock s) h n (out s).

(** ** The state and exception monad *)

Inductive result (A : Type) :=
  | Ok (a : A) (s : state)
  | Exc (e : exc) (s : state).
Arguments Ok {A} a s.
Arguments Exc {A} e s.

Definition M (A : Type) := state -> result A.

Definition ret {A} (a : A) : M A := fun s => Ok a s.
Definition bind {A B} (m : M A) (k : A -> M B) : M B :=
  fun s => match m s with Ok a s' => k a s' | Exc e s' => Exc e s' end.
Definition raise {A} (e : exc) : M A := fun s => Exc e s.

Notation "x <- m ;; k" := (bind m (fun x => k))
  (at level 100, m at next level, right associativity).
Notation "m ;;; k" := (bind m (fun _ => k))
  (at level 100, right associativity).

(** [try: body except Exception as e: handler e]; [SystemExit] is not an
    [Exception] and passes through. *)
Definition try_except {A} (body : M A) (handler : exc -> M A) : M A :=
  fun s => match body s with
           | Ok a s' => Ok a s'
           | Exc (SystemExit c) s' => Exc (SystemExit c) s'
           | Exc e s' => handler e s'
           end.

Definition print (m : msg) : M unit :=
  fun s => Ok tt (mkState (fs s) (clock s) (heap s) (next_id s) (out s ++ [m])).

Fixpoint for_each {A} (l : list A) (body : A -> M unit) : M unit :=
  match l with
  | [] => ret tt
  | x :: xs => body x ;;; for_each xs body
  end.

(** ** File system *)

(** The root directory [[]] always exists. *)
Definition lookup_fs (m : gmap path entry) (p : path) : option entry :=
  match p with [] => Some Dir | _ => m !! p end.

Definition basename (p : path) : string := List.last p "".


(** [Path.mkdir(parents=True, exist_ok=True)]: every missing component is
    created as a directory; an existing directory is accepted; a component
    that exists as a file raises ([FileExistsError] for the target itself,
    [NotADirectoryError] for an ancestor).  [cur] is the part of the path
    already walked. *)
Fixpoint mkdir_walk (cur : path) (rest : list string) (m : gmap path entry)
    : exc + gmap path entry :=
  match rest with
  | [] => inr m
  | c :: cs =>
      let q := cur ++ [c] in
      match m !! q with
      | Some Dir => mkdir_walk q cs m
      | Some (File _ _) =>
          inl (match cs with [] => FileExistsError | _ => NotADirectoryError end)
      | None => mkdir_walk q cs (<[q := Dir]> m)
      end
  end.

Definition mkdir_p (p : path) (m : gmap path entry) : exc + gmap path entry :=
  mkdir_walk [] p m.

(** [open(p, "wb")] followed by the write: the parent must be a directory
    and [p] must not be one; an existing file is overwritten. *)
Definition write_file (p : path) (b : blob) (t : Z) (m : gmap path entry)
    : exc + gmap path entry :=
  match lookup_fs m (removelast p) with
  | Some Dir =>
      match lookup_fs m p with
      | Some Dir => inl IsADirectoryError
      | _ => inr (<[p := File b t]> m)
      end
  | Some (File _ _) => inl NotADirectoryError
  | None => inl FileNotFoundError
  end.

Definition fs_op (f : gmap path entry -> exc + gmap path entry) : M unit :=
  fun s => match f (fs s) with
           | inl e => Exc e s
           | inr m => Ok tt (set_fs s m)
           end.

Definition mkdir (p : path) : M unit := fs_op (mkdir_p p).

(** [Path.exists] *)
Definition path_exists (p : path) : M bool :=
  fun s => Ok (match lookup_fs (fs s) p with Some _ => true | None => false end) s.

Definition now : M Z := fun s => Ok (clock s) s.
Definition tick : M unit :=
  fun s => Ok tt (mkState (fs s) (clock s + 1) (heap s) (next_id s) (out s)).

(** [shutil.copy2(src, dst)]: copy the data and the metadata (here the
    modification time); a directory [dst] receives [dst/basename(src)]. *)
Definition copy2 (src dst : path) : M unit :=
  fun s =>
    let dst' := match lookup_fs (fs s) dst with
                | Some Dir => dst ++ [basename src]
                | _ => dst
                end in
    match lookup_fs (fs s) src with
    | None => Exc FileNotFoundError s
    | Some Dir => Exc IsADirectoryError s
    | Some (File b t) =>
        if decide (src = dst') then Exc SameFileError s
        else fs_op (write_file dst' b t) s
    end.

(** [Image.MAX_IMAGE_PIXELS = int(1024 * 1024 * 1024 // 4 // 3)] *)
Definition MAX_IMAGE_PIXELS : Z := 1024 * 1024 * 1024 / 4 / 3.

(** [Image._decompression_bomb_check(size)] raises [DecompressionBombError]
    when [max(1, w) * max(1, h) > 2 * MAX_IMAGE_PIXELS].  (Above
    [MAX_IMAGE_PIXELS] alone it only issues a warning on standard error.) *)
Definition decompression_bomb (w h : Z) : bool :=
  2 * MAX_IMAGE_PIXELS <? Z.max 1 w * Z.max 1 h.

(** ** Concrete kernels

    Instances of the Pillow kernels the program is parametric in, used to
    run the program on concrete inputs: nearest-neighbour sampling, the
    conversions of RGB and L images to RGBA, and (below) the ellipse
    rasteriser of Pillow's C library. *)

Definition resample_nearest (f : resampling) (m : mode) (w0 h0 : Z) (px : pixels)
    (w h : Z) : pixels :=
  fun x y => px (x * w0 / w) (y * h0 / h).

Definition convert_basic (m m' : mode) (w h : Z) (px : pixels) : option pixels :=
  match m, m' with
  | mode_RGB, mode_RGBA => Some (fun x y => px x y ++ [255])
  | mode_L, mode_RGBA => Some (fun x y => let v := hd 0 (px x y) in [v; v; v; 255])
  | _, _ => None
  end.

(** ** Pillow's ellipse rasteriser

    [ImageDraw.ellipse(xy, fill=ink)] calls [draw_ellipse(xy, ink, 1)],
    which runs [ellipseNew] of [libImaging/Draw.c] on the integer box
    [(x0, y0, x1, y1)].  The box is inclusive: the ellipse spans columns
    [x0 .. x1] and rows [y0 .. y1].  The C code walks the top-right quarter
    of the ellipse of semi-axes [a = x1 - x0] and [b = y1 - y0] on a grid of
    step 2 (doubled coordinates), picking at each step the neighbour that
    deviates least from [a^2 y^2 + b^2 x^2 = a^2 b^2]; [ellipse_next] turns
    the points into horizontal segments, which [hline] fills.  C's [%] and
    [/] truncate: [Z.rem] and [Z.quot].  The products are exact here: the
    boxes drawn are small enough that no C integer wraps.  The loops run on
    fuel, at least the length of the walk. *)

(** [quarter_state] *)
Record quarter_state := mkquarter {
  q_a : Z; q_b : Z; q_cx : Z; q_cy : Z; q_ex : Z; q_ey : Z;
  q_a2 : Z; q_b2 : Z; q_a2b2 : Z; q_finished : bool
}.

(** [quarter_init(s, a, b)]; a negative axis leaves the other fields
    unset, here 0. *)
Definition quarter_init (a b : Z) : quarter_state :=
  if (a <? 0) || (b <? 0) then mkquarter 0 0 0 0 0 0 0 0 0 true
  else mkquarter a b a (Z.rem b 2) (Z.rem a 2) b (a * a) (b * b) (a * a * (b * b)) false.

(** [quarter_delta(s, x, y)] *)
Definition quarter_delta (s : quarter_state) (x y : Z) : Z :=
  Z.abs (q_a2 s * y * y + q_b2 s * x * x - q_a2b2 s).

Definition quarter_move (s : quarter_state) (cx cy : Z) : quarter_state :=
  mkquarter (q_a s) (q_b s) cx cy (q_ex s) (q_ey s) (q_a2 s) (q_b2 s) (q_a2b2 s) (q_finished s).

Definition quarter_finish (s : quarter_state) : quarter_state :=
  mkquarter (q_a s) (q_b s) (q_cx s) (q_cy s) (q_ex s) (q_ey s) (q_a2 s) (q_b2 s) (q_a2b2 s) true.

(** [quarter_next(s, &x, &y)]: [None] for the C result [-1]. *)
Definition quarter_next (s : quarter_state) : option (Z * Z) * quarter_state :=
  if q_finished s then (None, s) else
  let ret := (q_cx s, q_cy s) in
  if (q_cx s =? q_ex s) && (q_cy s =? q_ey s) then (Some ret, quarter_finish s) else
  let nx := q_cx s in
  let ny := q_cy s + 2 in
  let ndelta := quarter_delta s nx ny in
  let '(nx, ny) :=
    if 1 <? nx then
      let newdelta := quarter_delta s (q_cx s - 2) (q_cy s + 2) in
      let '(nx, ny, ndelta) :=
        if ndelta >? newdelta then (q_cx s - 2, q_cy s + 2, newdelta) else (nx, ny, ndelta) in
      let newdelta := quarter_delta s (q_cx s - 2) (q_cy s) in
      if ndelta >? newdelta then (q_cx s - 2, q_cy s) else (nx, ny)
    else (nx, ny) in
  (Some ret, quarter_move s nx ny).

(** [ellipse_state]; the buffer [cl, cy, cr] with its count is a stack of
    segments [(x0, y, x1)], its top first. *)
Record ellipse_state := mkellipse {
  st_o : quarter_state; st_i : quarter_state;
  e_py : Z; e_pl : Z; e_pr : Z;
  e_buf : list (Z * Z * Z);
  e_finished : bool;
  e_leftmost : Z
}.

(** [ellipse_init(s, a, b, w)]; the fields the C code leaves unset when it
    finishes at once are 0 here. *)
Definition ellipse_init (a b w : Z) : ellipse_state :=
  let leftmost := Z.rem a 2 in
  let o := quarter_init a b in
  if w <? 1 then mkellipse o o 0 0 0 [] true leftmost else
  match quarter_next o with
  | (None, o') => mkellipse o' o' 0 0 0 [] true leftmost
  | (Some (pr, py), o') =>
      mkellipse o' (quarter_init (a - 2 * (w - 1)) (b - 2 * (w - 1))) py leftmost pr [] false
        leftmost
  end.

(** [while ((next_ret = quarter_next(q, &cx, &cy)) != -1 && cy <= y) { l = cx; }]:
    the point that stopped the loop ([None] for [-1]), the quarter, and [l]. *)
Fixpoint quarter_skip (fuel : nat) (q : quarter_state) (y l : Z)
    : option (Z * Z) * quarter_state * Z :=
  match fuel with
  | O => (None, q, l)
  | S f =>
      match quarter_next q with
      | (None, q') => (None, q', l)
      | (Some (cx, cy), q') => if cy <=? y then quarter_skip f q' y cx else (Some (cx, cy), q', l)
      end
  end.

(** A bound on the length of a quarter walk of the box of [a] by [b]. *)
Definition walk_fuel (a b : Z) : nat := Z.to_nat (Z.abs a + Z.abs b + 2).

(** [ellipse_next(s, &x0, &y, &x1)] *)
Definition ellipse_next (fuel : nat) (s : ellipse_state) : option (Z * Z * Z) * ellipse_state :=
  match e_buf s with
  | seg :: rest =>
      (Some seg, mkellipse (st_o s) (st_i s) (e_py s) (e_pl s) (e_pr s) rest (e_finished s)
                   (e_leftmost s))
  | [] =>
      if e_finished s then (None, s) else
      let y := e_py s in
      let l := e_pl s in
      let r := e_pr s in
      let '(next_o, o', _) := quarter_skip fuel (st_o s) y 0 in
      let '(finished, pr, py) :=
        match next_o with
        | None => (true, e_pr s, e_py s)
        | Some (cx, cy) => (false, cx, cy)
        end in
      let '(next_i, i', l) := quarter_skip fuel (st_i s) y l in
      let pl := match next_i with None => e_leftmost s | Some (cx, _) => cx end in
      let l' := if l =? 0 then 2 else l in
      let push1 := if ((0 <? l) || (l <? r)) && (0 <? y) then [(l', y, r)] else [] in
      let push2 := if 0 <? y then [(- r, y, - l)] else [] in
      let push3 := if (0 <? l) || (l <? r) then [(l', - y, r)] else [] in
      let pushed := push1 ++ push2 ++ push3 ++ [(- r, - y, - l)] in
      match rev pushed with
      | seg :: rest => (Some seg, mkellipse o' i' py pl pr rest finished (e_leftmost s))
      | [] => (None, s)
      end
  end.

(** [while (ellipse_next(&st, &X0, &Y, &X1) != -1)]: the segments in the
    order they are drawn. *)
Fixpoint ellipse_loop (fuel seg_fuel : nat) (s : ellipse_state) : list (Z * Z * Z) :=
  match seg_fuel with
  | O => []
  | S f =>
      match ellipse_next fuel s with
      | (None, _) => []
      | (Some seg, s') => seg :: ellipse_loop fuel f s'
      end
  end.

(** [ellipseNew(im, x0, y0, x1, y1, ink, fill, width, op)]: the
    [hline(im, x0 + (X0 + a) / 2, y0 + (Y + b) / 2, x0 + (X1 + a) / 2)]
    calls it makes, as [(xa, y, xb)] with [xb] inclusive. *)
Definition ellipse_new_lines (x0 y0 x1 y1 : Z) (fill : bool) (width : Z) : list (Z * Z * Z) :=
  let a := x1 - x0 in
  let b := y1 - y0 in
  if (a <? 0) || (b <? 0) then [] else
  let width := if fill then a + b else width in
  map (fun '(X0, Y, X1) => (x0 + Z.quot (X0 + a) 2, y0 + Z.quot (Y + b) 2, x0 + Z.quot (X1 + a) 2))
    (ellipse_loop (walk_fuel a b) (4 * walk_fuel a b) (ellipse_init a b width)).

(** The pixels [ImageDraw.ellipse((x0, y0, x1, y1), fill=ink)] sets: those
    on one of the horizontal lines [ellipseNew] draws.  (Pixels outside the
    image are clipped by [hline]; the image has none there.) *)
Definition pillow_ellipse (x0 y0 x1 y1 : Z) : Z -> Z -> bool :=
  let lines := ellipse_new_lines x0 y0 x1 y1 true 1 in
  fun x y => existsb (fun '(xa, ya, xb) => (ya =? y) && (xa <=? x) && (x <=? xb)) lines.

(** The geometric ellipse inscribed in the box [[x0, x1) x [y0, y1)]: pixel
    [(x, y)] lies in it when its centre [(x + 1/2, y + 1/2)] does. *)
Definition in_inscribed_ellipse (x0 y0 x1 y1 x y : Z) : bool :=
  let a := x1 - x0 in
  let b := y1 - y0 in
  (2 * x + 1 - x0 - x1) ^ 2 * b ^ 2 + (2 * y + 1 - y0 - y1) ^ 2 * a ^ 2 <=? a ^ 2 * b ^ 2.

(** File contents without modification times. *)
Inductive centry := CDir | CFile (b : blob).

Definition centry_of (e : entry) : centry :=
  match e with Dir => CDir | File b _ => CFile b end.

Definition strip (m : gmap path entry) : gmap path centry := centry_of <$> m.

(** ** Example inputs

    A project [proj] with [assets/icon.png] and the Android [res]
    directory. *)

Definition result_state {A} (r : result A) : state :=
  match r with Ok _ s => s | Exc _ s => s end.

Definition ex_root : path := ["proj"].
Definition ex_res : path := ["proj"; "android"; "app"; "src"; "main"; "res"].
Definition ex_src : path := ["proj"; "assets"; "icon.png"].

Definition ex_px : pixels := fun x y => [x; y; 7].

(** A 4 x 4 RGB PNG, and an RGBA PNG whose header is intact but whose
    image data is truncated. *)
Definition ex_icon_rgb : blob := Encoded mode_RGB 4 4 (Some ex_px).
Definition ex_icon_truncated : blob := Encoded mode_RGBA 4 4 None.

Definition ex_dirs : gmap path entry :=
  <[["proj"; "android"; "app"; "src"; "main"; "res"] := Dir]>
  (<[["proj"; "android"; "app"; "src"; "main"] := Dir]>
  (<[["proj"; "android"; "app"; "src"] := Dir]>
  (<[["proj"; "android"; "app"] := Dir]>
  (<[["proj"; "android"] := Dir]>
  (<[["proj"; "assets"] := Dir]>
  (<[["proj"] := Dir]> ∅)))))).

Definition ex_fs (icon : blob) : gmap path entry := <[ex_src := File icon 5]> ex_dirs.

Definition ex_state (icon : blob) : state := mkState (ex_fs icon) 100 ∅ 0 [].

(** The project without its source icon. *)
Definition ex_state_noicon : state := mkState ex_dirs 100 ∅ 0 [].

(** The project with [android-resources-manual-fix] holding only
    [values/strings.xml] and [drawable/splashscreen.xml]. *)
Definition ex_fix : path := ["proj"; "android-resources-manual-fix"].

Definition ex_fix_fs : gmap path entry :=
  <[ex_fix ++ ["drawable"; "splashscreen.xml"] := File (Raw "splash") 7]>
  (<[ex_fix ++ ["drawable"] := Dir]>
  (<[ex_fix ++ ["values"; "strings.xml"] := File (Raw "strings") 3]>
  (<[ex_fix ++ ["values"] := Dir]>
  (<[ex_fix := Dir]> (ex_fs ex_icon_rgb))))).

Definition ex_fix_state : state := mkState ex_fix_fs 100 ∅ 0 [].

(** An RGBA image of 2 x 2 pixels already in memory. *)
Definition ex_heap_state : state :=
  mkState (ex_fs ex_icon_rgb) 100
    {[0 := mkimg mode_RGBA 2 2 (Loaded (fun _ _ => [1; 2; 3; 4]))]} 1 [].

(** An RGBA image of 48 x 48 pixels, the mdpi icon size, in memory. *)
Definition ex_square48_state : state :=
  mkState (ex_fs ex_icon_rgb) 100
    {[0 := mkimg mode_RGBA 48 48 (Loaded (fun _ _ => [1; 2; 3; 4]))]} 1 [].

(** ** Pillow *)

Section Pillow.

(** [resample f m w h px w' h']: the pixels of the [w] x [h] image [px] of
    mode [m] resampled to [w'] x [h'] with filter [f]. *)
Variable resample : resampling -> mode -> Z -> Z -> pixels -> Z -> Z -> pixels.
(** [convert_px m m' w h px]: the pixels of a [w] x [h] image converted from
    mode [m] to mode [m'], or [None] when Pillow has no such conversion. *)
Variable convert_px : mode -> mode -> Z -> Z -> pixels -> option pixels.
(** [ellipse_px x0 y0 x1 y1 x y]: pixel [(x, y)] is covered by the filled
    ellipse that [ImageDraw.ellipse((x0, y0, x1, y1))] rasterises. *)
Variable ellipse_px : Z -> Z -> Z -> Z -> Z -> Z -> bool.

Definition get_obj (i : Z) : M imgobj :=
  fun s => match heap s !! i with
           | Some o => Ok o s
           | None => Exc NotModelled s   (* Python references are never dangling *)
           end.

Definition set_obj (i : Z) (o : imgobj) : M unit :=
  fun s => Ok tt (set_heap s (<[i := o]> (heap s)) (next_id s)).

Definition alloc (o : imgobj) : M Z :=
  fun s => Ok (next_id s) (set_heap s (<[next_id s := o]> (heap s)) (next_id s + 1)).

Definition with_data (o : imgobj) (d : imdata) : imgobj :=
  mkimg (im_mode o) (im_w o) (im_h o) d.

(** [Image.load]: decode a lazy image in place. *)
Definition load (i : Z) : M pixels :=
  o <- get_obj i ;;
  match im_data o with
  | Loaded px => ret px
  | Lazy (Some px) => set_obj i (with_data o (Loaded px)) ;;; ret px
  | Lazy None => raise OSError_truncated
  end.

(** [Image.open]: identify the file from its header and run
    [_decompression_bomb_check] on the declared size; the pixel data is not
    read yet. *)
Definition Image_open (p : path) : M Z :=
  fun s => match lookup_fs (fs s) p with
           | None => Exc FileNotFoundError s
           | Some Dir => Exc IsADirectoryError s
           | Some (File (Raw _) _) => Exc UnidentifiedImageError s
           | Some (File (Encoded m w h body) _) =>
               if decompression_bomb w h then Exc DecompressionBombError s
               else alloc (mkimg m w h (Lazy body)) s
           end.

(** [Image.new(mode, size, color)] *)
Definition Image_new (m : mode) (size : Z * Z) (color : pixel) : M Z :=
  alloc (mkimg m (fst size) (snd size) (Loaded (fun _ _ => color))).

(** [im.convert(mode)]: a new image. *)
Definition convert (i : Z) (m' : mode) : M Z :=
  px <- load i ;;
  o <- get_obj i ;;
  if decide (im_mode o = m') then alloc (with_data o (Loaded px)) else
  match convert_px (im_mode o) m' (im_w o) (im_h o) px with
  | None => raise ValueError
  | Some px' => alloc (mkimg m' (im_w o) (im_h o) (Loaded px'))
  end.

(** The pixels [im.resize((w, h), f)] computes: a plain copy when the size
    is unchanged, nearest-neighbour for bilevel and palette images, the
    requested filter otherwise. *)
Definition resize_px (f : resampling) (m : mode) (w0 h0 : Z) (px : pixels) (w h : Z)
    : pixels :=
  if (w0 =? w) && (h0 =? h) then px
  else resample (match m with mode_1 | mode_P => NEAREST | _ => f end) m w0 h0 px w h.

(** [im.resize(size, f)]: a new image of exactly that size and the same
    mode. *)
Definition resize (i : Z) (size : Z * Z) (f : resampling) : M Z :=
  px <- load i ;;
  o <- get_obj i ;;
  alloc (mkimg (im_mode o) (fst size) (snd size)
           (Loaded (resize_px f (im_mode o) (im_w o) (im_h o) px (fst size) (snd size)))).

(** Modes the PNG writer accepts. *)
Definition png_mode (m : mode) : bool :=
  match m with
  | mode_1 | mode_L | mode_LA | mode_I | mode_I16 | mode_P | mode_RGB | mode_RGBA => true
  | _ => false
  end.

(** [im.save(p, 'PNG')]: the file holds the image losslessly and gets the
    current time. *)
Definition save (i : Z) (p : path) : M unit :=
  px <- load i ;;
  o <- get_obj i ;;
  if png_mode (im_mode o) then
    t <- now ;;
    fs_op (write_file p (Encoded (im_mode o) (im_w o) (im_h o) (Some px)) t) ;;;
    tick
  else raise OSError_cannot_write.

(** [ImageDraw.Draw(im).ellipse(box, fill=ink)] *)
Definition ImageDraw_ellipse (i : Z) (box : Z * Z * Z * Z) (ink : pixel) : M unit :=
  px <- load i ;;
  o <- get_obj i ;;
  let '(x0, y0, x1, y1) := box in
  set_obj i (with_data o
    (Loaded (fun x y => if ellipse_px x0 y0 x1 y1 x y then ink else px x y))).

(** [target.paste(src, (x0, y0))] without a mask: the pixels of [src]
    (converted to the target's mode) replace the covered region. *)
Definition paste (target src : Z) (pos : Z * Z) : M unit :=
  spx <- load src ;;
  so <- get_obj src ;;
  tpx <- load target ;;
  to <- get_obj target ;;
  let '(x0, y0) := pos in
  let put (spx' : pixels) :=
    set_obj target (with_data to (Loaded (fun x y =>
      if (x0 <=? x) && (x <? x0 + im_w so) && (y0 <=? y) && (y <? y0 + im_h so)
      then spx' (x - x0) (y - y0) else tpx x y))) in
  if decide (im_mode so = im_mode to) then put spx else
  match convert_px (im_mode so) (im_mode to) (im_w so) (im_h so) spx with
  | None => raise ValueError
  | Some spx' => put spx'
  end.

(** Replace band [b] of a pixel. *)
Definition set_band (b : nat) (v : Z) (p : pixel) : pixel :=
  firstn b p ++ [v] ++ skipn (S b) p.

(** [im.putalpha(alpha)] with an image of mode "L" or "1" of the same size:
    the alpha band of [im] is overwritten by the values of [alpha]. *)
Definition putalpha (i a : Z) : M unit :=
  px <- load i ;;
  o <- get_obj i ;;
  apx <- load a ;;
  ao <- get_obj a ;;
  let band := match im_mode o with
              | mode_RGBA => Some 3%nat
              | mode_LA | mode_PA => Some 1%nat
              | _ => None   (* Pillow converts first; never the case here *)
              end in
  match band with
  | None => raise NotModelled
  | Some b =>
      if negb (match im_mode ao with mode_L | mode_1 => true | _ => false end)
      then raise ValueError
      else if negb ((im_w ao =? im_w o) && (im_h ao =? im_h o)) then raise ValueError
      else set_obj i (with_data o (Loaded (fun x y => set_band b (hd 0 (apx x y)) (px x y))))
  end.

(** ** The program *)

(** [create_round_icon(square_image)] *)
Definition create_round_icon (square_image : Z) : M Z :=
  o <- get_obj square_image ;;
  let size := (im_w o, im_h o) in
  mask <- Image_new mode_L size [0] ;;
  ImageDraw_ellipse mask (0, 0, fst size, snd size) [255] ;;;
  rounded <- Image_new mode_RGBA size [0; 0; 0; 0] ;;
  paste rounded square_image (0, 0) ;;;
  putalpha rounded mask ;;;
  ret rounded.

(** The [densities] dictionary, in insertion order (the order Python
    iterates it). *)
Definition densities : list (string * Z) :=
  [("mdpi", 48); ("hdpi", 72); ("xhdpi", 96); ("xxhdpi", 144); ("xxxhdpi", 192)].

Definition mipmap_dir (output_base_path : path) (density : string) : path :=
  output_base_path ++ ["mipmap-" +:+ density].

Definition square_path (output_base_path : path) (density : string) : path :=
  mipmap_dir output_base_path density ++ ["ic_launcher.png"].

Definition round_path (output_base_path : path) (density : string) : path :=
  mipmap_dir output_base_path density ++ ["ic_launcher_round.png"].

(** One iteration of the [for density, size in densities.items()] loop. *)
Definition gen_density (output_base_path : path) (source_img : Z) (ds : string * Z)
    : M unit :=
  let '(density, size) := ds in
  mkdir (mipmap_dir output_base_path density) ;;;
  square_resized <- resize source_img (size, size) LANCZOS ;;
  save square_resized (square_path output_base_path density) ;;;
  print (MsgCreated (square_path output_base_path density) size) ;;;
  round_resized <- create_round_icon square_resized ;;
  save round_resized (round_path output_base_path density) ;;;
  print (MsgCreated (round_path output_base_path density) size).

(** The body of the [try] block: open and, if needed, convert to RGBA. *)
Definition open_rgba (source_icon_path : path) : M Z :=
  source_img <- Image_open source_icon_path ;;
  o <- get_obj source_img ;;
  if decide (im_mode o = mode_RGBA) then ret source_img
  else convert source_img mode_RGBA.

(** [generate_icons(source_icon_path, output_base_path)], over a density
    table ([densities] in the program). *)
Definition generate_icons_with (table : list (string * Z))
    (source_icon_path output_base_path : path) : M bool :=
  print (MsgLoading source_icon_path) ;;;
  r <- try_except (i <- open_rgba source_icon_path ;; ret (Some i))
         (fun e => print (MsgLoadError source_icon_path e) ;;; ret None) ;;
  match r with
  | None => ret false
  | Some source_img =>
      o <- get_obj source_img ;;
      print (MsgSourceSize (im_w o) (im_h o)) ;;;
      print (Text "") ;;;
      for_each table (gen_density output_base_path source_img) ;;;
      print (Text "") ;;;
      print (Text "SUCCESS! All Android icons generated.") ;;;
      ret true
  end.

Definition generate_icons (source_icon_path output_base_path : path) : M bool :=
  generate_icons_with densities source_icon_path output_base_path.

(** The [xml_files] list of [copy_xml_resources]. *)
Definition xml_files : list (path * string) :=
  [(["values"; "strings.xml"], "values");
   (["values"; "styles.xml"], "values");
   (["values"; "colors.xml"], "values");
   (["drawable"; "splashscreen.xml"], "drawable")].

Definition copy_one (source_dir dest_dir : path) (fsub : path * string) : M unit :=
  let '(file_path, subdir) := fsub in
  let src := source_dir ++ file_path in
  let dest_dir_path := dest_dir ++ [subdir] in
  mkdir dest_dir_path ;;;
  let dest := dest_dir_path ++ [basename file_path] in
  b <- path_exists src ;;
  if b then (copy2 src dest ;;; print (MsgCopied dest))
  else print (MsgSourceNotFound src).

(** [copy_xml_resources(source_dir, dest_dir)]; the leading newline of the
    first message is part of its text. *)
Definition copy_xml_resources (source_dir dest_dir : path) : M unit :=
  print (Text "Copying XML resources...") ;;;
  for_each xml_files (copy_one source_dir dest_dir) ;;;
  print (Text "").

Definition banner : M unit :=
  print (Text "============================================================") ;;;
  print (Text "  Android Icon & Resource Generator") ;;;
  print (Text "============================================================") ;;;
  print (Text "").

Definition source_icon (project_root : path) : path :=
  project_root ++ ["assets"; "icon.png"].
Definition android_res (project_root : path) : path :=
  project_root ++ ["android"; "app"; "src"; "main"; "res"].
Definition manual_fix_dir (project_root : path) : path :=
  project_root ++ ["android-resources-manual-fix"].

(** [main()]; [project_root] is [Path(__file__).parent]. *)
Definition main (project_root : path) : M unit :=
  banner ;;;
  b1 <- path_exists (source_icon project_root) ;;
  (if b1 then ret tt
   else (print (MsgSourceIconNotFound (source_icon project_root)) ;;;
         raise (SystemExit 1))) ;;;
  b2 <- path_exists (android_res project_root) ;;
  (if b2 then ret tt
   else (print (MsgResNotFound (android_res project_root)) ;;;
         print (Text "") ;;;
         print (Text "Please ensure you have an android/ directory in your project.") ;;;
         print (Text "You may need to run: npx react-native init or similar") ;;;
         raise (SystemExit 1))) ;;;
  success <- generate_icons (source_icon project_root) (android_res project_root) ;;
  (if success then ret tt else raise (SystemExit 1)) ;;;
  b3 <- path_exists (manual_fix_dir project_root) ;;
  (if b3 then copy_xml_resources (manual_fix_dir project_root) (android_res project_root)
   else (print (Text "Note: android-resources-manual-fix directory not found.") ;;;
         print (Text "XML resources (strings.xml, styles.xml, etc.) not copied."))) ;;;
  print (Text "============================================================") ;;;
  print (Text "  COMPLETE!") ;;;
  print (Text "============================================================") ;;;
  print (Text "") ;;;
  print (Text "Next steps:") ;;;
  print (Text "  1. cd android") ;;;
  print (Text "  2. .\gradlew clean") ;;;
  print (Text "  3. .\gradlew assembleRelease") ;;;
  print (Text "") ;;;
  ret tt.

(** Exit status of the interpreter: [sys.exit(c)] exits with [c]; an
    uncaught exception prints a traceback and exits with 1. *)
Definition exit_status {A} (r : result A) : Z :=
  match r with
  | Ok _ _ => 0
  | Exc (SystemExit c) _ => c
  | Exc _ _ => 1
  end.

(** ** Observations used by the statements *)

(** [dirs_ok m cur rest]: every prefix [cur ++ take n rest] ([n >= 1]) is
    a directory of [m]. *)
Fixpoint dirs_ok (m : gmap path entry) (cur : path) (rest : list string) : Prop :=
  match rest with
  | [] => True
  | c :: cs => m !! (cur ++ [c]) = Some Dir /\ dirs_ok m (cur ++ [c]) cs
  end.

(** The mask [create_round_icon] draws, and the pixels of its result for a
    [w] x [h] square image with pixels [px]. *)
Definition mask_px (w h : Z) : pixels :=
  fun x y => if ellipse_px 0 0 w h x y then [255] else [0].

Definition round_px (w h : Z) (px : pixels) : pixels :=
  fun x y => set_band 3 (hd 0 (mask_px w h x y))
    (if (0 <=? x) && (x <? 0 + w) && (0 <=? y) && (y <? 0 + h)
     then px (x - 0) (y - 0) else [0; 0; 0; 0]).

(** What the loop writes for a density of edge [e], from an RGBA source of
    size [w] x [h] with pixels [px]. *)
Definition square_blob (w h : Z) (px : pixels) (e : Z) : blob :=
  Encoded mode_RGBA e e (Some (resize_px LANCZOS mode_RGBA w h px e e)).

Definition round_blob (w h : Z) (px : pixels) (e : Z) : blob :=
  Encoded mode_RGBA e e (Some (round_px e e (resize_px LANCZOS mode_RGBA w h px e e))).

(** An RGBA source image object whose pixels are (or decode to) [px]. *)
Definition src_obj (s : state) (i w h : Z) (px : pixels) : Prop :=
  (exists d, heap s !! i = Some (mkimg mode_RGBA w h d) /\
             (d = Loaded px \/ d = Lazy (Some px))) /\ i < next_id s.

Definition alpha_of (p : pixel) : Z := nth 3 p 0.

(** The RGBA image a source file decodes to: its size and its pixels, after
    conversion when the file is not RGBA.  [None] also when [Image.open]
    refuses the declared size. *)
Definition decode_rgba (b : blob) : option (Z * Z * pixels) :=
  match b with
  | Encoded m w h (Some body) =>
      if decompression_bomb w h then None else
      if decide (m = mode_RGBA) then Some (w, h, body)
      else match convert_px m mode_RGBA w h body with
           | Some px => Some (w, h, px)
           | None => None
           end
  | _ => None
  end.

(** The files the loop writes, and the lines it prints, for a table. *)
Definition written_paths (root : path) (table : list (string * Z)) : list path :=
  concat (map (fun de => [square_path root de.1; round_path root de.1]) table).

Definition created_lines (root : path) (table : list (string * Z)) : list msg :=
  concat (map (fun de => [MsgCreated (square_path root de.1) de.2;
                          MsgCreated (round_path root de.1) de.2]) table).

(** The line [copy_xml_resources] prints for an entry of [xml_files], in a
    file system [m] where the entry's relative path is not empty. *)
Definition copy_line (source_dir dest_dir : path) (m : gmap path entry)
    (fsub : path * string) : msg :=
  let '(file_path, subdir) := fsub in
  match m !! (source_dir ++ file_path) with
  | Some _ => MsgCopied ((dest_dir ++ [subdir]) ++ [basename file_path])
  | None => MsgSourceNotFound (source_dir ++ file_path)
  end.

(** What a computation may do to the file system: every path outside [P]
    keeps its entry, and no path that exists is removed. *)
Definition changes_within (P : path -> Prop) (m m' : gmap path entry) : Prop :=
  (forall k, ~ P k -> m' !! k = m !! k) /\
  (forall k, is_Some (m !! k) -> is_Some (m' !! k)).

(** [c] changes the file system only within [P], whether it returns or
    raises. *)
Definition fs_within {A} (P : path -> Prop) (c : M A) : Prop :=
  forall s, changes_within P (fs s) (fs (result_state (c s))).

Definition keeps_fs {A} (c : M A) : Prop :=
  forall s, fs (result_state (c s)) = fs s.

(** [c] never turns an existing directory into anything else. *)
Definition keeps_dirs {A} (c : M A) : Prop :=
  forall s k, fs s !! k = Some Dir -> fs (result_state (c s)) !! k = Some Dir.

(** [c] never raises [SystemExit]. *)
Definition no_exit {A} (c : M A) : Prop :=
  forall s e s', c s = Exc e s' -> forall code, e <> SystemExit code.

(** Every [SystemExit] that [c] raises carries [code]. *)
Definition exits_with {A} (code : Z) (c : M A) : Prop :=
  forall s c' s', c s = Exc (SystemExit c') s' -> c' = code.

(** The paths one iteration of the density loop may change. *)
Definition density_paths (root : path) (d : string) (k : path) : Prop :=
  k = square_path root d \/ k = round_path root d \/
  (k <> [] /\ k `prefix_of` mipmap_dir root d).

(** ** Monad and object steps *)

Lemma bind_Ok {A B} (m : M A) (k : A -> M B) s a s' :
  m s = Ok a s' -> bind m k s = k a s'.
Proof. intros H. unfold bind. now rewrite H. Qed.

Lemma bind_Exc {A B} (m : M A) (k : A -> M B) s e s' :
  m s = Exc e s' -> bind m k s = Exc e s'.
Proof. intros H. unfold bind. now rewrite H. Qed.

Lemma set_heap_same s : set_heap s (heap s) (next_id s) = s.
Proof. now destruct s. Qed.

Lemma get_obj_Ok s i o : heap s !! i = Some o -> get_obj i s = Ok o s.
Proof. intros H. unfold get_obj. now rewrite H. Qed.

Lemma load_Loaded s i m w h px :
  heap s !! i = Some (mkimg m w h (Loaded px)) -> load i s = Ok px s.
Proof. intros H. unfold load. rewrite (bind_Ok _ _ _ _ _ (get_obj_Ok _ _ _ H)). reflexivity. Qed.

Lemma load_Ok s i m w h d px :
  heap s !! i = Some (mkimg m w h d) -> d = Loaded px \/ d = Lazy (Some px) ->
  load i s = Ok px (set_heap s (<[i := mkimg m w h (Loaded px)]> (heap s)) (next_id s)).
Proof.
  intros H [-> | ->].
  - rewrite (load_Loaded _ _ _ _ _ _ H). rewrite insert_id by exact H.
    now rewrite set_heap_same.
  - unfold load. rewrite (bind_Ok _ _ _ _ _ (get_obj_Ok _ _ _ H)). reflexivity.
Qed.

Lemma resize_Ok s i m w h d px a b f :
  heap s !! i = Some (mkimg m w h d) -> d = Loaded px \/ d = Lazy (Some px) ->
  resize i (a, b) f s =
  Ok (next_id s)
    (set_heap s (<[next_id s := mkimg m a b (Loaded (resize_px f m w h px a b))]>
                  (<[i := mkimg m w h (Loaded px)]> (heap s))) (next_id s + 1)).
Proof.
  intros H Hd. unfold resize.
  rewrite (bind_Ok _ _ _ _ _ (load_Ok _ _ _ _ _ _ _ H Hd)).
  rewrite (bind_Ok _ _ _ _ _ (get_obj_Ok _ _ _ (lookup_insert_eq _ _ _))).
  reflexivity.
Qed.

Lemma save_Ok s i m w h px p :
  heap s !! i = Some (mkimg m w h (Loaded px)) -> png_mode m = true ->
  save i p s =
  match write_file p (Encoded m w h (Some px)) (clock s) (fs s) with
  | inl e => Exc e s
  | inr fs' => Ok tt (mkState fs' (clock s + 1) (heap s) (next_id s) (out s))
  end.
Proof.
  intros H Hm. unfold save.
  rewrite (bind_Ok _ _ _ _ _ (load_Loaded _ _ _ _ _ _ H)).
  rewrite (bind_Ok _ _ _ _ _ (get_obj_Ok _ _ _ H)). cbn [im_mode im_w im_h].
  rewrite Hm. unfold bind, now, fs_op. cbn.
  destruct (write_file _ _ _ _); reflexivity.
Qed.

Lemma alloc_Ok s o :
  alloc o s = Ok (next_id s) (set_heap s (<[next_id s := o]> (heap s)) (next_id s + 1)).
Proof. reflexivity. Qed.

Lemma ellipse_Ok s i m w h px x0 y0 x1 y1 ink :
  heap s !! i = Some (mkimg m w h (Loaded px)) ->
  ImageDraw_ellipse i (x0, y0, x1, y1) ink s =
  Ok tt (set_heap s (<[i := mkimg m w h (Loaded (fun x y =>
            if ellipse_px x0 y0 x1 y1 x y then ink else px x y))]> (heap s)) (next_id s)).
Proof.
  intros H. unfold ImageDraw_ellipse.
  rewrite (bind_Ok _ _ _ _ _ (load_Loaded _ _ _ _ _ _ H)).
  rewrite (bind_Ok _ _ _ _ _ (get_obj_Ok _ _ _ H)). reflexivity.
Qed.

Lemma paste_Ok s t src m tw th tpx sw sh spx x0 y0 :
  heap s !! t = Some (mkimg m tw th (Loaded tpx)) ->
  heap s !! src = Some (mkimg m sw sh (Loaded spx)) ->
  paste t src (x0, y0) s =
  Ok tt (set_heap s (<[t := mkimg m tw th (Loaded (fun x y =>
      if (x0 <=? x) && (x <? x0 + sw) && (y0 <=? y) && (y <? y0 + sh)
      then spx (x - x0) (y - y0) else tpx x y))]> (heap s)) (next_id s)).
Proof.
  intros Ht Hs. unfold paste.
  rewrite (bind_Ok _ _ _ _ _ (load_Loaded _ _ _ _ _ _ Hs)).
  rewrite (bind_Ok _ _ _ _ _ (get_obj_Ok _ _ _ Hs)).
  rewrite (bind_Ok _ _ _ _ _ (load_Loaded _ _ _ _ _ _ Ht)).
  rewrite (bind_Ok _ _ _ _ _ (get_obj_Ok _ _ _ Ht)).
  cbn [im_mode im_w im_h]. rewrite decide_True by reflexivity. reflexivity.
Qed.

Lemma putalpha_Ok s i a w h px apx :
  heap s !! i = Some (mkimg mode_RGBA w h (Loaded px)) ->
  heap s !! a = Some (mkimg mode_L w h (Loaded apx)) ->
  putalpha i a s =
  Ok tt (set_heap s (<[i := mkimg mode_RGBA w h (Loaded (fun x y =>
      set_band 3 (hd 0 (apx x y)) (px x y)))]> (heap s)) (next_id s)).
Proof.
  intros Hi Ha. unfold putalpha.
  rewrite (bind_Ok _ _ _ _ _ (load_Loaded _ _ _ _ _ _ Hi)).
  rewrite (bind_Ok _ _ _ _ _ (get_obj_Ok _ _ _ Hi)).
  rewrite (bind_Ok _ _ _ _ _ (load_Loaded _ _ _ _ _ _ Ha)).
  rewrite (bind_Ok _ _ _ _ _ (get_obj_Ok _ _ _ Ha)).
  cbn [im_mode im_w im_h negb]. rewrite !Z.eqb_refl. reflexivity.
Qed.

Ltac heap_lookup :=
  cbn [heap next_id set_heap];
  repeat first [ rewrite lookup_insert_eq
               | rewrite lookup_insert_ne by lia ];
  first [ reflexivity | eassumption ].

Lemma create_round_icon_Ok s i w h px :
  heap s !! i = Some (mkimg mode_RGBA w h (Loaded px)) -> i < next_id s ->
  create_round_icon i s =
  Ok (next_id s + 1)
    (mkState (fs s) (clock s)
       (<[next_id s + 1 := mkimg mode_RGBA w h (Loaded (round_px w h px))]>
          (<[next_id s := mkimg mode_L w h (Loaded (mask_px w h))]> (heap s)))
       (next_id s + 2) (out s)).
Proof.
  intros H Hlt. unfold create_round_icon.
  rewrite (bind_Ok _ _ _ _ _ (get_obj_Ok _ _ _ H)). cbn [im_w im_h fst snd].
  unfold Image_new at 1. rewrite (bind_Ok _ _ _ _ _ (alloc_Ok _ _)). cbn [fst snd].
  erewrite bind_Ok by (apply ellipse_Ok; heap_lookup).
  unfold Image_new. erewrite bind_Ok by (apply alloc_Ok).
  erewrite bind_Ok by (apply paste_Ok; heap_lookup).
  erewrite bind_Ok by (apply putalpha_Ok; heap_lookup).
  unfold ret, set_heap. cbn [heap next_id fs clock out].
  rewrite !insert_insert_eq.
  replace (next_id s + 1 + 1) with (next_id s + 2) by lia.
  reflexivity.
Qed.

(** ** C1: the round variant *)

Lemma in_box_true x y w h :
  0 <= x < w -> 0 <= y < h ->
  (0 <=? x) && (x <? 0 + w) && (0 <=? y) && (y <? 0 + h) = true.
Proof.
  intros Hx Hy. repeat (apply andb_true_intro; split); apply Z.leb_le || apply Z.ltb_lt; lia.
Qed.

Lemma set_band_3_four (a : Z) (p : pixel) :
  length p = 4%nat -> set_band 3 a p = firstn 3 p ++ [a].
Proof.
  intros Hl. unfold set_band. rewrite (skipn_all2 p) by lia. now rewrite app_nil_r.
Qed.

(** For a loaded RGBA square image [i] of size [w] x [h], whatever the
    rasteriser: [create_round_icon] returns a new RGBA image of the same
    size whose alpha band is the mask drawn for the box [(0, 0, w, h)] and
    whose colour bands are those of [i]; the mask is the object allocated
    just before it. *)
Lemma create_round_icon_mask s i w h px :
  heap s !! i = Some (mkimg mode_RGBA w h (Loaded px)) -> i < next_id s ->
  (forall x y, length (px x y) = 4%nat) ->
  exists r s',
    create_round_icon i s = Ok r s' /\
    heap s' !! r = Some (mkimg mode_RGBA w h (Loaded (round_px w h px))) /\
    heap s' !! (r - 1) = Some (mkimg mode_L w h (Loaded (mask_px w h))) /\
    (forall x y, 0 <= x < w -> 0 <= y < h ->
       round_px w h px x y = firstn 3 (px x y) ++ [if ellipse_px 0 0 w h x y then 255 else 0] /\
       alpha_of (round_px w h px x y) = (if ellipse_px 0 0 w h x y then 255 else 0)).
Proof.
  intros Hi Hlt H4.
  assert (Hpix : forall x y, 0 <= x < w -> 0 <= y < h ->
            round_px w h px x y =
            firstn 3 (px x y) ++ [if ellipse_px 0 0 w h x y then 255 else 0]).
  { intros x y Hx Hy. unfold round_px, mask_px.
    rewrite in_box_true by lia. rewrite !Z.sub_0_r.
    rewrite set_band_3_four by apply H4.
    now destruct (ellipse_px 0 0 w h x y). }
  exists (next_id s + 1),
    (mkState (fs s) (clock s)
       (<[next_id s + 1 := mkimg mode_RGBA w h (Loaded (round_px w h px))]>
          (<[next_id s := mkimg mode_L w h (Loaded (mask_px w h))]> (heap s)))
       (next_id s + 2) (out s)).
  split; [now apply create_round_icon_Ok |].
  split; [cbn [heap]; apply lookup_insert_eq |].
  split.
  { cbn [heap]. replace (next_id s + 1 - 1) with (next_id s) by lia.
    rewrite lookup_insert_ne by lia. apply lookup_insert_eq. }
  intros x y Hx Hy. split; [now apply Hpix |].
  rewrite Hpix by lia. unfold alpha_of.
  rewrite app_nth2; rewrite length_firstn, H4; cbn; reflexivity || lia.
Qed.

(** ** File-system lemmas *)

Lemma mkdir_walk_keep cur rest m m' k v :
  mkdir_walk cur rest m = inr m' -> m !! k = Some v -> m' !! k = Some v.
Proof.
  revert cur m. induction rest as [|c cs IH]; intros cur m Hw Hk; cbn in Hw.
  - now injection Hw as <-.
  - destruct (m !! (cur ++ [c])) as [[|b t]|] eqn:E.
    + eauto.
    + discriminate.
    + apply (IH _ _ Hw). rewrite lookup_insert_ne; [exact Hk | congruence].
Qed.

Lemma mkdir_walk_far cur rest m m' k :
  mkdir_walk cur rest m = inr m' -> (length cur + length rest < length k)%nat ->
  m' !! k = m !! k.
Proof.
  revert cur m. induction rest as [|c cs IH]; intros cur m Hw Hk; cbn in Hw, Hk.
  - now injection Hw as <-.
  - assert (Hlen : (length (cur ++ [c]) + length cs < length k)%nat)
      by (rewrite length_app; cbn; lia).
    destruct (m !! (cur ++ [c])) as [[|b t]|] eqn:E.
    + eauto.
    + discriminate.
    + rewrite (IH _ _ Hw Hlen). apply lookup_insert_ne.
      intros Heq. rewrite <- Heq, length_app in Hk. cbn in Hk. lia.
Qed.

Lemma mkdir_walk_post cur rest m m' :
  mkdir_walk cur rest m = inr m' -> dirs_ok m' cur rest.
Proof.
  revert cur m. induction rest as [|c cs IH]; intros cur m Hw; cbn in Hw |- *; [done |].
  destruct (m !! (cur ++ [c])) as [[|b t]|] eqn:E.
  - split; [exact (mkdir_walk_keep _ _ _ _ _ _ Hw E) | eauto].
  - discriminate.
  - split; [| eauto]. eapply mkdir_walk_keep; [exact Hw | apply lookup_insert_eq].
Qed.

Lemma mkdir_walk_noop cur rest m :
  dirs_ok m cur rest -> mkdir_walk cur rest m = inr m.
Proof.
  revert cur. induction rest as [|c cs IH]; intros cur Hd; cbn in Hd |- *; [done |].
  destruct Hd as [-> Hd]. auto.
Qed.

Lemma dirs_ok_mono cur rest m m' :
  (forall k, (length k <= length cur + length rest)%nat ->
     m !! k = Some Dir -> m' !! k = Some Dir) ->
  dirs_ok m cur rest -> dirs_ok m' cur rest.
Proof.
  revert cur. induction rest as [|c cs IH]; intros cur Hk Hd; cbn in Hd |- *; [done |].
  destruct Hd as [H1 H2]. split.
  - apply Hk; [rewrite length_app; cbn; lia | exact H1].
  - apply IH; [| exact H2]. intros k Hl. apply Hk. rewrite length_app in Hl. cbn in *; lia.
Qed.

Lemma dirs_ok_last cur rest m :
  dirs_ok m cur rest -> rest <> [] -> m !! (cur ++ rest) = Some Dir.
Proof.
  revert cur. induction rest as [|c cs IH]; intros cur Hd Hne; [congruence |].
  destruct Hd as [H1 H2]. destruct cs as [|c' cs'].
  - exact H1.
  - replace (cur ++ c :: c' :: cs') with ((cur ++ [c]) ++ c' :: cs')
      by now rewrite <- app_assoc.
    apply IH; [exact H2 | congruence].
Qed.

Lemma write_file_inv p b t m m' :
  write_file p b t m = inr m' -> m' = <[p := File b t]> m.
Proof.
  unfold write_file. destruct (lookup_fs m (removelast p)) as [[|? ?]|]; try discriminate.
  destruct (lookup_fs m p) as [[|? ?]|]; try discriminate; congruence.
Qed.

Lemma write_file_ok p b t m :
  p <> [] -> lookup_fs m (removelast p) = Some Dir -> m !! p <> Some Dir ->
  write_file p b t m = inr (<[p := File b t]> m).
Proof.
  intros Hp Hpar Hnd. unfold write_file. rewrite Hpar.
  destruct p as [|c cs]; [congruence |]. cbn [lookup_fs].
  destruct (m !! (c :: cs)) as [[|? ?]|]; congruence.
Qed.

Lemma strip_insert k e m : strip (<[k := e]> m) = <[k := centry_of e]> (strip m).
Proof. unfold strip. apply fmap_insert. Qed.

Lemma strip_dir m m' k : strip m = strip m' -> m !! k = Some Dir -> m' !! k = Some Dir.
Proof.
  intros Hs Hk. assert (Hl : strip m !! k = strip m' !! k) by now rewrite Hs.
  unfold strip in Hl. rewrite !lookup_fmap, Hk in Hl.
  destruct (m' !! k) as [[|? ?]|]; cbn in Hl; congruence.
Qed.

Lemma strip_not_dir m m' k : strip m = strip m' -> m !! k <> Some Dir -> m' !! k <> Some Dir.
Proof. intros Hs Hk Hk'. apply Hk. exact (strip_dir m' m k (eq_sym Hs) Hk'). Qed.

Lemma dirs_ok_strip m m' cur rest :
  strip m = strip m' -> dirs_ok m cur rest -> dirs_ok m' cur rest.
Proof. intros Hs. apply dirs_ok_mono. intros k _. now apply strip_dir. Qed.

Lemma mipmap_inj d d' : "mipmap-" +:+ d = "mipmap-" +:+ d' -> d = d'.
Proof. intros H. cbn in H. now inversion H. Qed.

Lemma removelast_snoc (p : path) (c : string) : removelast (p ++ [c]) = p.
Proof. apply removelast_last. Qed.

Lemma lookup_fs_nonempty m (p : path) c : lookup_fs m (p ++ [c]) = m !! (p ++ [c]).
Proof. now destruct p. Qed.

(** ** One density *)

Lemma print_Ok m s :
  print m s = Ok tt (mkState (fs s) (clock s) (heap s) (next_id s) (out s ++ [m])).
Proof. reflexivity. Qed.

Ltac rec_simpl := cbn [heap fs clock next_id out set_fs set_heap im_mode im_w im_h fst snd] in *.

Lemma gen_density_run root si d e w h px s u s' :
  src_obj s si w h px ->
  gen_density root si (d, e) s = Ok u s' ->
  exists m1 m2,
    mkdir_p (mipmap_dir root d) (fs s) = inr m1 /\
    write_file (square_path root d) (square_blob w h px e) (clock s) m1 = inr m2 /\
    write_file (round_path root d) (round_blob w h px e) (clock s + 1) m2 = inr (fs s') /\
    clock s' = clock s + 2 /\
    out s' = out s ++ [MsgCreated (square_path root d) e; MsgCreated (round_path root d) e] /\
    heap s' !! si = Some (mkimg mode_RGBA w h (Loaded px)) /\
    (forall j, j < next_id s -> j <> si -> heap s' !! j = heap s !! j) /\
    next_id s' = next_id s + 3.
Proof.
  intros [[dd [Hsi Hdd]] Hlt] H. unfold gen_density, mkdir, fs_op in H.
  unfold bind at 1 in H.
  destruct (mkdir_p (mipmap_dir root d) (fs s)) as [err|m1] eqn:E1; [discriminate |].
  rewrite (bind_Ok _ _ _ _ _ (resize_Ok (set_fs s m1) si _ _ _ _ px e e LANCZOS Hsi Hdd)) in H.
  unfold bind at 1 in H.
  erewrite save_Ok in H; [| heap_lookup | reflexivity].
  rec_simpl.
  destruct (write_file (square_path root d) _ (clock s) m1) as [err|m2] eqn:E2;
    [discriminate |].
  rewrite (bind_Ok _ _ _ _ _ (print_Ok _ _)) in H.
  erewrite bind_Ok in H by (apply create_round_icon_Ok; [heap_lookup | rec_simpl; lia]).
  unfold bind at 1 in H.
  erewrite save_Ok in H; [| heap_lookup | reflexivity].
  rec_simpl.
  destruct (write_file (round_path root d) _ _ m2) as [err|m3] eqn:E3; [discriminate |].
  rewrite print_Ok in H. injection H as <- <-. rec_simpl.
  exists m1, m2. split; [reflexivity |].
  split; [exact E2 |]. split; [exact E3 |].
  split; [lia |]. split; [now rewrite <- app_assoc |].
  split; [| split].
  - rewrite !lookup_insert_ne by lia. apply lookup_insert_eq.
  - intros j Hj Hne. rewrite !lookup_insert_ne by lia. reflexivity.
  - lia.
Qed.

(** ** The density loop *)

Lemma square_path_inj root d d' : square_path root d = square_path root d' -> d = d'.
Proof.
  unfold square_path, mipmap_dir. rewrite <- !app_assoc. intros H.
  apply app_inv_head in H. injection H as H. first [exact H | now apply mipmap_inj | now inversion H].
Qed.

Lemma round_path_inj root d d' : round_path root d = round_path root d' -> d = d'.
Proof.
  unfold round_path, mipmap_dir. rewrite <- !app_assoc. intros H.
  apply app_inv_head in H. injection H as H. first [exact H | now apply mipmap_inj | now inversion H].
Qed.

Lemma square_round_ne root d d' : square_path root d <> round_path root d'.
Proof.
  unfold square_path, round_path, mipmap_dir. rewrite <- !app_assoc. intros H.
  apply app_inv_head in H. discriminate.
Qed.

Lemma length_square_path root d : length (square_path root d) = (length root + 2)%nat.
Proof. unfold square_path, mipmap_dir. rewrite !length_app. cbn. lia. Qed.

Lemma length_round_path root d : length (round_path root d) = (length root + 2)%nat.
Proof. unfold round_path, mipmap_dir. rewrite !length_app. cbn. lia. Qed.

Lemma length_mipmap_dir root d : length (mipmap_dir root d) = (length root + 1)%nat.
Proof. unfold mipmap_dir. rewrite !length_app. cbn. lia. Qed.

Lemma in_written root tbl k :
  In k (written_paths root tbl) <->
  exists d e, In (d, e) tbl /\ (k = square_path root d \/ k = round_path root d).
Proof.
  unfold written_paths. rewrite in_concat. split.
  - intros [l [Hl Hk]]. apply in_map_iff in Hl as [[d e] [<- Hde]].
    exists d, e. split; [exact Hde |]. cbn in Hk. intuition.
  - intros [d [e [Hde Hk]]]. exists [square_path root d; round_path root d].
    split; [apply in_map_iff; exists (d, e); auto | cbn; intuition].
Qed.

Lemma short_not_written root tbl k :
  (length k <= length root + 1)%nat -> ~ In k (written_paths root tbl).
Proof.
  intros Hl Hin. apply in_written in Hin as [d [e [_ [-> | ->]]]].
  - rewrite length_square_path in Hl. lia.
  - rewrite length_round_path in Hl. lia.
Qed.

Lemma fresh_not_written root tbl d :
  ~ In d (map fst tbl) ->
  ~ In (square_path root d) (written_paths root tbl) /\
  ~ In (round_path root d) (written_paths root tbl).
Proof.
  intros Hd. split; intros Hin; apply in_written in Hin as [d' [e' [Hde [Hk | Hk]]]];
    apply Hd; apply in_map_iff; exists (d', e'); split; auto.
  - cbn. symmetry. exact (square_path_inj _ _ _ Hk).
  - exfalso. exact (square_round_ne _ _ _ Hk).
  - exfalso. exact (square_round_ne _ _ _ (eq_sym Hk)).
  - cbn. symmetry. exact (round_path_inj _ _ _ Hk).
Qed.

(** The directory and both files of one iteration are in place after it. *)
Lemma gen_density_post root d e w h px m m1 m2 m3 t :
  mkdir_p (mipmap_dir root d) m = inr m1 ->
  write_file (square_path root d) (square_blob w h px e) t m1 = inr m2 ->
  write_file (round_path root d) (round_blob w h px e) (t + 1) m2 = inr m3 ->
  dirs_ok m3 [] (mipmap_dir root d) /\
  m3 !! square_path root d = Some (File (square_blob w h px e) t) /\
  m3 !! round_path root d = Some (File (round_blob w h px e) (t + 1)) /\
  (forall k v, m !! k = Some v -> k <> square_path root d -> k <> round_path root d ->
     m3 !! k = Some v).
Proof.
  intros E1 E2 E3. apply write_file_inv in E2, E3. subst m2 m3.
  split; [| split; [| split]].
  - apply (dirs_ok_mono _ _ m1); [| exact (mkdir_walk_post _ _ _ _ E1)].
    intros k Hk Hd. cbn in Hk. rewrite length_mipmap_dir in Hk.
    rewrite !lookup_insert_ne; [exact Hd | |]; intros Heq; rewrite <- Heq in Hk;
      [rewrite length_square_path in Hk | rewrite length_round_path in Hk]; lia.
  - rewrite lookup_insert_ne by (intros Heq; exact (square_round_ne _ _ _ (eq_sym Heq))).
    apply lookup_insert_eq.
  - apply lookup_insert_eq.
  - intros k v Hk H1 H2. rewrite !lookup_insert_ne by congruence.
    exact (mkdir_walk_keep _ _ _ _ _ _ E1 Hk).
Qed.

Lemma loop_run root si tbl w h px s u s' :
  NoDup (map fst tbl) ->
  src_obj s si w h px ->
  for_each tbl (gen_density root si) s = Ok u s' ->
  src_obj s' si w h px /\
  (forall j, j < next_id s -> j <> si -> heap s' !! j = heap s !! j) /\
  out s' = out s ++ created_lines root tbl /\
  (forall k v, fs s !! k = Some v -> ~ In k (written_paths root tbl) -> fs s' !! k = Some v) /\
  (forall d e, In (d, e) tbl ->
     dirs_ok (fs s') [] (mipmap_dir root d) /\
     (exists t, fs s' !! square_path root d = Some (File (square_blob w h px e) t)) /\
     (exists t, fs s' !! round_path root d = Some (File (round_blob w h px e) t))).
Proof.
  revert s. induction tbl as [|[d e] tbl IH]; intros s Hnd Hsrc H.
  - cbn in H. unfold ret in H. injection H as _ <-.
    split; [exact Hsrc |]. split; [done |]. split; [now rewrite app_nil_r |].
    split; [done |]. intros ? ? [].
  - cbn [for_each] in H. unfold bind at 1 in H.
    destruct (gen_density root si (d, e) s) as [u1 s1|err s1] eqn:E; [| discriminate].
    destruct (gen_density_run _ _ _ _ _ _ _ _ _ _ Hsrc E)
      as [m1 [m2 [E1 [E2 [E3 [Hc [Ho [Hsi [Hfr Hn]]]]]]]]].
    cbn [map fst] in Hnd. apply NoDup_cons in Hnd as [Hd Hnd].
    assert (Hsrc1 : src_obj s1 si w h px).
    { split; [exists (Loaded px); auto | destruct Hsrc; lia]. }
    destruct (IH s1 Hnd Hsrc1 H) as [Hsrc' [Hfr' [Ho' [Hkeep' Hfiles']]]].
    destruct (gen_density_post _ _ _ _ _ _ _ _ _ _ _ E1 E2 E3)
      as [Hdir1 [Hsq1 [Hrd1 Hkeep1]]].
    assert (Hd' : ~ In d (map fst tbl))
      by (intros Hin; apply Hd; apply list_elem_of_In; exact Hin).
    destruct (fresh_not_written root tbl d Hd') as [Hnsq Hnrd].
    split; [exact Hsrc' |].
    split.
    { intros j Hj Hne. rewrite Hfr' by lia. now apply Hfr. }
    split; [rewrite Ho', Ho; unfold created_lines; cbn; now rewrite <- app_assoc |].
    split.
    { intros k v Hk Hnin. apply Hkeep'.
      - apply Hkeep1; [exact Hk | |]; intros ->; apply Hnin; cbn; auto.
      - intros Hin. apply Hnin. cbn. right. right. exact Hin. }
    intros d' e' [Hde | Hin].
    + injection Hde as <- <-. split; [| split].
      * apply (dirs_ok_mono _ _ (fs s1)); [| exact Hdir1].
        intros k Hk Hdk. cbn in Hk. rewrite length_mipmap_dir in Hk.
        apply Hkeep'; [exact Hdk |]. apply short_not_written. lia.
      * exists (clock s). now apply Hkeep'.
      * exists (clock s + 1). now apply Hkeep'.
    + now apply Hfiles'.
Qed.

(** ** Opening the source *)

Lemma Image_open_Ok p s m w h body t :
  lookup_fs (fs s) p = Some (File (Encoded m w h body) t) ->
  decompression_bomb w h = false ->
  Image_open p s = alloc (mkimg m w h (Lazy body)) s.
Proof. intros H Hb. unfold Image_open. now rewrite H, Hb. Qed.

Lemma open_rgba_run src s i s' :
  open_rgba src s = Ok i s' ->
  fs s' = fs s /\ clock s' = clock s /\ out s' = out s /\
  next_id s <= next_id s' /\ i < next_id s' /\
  (forall j, j < next_id s -> heap s' !! j = heap s !! j) /\
  exists m w h body t,
    lookup_fs (fs s) src = Some (File (Encoded m w h body) t) /\
    decompression_bomb w h = false /\
    ((m = mode_RGBA /\ heap s' !! i = Some (mkimg mode_RGBA w h (Lazy body))) \/
     (exists px, decode_rgba (Encoded m w h body) = Some (w, h, px) /\
                 heap s' !! i = Some (mkimg mode_RGBA w h (Loaded px)))).
Proof.
  intros H. unfold open_rgba in H.
  destruct (lookup_fs (fs s) src) as [[|[m w h body|str] t]|] eqn:Es;
    try (unfold bind, Image_open in H; rewrite Es in H; discriminate).
  destruct (decompression_bomb w h) eqn:Eb.
  { unfold bind, Image_open in H. rewrite Es, Eb in H. discriminate. }
  rewrite (bind_Ok _ _ _ _ _ (eq_trans (Image_open_Ok _ _ _ _ _ _ _ Es Eb) (alloc_Ok _ _))) in H.
  rewrite (bind_Ok _ _ _ _ _ (get_obj_Ok _ _ _ (lookup_insert_eq _ _ _))) in H.
  cbn [im_mode] in H.
  destruct (decide (m = mode_RGBA)) as [-> | Hm].
  - unfold ret in H. injection H as <- <-. rec_simpl.
    split; [done |]. split; [done |]. split; [done |]. split; [lia |]. split; [lia |].
    split; [intros j Hj; rewrite lookup_insert_ne by lia; reflexivity |].
    exists mode_RGBA, w, h, body, t. split; [reflexivity |]. split; [exact Eb |].
    left. split; [done |].
    apply lookup_insert_eq.
  - destruct body as [b0|].
    2:{ unfold convert, load, bind, get_obj, raise in H. rec_simpl.
        rewrite lookup_insert_eq in H. discriminate. }
    unfold convert in H.
    rewrite (bind_Ok _ _ _ _ _ (load_Ok _ _ _ _ _ _ b0 (lookup_insert_eq _ _ _) (or_intror eq_refl))) in H.
    erewrite bind_Ok in H by (apply get_obj_Ok; heap_lookup).
    cbn [im_mode im_w im_h] in H. rewrite decide_False in H by exact Hm.
    destruct (convert_px m mode_RGBA w h b0) as [px|] eqn:Ec; [| discriminate].
    rewrite alloc_Ok in H. injection H as <- <-. rec_simpl.
    split; [done |]. split; [done |]. split; [done |]. split; [lia |]. split; [lia |].
    split; [intros j Hj; rewrite !lookup_insert_ne by lia; reflexivity |].
    exists m, w, h, (Some b0), t. split; [reflexivity |]. split; [exact Eb |].
    right. exists px. split.
    + cbn. rewrite Eb, decide_False by exact Hm. now rewrite Ec.
    + apply lookup_insert_eq.
Qed.

(** A lazy source whose data does not decode makes the first iteration
    raise. *)
Lemma gen_density_lazy_none root si d e s m w h :
  heap s !! si = Some (mkimg m w h (Lazy None)) ->
  exists err s', gen_density root si (d, e) s = Exc err s'.
Proof.
  intros H. unfold gen_density, mkdir, fs_op, bind at 1.
  destruct (mkdir_p (mipmap_dir root d) (fs s)) as [err|m1]; [eauto |].
  unfold resize, load, bind, get_obj, raise. rec_simpl. rewrite H. eauto.
Qed.

(** A successful run of [generate_icons] over a non-empty table with
    distinct labels: what it decoded, printed and wrote. *)
Lemma generate_run tbl src root s s' :
  tbl <> [] -> NoDup (map fst tbl) ->
  generate_icons_with tbl src root s = Ok true s' ->
  exists b t w h px,
    lookup_fs (fs s) src = Some (File b t) /\
    decode_rgba b = Some (w, h, px) /\
    out s' = out s ++ [MsgLoading src; MsgSourceSize w h; Text ""] ++
             created_lines root tbl ++
             [Text ""; Text "SUCCESS! All Android icons generated."] /\
    (forall k v, fs s !! k = Some v -> ~ In k (written_paths root tbl) -> fs s' !! k = Some v) /\
    (forall d e, In (d, e) tbl ->
       dirs_ok (fs s') [] (mipmap_dir root d) /\
       (exists t, fs s' !! square_path root d = Some (File (square_blob w h px e) t)) /\
       (exists t, fs s' !! round_path root d = Some (File (round_blob w h px e) t))).
Proof.
  intros Hne Hnd H. unfold generate_icons_with in H.
  rewrite (bind_Ok _ _ _ _ _ (print_Ok _ _)) in H.
  unfold bind at 1, try_except in H.
  unfold bind at 1 in H.
  destruct (open_rgba src _) as [si s1|err s1] eqn:Eo.
  2:{ destruct err; try discriminate.
      all: unfold bind, print, ret in H; discriminate. }
  unfold ret at 1 in H.
  destruct (open_rgba_run _ _ _ _ Eo)
    as [Hfs1 [Hc1 [Ho1 [Hn1 [Hlt1 [Hfr1 [m [w [h [body [t [Es [Eb Hobj]]]]]]]]]]]]].
  rec_simpl.
  (* the data of the source object, and its decoded pixels *)
  assert (Hsrc : exists px, decode_rgba (Encoded m w h body) = Some (w, h, px) /\
                            src_obj s1 si w h px \/
                            heap s1 !! si = Some (mkimg mode_RGBA w h (Lazy None))).
  { destruct Hobj as [[-> Hl] | [px [Hd Hl]]].
    - destruct body as [b0|].
      + exists b0. left. split; [cbn; now rewrite Eb |].
        split; [eexists; split; [exact Hl | auto] | lia].
      + exists (fun _ _ => []). right. exact Hl.
    - exists px. left. split; [exact Hd |]. split; [eexists; split; [exact Hl | auto] | lia]. }
  assert (Hsi : exists d, heap s1 !! si = Some (mkimg mode_RGBA w h d))
    by (destruct Hobj as [[_ Hl] | [px [_ Hl]]]; eauto).
  destruct Hsi as [dd Hsi].
  rewrite (bind_Ok _ _ _ _ _ (get_obj_Ok _ _ _ Hsi)) in H. cbn [im_w im_h] in H.
  rewrite (bind_Ok _ _ _ _ _ (print_Ok _ _)) in H.
  rewrite (bind_Ok _ _ _ _ _ (print_Ok _ _)) in H.
  unfold bind at 1 in H.
  destruct (for_each tbl (gen_density root si) _) as [u2 s2|err s2] eqn:El; [| discriminate].
  rewrite (bind_Ok _ _ _ _ _ (print_Ok _ _)) in H.
  rewrite (bind_Ok _ _ _ _ _ (print_Ok _ _)) in H.
  unfold ret in H. injection H as <-. rec_simpl.
  destruct Hsrc as [px [[Hdec Hsrc] | Hnone]].
  2:{ destruct tbl as [|[d e] tbl']; [congruence |].
      exfalso. cbn [for_each] in El. unfold bind at 1 in El.
      match type of El with
      | match gen_density _ _ _ ?st with _ => _ end = _ =>
          destruct (gen_density_lazy_none root si d e st mode_RGBA w h Hnone)
            as [err [s3 E3]]
      end.
      rewrite E3 in El. discriminate. }
  match type of El with
  | for_each _ _ ?st = _ =>
      assert (Hsrc' : src_obj st si w h px) by exact Hsrc
  end.
  destruct (loop_run _ _ _ _ _ _ _ _ _ Hnd Hsrc' El) as [_ [_ [Ho2 [Hkeep2 Hfiles2]]]].
  rec_simpl.
  exists (Encoded m w h body), t, w, h, px.
  split; [exact Es |]. split; [exact Hdec |].
  split; [rewrite Ho2, Ho1; rewrite <- !app_assoc; reflexivity |].
  split; [| exact Hfiles2].
  intros k v Hk Hn. rewrite <- Hfs1 in Hk. now apply Hkeep2.
Qed.

Lemma densities_nodup : NoDup (map fst densities).
Proof. cbn. repeat constructor; set_solver. Qed.

Lemma densities_nonempty : densities <> [].
Proof. discriminate. Qed.

(** ** C2: the square icons *)

(** C2.  After a successful [generate_icons], for each of the five
    densities with edge [e], [ic_launcher.png] in that density's mipmap
    directory holds an RGBA image of exactly [e] x [e] pixels.  Its pixels
    are the decoded source resized with the LANCZOS filter, and whatever the
    file held before is replaced. *)
Theorem generate_icons_square_sizes src root s s' :
  generate_icons src root s = Ok true s' ->
  exists w h px,
    forall d e, In (d, e) densities ->
      dirs_ok (fs s') [] (mipmap_dir root d) /\
      exists t, fs s' !! square_path root d =
        Some (File (Encoded mode_RGBA e e
                      (Some (resize_px LANCZOS mode_RGBA w h px e e))) t).
Proof.
  intros H.
  destruct (generate_run _ _ _ _ _ densities_nonempty densities_nodup H)
    as [b [t [w [h [px [_ [_ [_ [_ Hfiles]]]]]]]]].
  exists w, h, px. intros d e Hde. destruct (Hfiles d e Hde) as [Hdir [Hsq _]].
  split; [exact Hdir | exact Hsq].
Qed.

(** ** C3: the density table and its order *)

(** C3.  The density table has exactly five entries, mdpi 48, hdpi 72,
    xhdpi 96, xxhdpi 144, xxxhdpi 192, with strictly increasing edges in
    that order.  A successful [generate_icons] processes them in that
    order, as the lines it prints show. *)
Theorem densities_fixed_order src root s s' :
  generate_icons src root s = Ok true s' ->
  densities = [("mdpi", 48); ("hdpi", 72); ("xhdpi", 96); ("xxhdpi", 144); ("xxxhdpi", 192)] /\
  length densities = 5%nat /\
  (forall i, (i < 4)%nat -> nth i (map snd densities) 0 < nth (S i) (map snd densities) 0) /\
  exists w h,
    out s' = out s ++ [MsgLoading src; MsgSourceSize w h; Text ""] ++
      [MsgCreated (square_path root "mdpi") 48; MsgCreated (round_path root "mdpi") 48;
       MsgCreated (square_path root "hdpi") 72; MsgCreated (round_path root "hdpi") 72;
       MsgCreated (square_path root "xhdpi") 96; MsgCreated (round_path root "xhdpi") 96;
       MsgCreated (square_path root "xxhdpi") 144; MsgCreated (round_path root "xxhdpi") 144;
       MsgCreated (square_path root "xxxhdpi") 192; MsgCreated (round_path root "xxxhdpi") 192] ++
      [Text ""; Text "SUCCESS! All Android icons generated."].
Proof.
  intros H. split; [reflexivity |]. split; [reflexivity |].
  split; [intros i Hi; do 4 (destruct i as [|i]; [cbn; lia |]); lia |].
  destruct (generate_run _ _ _ _ _ densities_nonempty densities_nodup H)
    as [b [t [w [h [px [_ [_ [Ho _]]]]]]]].
  exists w, h. exact Ho.
Qed.

(** ** C4: conversion to RGBA before resizing *)

(** C4.  When [generate_icons] succeeds on a source file of mode [m], the
    image it resizes is the source converted to RGBA (the conversion is
    performed whenever [m] is not RGBA).  Every square and round icon
    written is an RGBA image, resized from those converted pixels. *)
Theorem generate_icons_rgba_before_resize src root s s' m w h body t :
  lookup_fs (fs s) src = Some (File (Encoded m w h body) t) ->
  generate_icons src root s = Ok true s' ->
  exists px,
    decode_rgba (Encoded m w h body) = Some (w, h, px) /\
    (m <> mode_RGBA ->
       exists b0, body = Some b0 /\ convert_px m mode_RGBA w h b0 = Some px) /\
    forall d e, In (d, e) densities ->
      (exists t1, fs s' !! square_path root d =
         Some (File (Encoded mode_RGBA e e (Some (resize_px LANCZOS mode_RGBA w h px e e))) t1)) /\
      (exists t2, fs s' !! round_path root d =
         Some (File (Encoded mode_RGBA e e
                 (Some (round_px e e (resize_px LANCZOS mode_RGBA w h px e e)))) t2)).
Proof.
  intros Hsrc H.
  destruct (generate_run _ _ _ _ _ densities_nonempty densities_nodup H)
    as [b [t' [w' [h' [px [Hb [Hdec [_ [_ Hfiles]]]]]]]]].
  rewrite Hsrc in Hb. injection Hb as <- <-.
  assert (Hwh : w' = w /\ h' = h).
  { cbn in Hdec. destruct body as [b0|]; [| discriminate].
    destruct (decompression_bomb w h); [discriminate |].
    destruct (decide (m = mode_RGBA)); [injection Hdec; auto |].
    destruct (convert_px m mode_RGBA w h b0); [injection Hdec; auto | discriminate]. }
  destruct Hwh as [-> ->].
  exists px. split; [exact Hdec |]. split.
  - intros Hm. cbn in Hdec. destruct body as [b0|]; [| discriminate].
    destruct (decompression_bomb w h); [discriminate |].
    rewrite decide_False in Hdec by exact Hm.
    exists b0. split; [reflexivity |].
    destruct (convert_px m mode_RGBA w h b0) as [px'|]; [| discriminate].
    injection Hdec as <-. reflexivity.
  - intros d e Hde. destruct (Hfiles d e Hde) as [_ [Hsq Hrd]]. split; assumption.
Qed.

(** ** C10: no shared mutation between densities *)

Lemma strip_lookup_file m k b t :
  m !! k = Some (File b t) -> strip m !! k = Some (CFile b).
Proof. intros H. unfold strip. now rewrite lookup_fmap, H. Qed.

(** C10.  Two independent facts, each about any state.  First,
    [create_round_icon] leaves every object that existed before the call
    unchanged, in particular its input, and does not touch the file system:
    mask and result are new objects.  Second, each density's files are
    computed from the decoded source and that density's edge alone: two
    successful runs from the same state over tables (other entries, another
    order) that both contain [(d, e)] write, for [d], the square and round
    icons resized from the decoded source to [e] x [e], the same in both
    runs. *)
Theorem density_outputs_independent :
  (forall s i w h px r s',
     heap s !! i = Some (mkimg mode_RGBA w h (Loaded px)) -> i < next_id s ->
     create_round_icon i s = Ok r s' ->
     next_id s <= r /\ fs s' = fs s /\ heap s' !! i = heap s !! i /\
     forall j, j < next_id s -> heap s' !! j = heap s !! j) /\
  (forall src root tbl1 tbl2 s s1 s2 d e,
     NoDup (map fst tbl1) -> NoDup (map fst tbl2) ->
     In (d, e) tbl1 -> In (d, e) tbl2 ->
     generate_icons_with tbl1 src root s = Ok true s1 ->
     generate_icons_with tbl2 src root s = Ok true s2 ->
     (exists b t w h px,
        lookup_fs (fs s) src = Some (File b t) /\ decode_rgba b = Some (w, h, px) /\
        strip (fs s1) !! square_path root d = Some (CFile (square_blob w h px e)) /\
        strip (fs s1) !! round_path root d = Some (CFile (round_blob w h px e))) /\
     strip (fs s1) !! square_path root d = strip (fs s2) !! square_path root d /\
     strip (fs s1) !! round_path root d = strip (fs s2) !! round_path root d).
Proof.
  split.
  - intros s i w h px r s' Hi Hlt Hr.
    rewrite (create_round_icon_Ok _ _ _ _ _ Hi Hlt) in Hr. injection Hr as <- <-.
    cbn [heap fs]. split; [lia |]. split; [reflexivity |].
    assert (Hj : forall j, j < next_id s ->
      <[next_id s + 1 := mkimg mode_RGBA w h (Loaded (round_px w h px))]>
        (<[next_id s := mkimg mode_L w h (Loaded (mask_px w h))]> (heap s)) !! j = heap s !! j).
    { intros j Hj. rewrite !lookup_insert_ne by lia. reflexivity. }
    split; [apply Hj; exact Hlt | exact Hj].
  - intros src root tbl1 tbl2 s s1 s2 d e Hnd1 Hnd2 Hin1 Hin2 H1 H2.
    assert (Hne1 : tbl1 <> []) by (intros ->; destruct Hin1).
    assert (Hne2 : tbl2 <> []) by (intros ->; destruct Hin2).
    destruct (generate_run _ _ _ _ _ Hne1 Hnd1 H1)
      as [b1 [t1 [w1 [h1 [px1 [Hb1 [Hd1 [_ [_ Hf1]]]]]]]]].
    destruct (generate_run _ _ _ _ _ Hne2 Hnd2 H2)
      as [b2 [t2 [w2 [h2 [px2 [Hb2 [Hd2 [_ [_ Hf2]]]]]]]]].
    rewrite Hb1 in Hb2. injection Hb2 as <- <-. rewrite Hd1 in Hd2.
    injection Hd2 as <- <- <-.
    destruct (Hf1 d e Hin1) as [_ [[ta Ha] [tb Hb]]].
    destruct (Hf2 d e Hin2) as [_ [[tc Hc] [td Hd]]].
    rewrite (strip_lookup_file _ _ _ _ Ha), (strip_lookup_file _ _ _ _ Hc).
    rewrite (strip_lookup_file _ _ _ _ Hb), (strip_lookup_file _ _ _ _ Hd).
    split; [| split; reflexivity].
    exists b1, t1, w1, h1, px1. repeat split; assumption.
Qed.

(** ** Running an iteration forwards *)

Lemma gen_density_eval root si d e w h px s m1 m2 m3 :
  src_obj s si w h px ->
  mkdir_p (mipmap_dir root d) (fs s) = inr m1 ->
  write_file (square_path root d) (square_blob w h px e) (clock s) m1 = inr m2 ->
  write_file (round_path root d) (round_blob w h px e) (clock s + 1) m2 = inr m3 ->
  exists s', gen_density root si (d, e) s = Ok tt s' /\ fs s' = m3 /\
             clock s' = clock s + 2 /\ src_obj s' si w h px.
Proof.
  intros [[dd [Hsi Hdd]] Hlt] E1 E2 E3. unfold gen_density, mkdir, fs_op.
  unfold bind at 1. rewrite E1.
  rewrite (bind_Ok _ _ _ _ _ (resize_Ok (set_fs s m1) si _ _ _ _ px e e LANCZOS Hsi Hdd)).
  unfold bind at 1.
  erewrite save_Ok; [| heap_lookup | reflexivity].
  rec_simpl. unfold square_blob in E2. rewrite E2.
  rewrite (bind_Ok _ _ _ _ _ (print_Ok _ _)).
  erewrite bind_Ok by (apply create_round_icon_Ok; [heap_lookup | rec_simpl; lia]).
  unfold bind at 1.
  erewrite save_Ok; [| heap_lookup | reflexivity].
  rec_simpl. unfold round_blob in E3. rewrite E3.
  rewrite print_Ok. eexists. split; [reflexivity |]. rec_simpl.
  split; [reflexivity |]. split; [lia |].
  split; [| rec_simpl; lia]. exists (Loaded px). split; [| now left]. rec_simpl.
  rewrite !lookup_insert_ne by lia. apply lookup_insert_eq.
Qed.

Lemma mipmap_dir_nonempty root d : mipmap_dir root d <> [].
Proof. unfold mipmap_dir. destruct root; discriminate. Qed.

Lemma square_path_parent m root d :
  lookup_fs m (removelast (square_path root d)) = m !! mipmap_dir root d.
Proof. unfold square_path. rewrite removelast_snoc. unfold mipmap_dir. apply lookup_fs_nonempty. Qed.

Lemma round_path_parent m root d :
  lookup_fs m (removelast (round_path root d)) = m !! mipmap_dir root d.
Proof. unfold round_path. rewrite removelast_snoc. unfold mipmap_dir. apply lookup_fs_nonempty. Qed.

Lemma square_path_ne_dir root d : square_path root d <> mipmap_dir root d.
Proof.
  intros H. apply (f_equal length) in H.
  rewrite length_square_path, length_mipmap_dir in H. lia.
Qed.

(** Under a state whose file system equals [F] up to modification times,
    and in which [F] already holds the results of the iteration, the
    iteration succeeds and keeps that equality. *)
Lemma gen_density_ok root si d e w h px s F :
  src_obj s si w h px -> strip (fs s) = strip F ->
  dirs_ok F [] (mipmap_dir root d) ->
  (exists t, F !! square_path root d = Some (File (square_blob w h px e) t)) ->
  (exists t, F !! round_path root d = Some (File (round_blob w h px e) t)) ->
  exists s', gen_density root si (d, e) s = Ok tt s' /\
             strip (fs s') = strip F /\ src_obj s' si w h px.
Proof.
  intros Hsrc Hs Hd [t1 Hsq] [t2 Hrd].
  assert (Hdirs : dirs_ok (fs s) [] (mipmap_dir root d))
    by exact (dirs_ok_strip _ _ _ _ (eq_sym Hs) Hd).
  assert (E1 : mkdir_p (mipmap_dir root d) (fs s) = inr (fs s))
    by exact (mkdir_walk_noop _ _ _ Hdirs).
  assert (Hpar : fs s !! mipmap_dir root d = Some Dir)
    by exact (dirs_ok_last _ _ _ Hdirs (mipmap_dir_nonempty root d)).
  assert (Hnsq : fs s !! square_path root d <> Some Dir)
    by (apply (strip_not_dir F); [now rewrite Hs | now rewrite Hsq]).
  assert (Hnrd : fs s !! round_path root d <> Some Dir)
    by (apply (strip_not_dir F); [now rewrite Hs | now rewrite Hrd]).
  assert (E2 : write_file (square_path root d) (square_blob w h px e) (clock s) (fs s) =
               inr (<[square_path root d := File (square_blob w h px e) (clock s)]> (fs s))).
  { apply write_file_ok; [unfold square_path; destruct root; discriminate | |exact Hnsq].
    now rewrite square_path_parent. }
  assert (E3 : write_file (round_path root d) (round_blob w h px e) (clock s + 1)
                 (<[square_path root d := File (square_blob w h px e) (clock s)]> (fs s)) =
               inr (<[round_path root d := File (round_blob w h px e) (clock s + 1)]>
                 (<[square_path root d := File (square_blob w h px e) (clock s)]> (fs s)))).
  { apply write_file_ok; [unfold round_path; destruct root; discriminate | |].
    - rewrite round_path_parent, lookup_insert_ne; [exact Hpar |].
      exact (square_path_ne_dir root d).
    - rewrite lookup_insert_ne; [exact Hnrd | exact (square_round_ne root d d)]. }
  destruct (gen_density_eval _ _ _ _ _ _ _ _ _ _ _ Hsrc E1 E2 E3)
    as [s' [Hrun [Hfs [_ Hsrc']]]].
  exists s'. split; [exact Hrun |]. split; [| exact Hsrc'].
  rewrite Hfs, !strip_insert, Hs.
  rewrite (insert_id (strip F) (square_path root d)) by exact (strip_lookup_file _ _ _ _ Hsq).
  now rewrite (insert_id (strip F) (round_path root d)) by exact (strip_lookup_file _ _ _ _ Hrd).
Qed.

Lemma loop_ok root si tbl w h px s F :
  src_obj s si w h px -> strip (fs s) = strip F ->
  (forall d e, In (d, e) tbl ->
     dirs_ok F [] (mipmap_dir root d) /\
     (exists t, F !! square_path root d = Some (File (square_blob w h px e) t)) /\
     (exists t, F !! round_path root d = Some (File (round_blob w h px e) t))) ->
  exists s', for_each tbl (gen_density root si) s = Ok tt s' /\
             strip (fs s') = strip F /\ src_obj s' si w h px.
Proof.
  revert s. induction tbl as [|[d e] tbl IH]; intros s Hsrc Hs Hall.
  - exists s. cbn. auto.
  - destruct (Hall d e (or_introl eq_refl)) as [Hd [Hsq Hrd]].
    destruct (gen_density_ok _ _ _ _ _ _ _ _ _ Hsrc Hs Hd Hsq Hrd)
      as [s1 [E1 [Hs1 Hsrc1]]].
    destruct (IH s1 Hsrc1 Hs1 (fun d' e' H => Hall d' e' (or_intror H)))
      as [s2 [E2 [Hs2 Hsrc2]]].
    exists s2. cbn [for_each]. rewrite (bind_Ok _ _ _ _ _ E1). auto.
Qed.

Lemma open_rgba_ok src s b t w h px :
  lookup_fs (fs s) src = Some (File b t) -> decode_rgba b = Some (w, h, px) ->
  exists si s1, open_rgba src s = Ok si s1 /\ fs s1 = fs s /\ out s1 = out s /\
                src_obj s1 si w h px.
Proof.
  intros Es Hdec. destruct b as [m w0 h0 [body|]|str]; try discriminate.
  unfold open_rgba. cbn [decode_rgba] in Hdec.
  destruct (decompression_bomb w0 h0) eqn:Eb; [discriminate |].
  rewrite (bind_Ok _ _ _ _ _ (eq_trans (Image_open_Ok _ _ _ _ _ _ _ Es Eb) (alloc_Ok _ _))).
  rewrite (bind_Ok _ _ _ _ _ (get_obj_Ok _ _ _ (lookup_insert_eq _ _ _))).
  cbn [im_mode].
  destruct (decide (m = mode_RGBA)) as [-> | Hm].
  - injection Hdec as <- <- <-. unfold ret. eexists _, _.
    split; [reflexivity |]. rec_simpl. split; [done |]. split; [done |].
    unfold src_obj; rec_simpl. split; [| lia]. exists (Lazy (Some body)). split; [apply lookup_insert_eq | now right].
  - destruct (convert_px m mode_RGBA w0 h0 body) as [px'|] eqn:Ec; [| discriminate].
    injection Hdec as <- <- <-. unfold convert.
    rewrite (bind_Ok _ _ _ _ _ (load_Ok _ _ _ _ _ _ body (lookup_insert_eq _ _ _) (or_intror eq_refl))).
    erewrite bind_Ok by (apply get_obj_Ok; heap_lookup).
    cbn [im_mode im_w im_h]. rewrite decide_False by exact Hm. rewrite Ec, alloc_Ok.
    eexists _, _. split; [reflexivity |]. rec_simpl. split; [done |]. split; [done |].
    unfold src_obj; rec_simpl. split; [| lia]. exists (Loaded px'). split; [apply lookup_insert_eq | now left].
Qed.

(** A run from a state whose file system already holds, for every entry of
    the table, the directory and the two files computed from the source
    succeeds and leaves the file system unchanged up to modification
    times. *)
Lemma generate_ok tbl src root s b t w h px :
  lookup_fs (fs s) src = Some (File b t) -> decode_rgba b = Some (w, h, px) ->
  (forall d e, In (d, e) tbl ->
     dirs_ok (fs s) [] (mipmap_dir root d) /\
     (exists t, fs s !! square_path root d = Some (File (square_blob w h px e) t)) /\
     (exists t, fs s !! round_path root d = Some (File (round_blob w h px e) t))) ->
  exists s', generate_icons_with tbl src root s = Ok true s' /\ strip (fs s') = strip (fs s).
Proof.
  intros Es Hdec Hall. unfold generate_icons_with.
  rewrite (bind_Ok _ _ _ _ _ (print_Ok _ _)).
  unfold bind at 1, try_except. unfold bind at 1.
  match goal with
  | |- context [open_rgba src ?st] =>
      destruct (open_rgba_ok src st b t w h px Es Hdec) as [si [s1 [Eo [Hfs1 [_ Hsrc1]]]]]
  end.
  rewrite Eo. unfold ret at 1.
  destruct Hsrc1 as [[dd [Hsi Hdd]] Hlt].
  rewrite (bind_Ok _ _ _ _ _ (get_obj_Ok _ _ _ Hsi)). cbn [im_w im_h].
  rewrite (bind_Ok _ _ _ _ _ (print_Ok _ _)).
  rewrite (bind_Ok _ _ _ _ _ (print_Ok _ _)).
  unfold bind at 1.
  match goal with
  | |- context [for_each tbl (gen_density root si) ?st] =>
      assert (Hsrc2 : src_obj st si w h px) by (split; [eauto | exact Hlt]);
      assert (Hs2 : strip (fs st) = strip (fs s)) by (rec_simpl; now rewrite Hfs1);
      destruct (loop_ok root si tbl w h px st (fs s) Hsrc2 Hs2 Hall) as [s2 [El [Hs3 _]]]
  end.
  rewrite El.
  rewrite (bind_Ok _ _ _ _ _ (print_Ok _ _)).
  rewrite (bind_Ok _ _ _ _ _ (print_Ok _ _)).
  unfold ret. eexists. split; [reflexivity |]. exact Hs3.
Qed.

(** ** C7: idempotence *)

(** C7.  If a run of [generate_icons] succeeds and the source icon is the
    same file afterwards, a second run from the resulting state also
    succeeds: the existing mipmap directories and icon files raise nothing.
    It leaves every path of the file system with the same kind and content
    as after the first run; only modification times change. *)
Theorem generate_icons_idempotent src root s0 s1 :
  generate_icons src root s0 = Ok true s1 ->
  lookup_fs (fs s1) src = lookup_fs (fs s0) src ->
  exists s2, generate_icons src root s1 = Ok true s2 /\ strip (fs s2) = strip (fs s1).
Proof.
  intros H1 Hsrc.
  destruct (generate_run _ _ _ _ _ densities_nonempty densities_nodup H1)
    as [b [t [w [h [px [Es [Hdec [_ [_ Hfiles]]]]]]]]].
  rewrite <- Hsrc in Es.
  exact (generate_ok densities src root s1 b t w h px Es Hdec Hfiles).
Qed.

(** ** C6: missing inputs *)

Lemma banner_Ok s :
  banner s = Ok tt (mkState (fs s) (clock s) (heap s) (next_id s)
    (out s ++ [Text "============================================================";
               Text "  Android Icon & Resource Generator";
               Text "============================================================";
               Text ""])).
Proof. unfold banner, bind, print. cbn [fs clock heap next_id out]. now rewrite <- !app_assoc. Qed.

Lemma path_exists_Ok p s :
  path_exists p s = Ok (match lookup_fs (fs s) p with Some _ => true | None => false end) s.
Proof. reflexivity. Qed.

(** C6.  When the source icon or the Android [res] directory is missing,
    [main] ends with [sys.exit(1)]: the exit status is 1.  The file system
    is the one it started from: no directory is created and no image is
    written. *)
Theorem main_missing_paths_exit root s :
  lookup_fs (fs s) (source_icon root) = None \/ lookup_fs (fs s) (android_res root) = None ->
  exit_status (main root s) = 1 /\
  exists s', main root s = Exc (SystemExit 1) s' /\ fs s' = fs s.
Proof.
  intros Hmiss.
  assert (Hm : exists s', main root s = Exc (SystemExit 1) s' /\ fs s' = fs s).
  { unfold main. rewrite (bind_Ok _ _ _ _ _ (banner_Ok s)). cbv beta.
    rewrite (bind_Ok _ _ _ _ _ (path_exists_Ok _ _)). cbv beta. cbn [fs].
    destruct (lookup_fs (fs s) (source_icon root)) as [e1|] eqn:E1.
    - destruct Hmiss as [Hm | Hm]; [congruence |].
      rewrite (bind_Ok _ _ _ _ _ (eq_refl (ret tt _))). cbv beta.
      rewrite (bind_Ok _ _ _ _ _ (path_exists_Ok _ _)). cbv beta. cbn [fs].
      rewrite Hm. eexists. split; [apply bind_Exc; reflexivity | reflexivity].
    - eexists. split; [apply bind_Exc; reflexivity | reflexivity]. }
  destruct Hm as [s' [Hm Hfs]]. rewrite Hm. split; [reflexivity |]. eauto.
Qed.

(** ** C8: copying the XML resources *)

Lemma lookup_fs_app_ne m (p q : path) : q <> [] -> lookup_fs m (p ++ q) = m !! (p ++ q).
Proof. intros Hq. destruct p; [destruct q; [congruence | reflexivity] | reflexivity]. Qed.

Lemma mkdir_walk_app cur rest r m :
  dirs_ok m cur rest -> mkdir_walk cur (rest ++ r) m = mkdir_walk (cur ++ rest) r m.
Proof.
  revert cur. induction rest as [|c cs IH]; intros cur Hd; cbn in Hd |- *.
  - now rewrite app_nil_r.
  - destruct Hd as [-> Hd]. rewrite IH by exact Hd. now rewrite <- app_assoc.
Qed.

(** [mkdir(parents=True, exist_ok=True)] of a child of an existing
    directory that is not a file. *)
Lemma mkdir_child_ok m (dst : path) c :
  dirs_ok m [] dst -> (forall b t, m !! (dst ++ [c]) <> Some (File b t)) ->
  mkdir_p (dst ++ [c]) m = inr (<[dst ++ [c] := Dir]> m).
Proof.
  intros Hd Hf. unfold mkdir_p. rewrite (mkdir_walk_app _ _ _ _ Hd). cbn [mkdir_walk app].
  destruct (m !! (dst ++ [c])) as [[|b t]|] eqn:E.
  - now rewrite insert_id by exact E.
  - exfalso. exact (Hf b t eq_refl).
  - reflexivity.
Qed.

Lemma copy2_Ok src dst s b t m' :
  lookup_fs (fs s) dst <> Some Dir -> lookup_fs (fs s) src = Some (File b t) ->
  src <> dst -> write_file dst b t (fs s) = inr m' ->
  copy2 src dst s = Ok tt (set_fs s m').
Proof.
  intros Hd Hs Hne Hw. unfold copy2. rewrite Hs.
  destruct (lookup_fs (fs s) dst) as [[|b' t']|]; [congruence | |];
    rewrite decide_False by exact Hne; unfold fs_op; now rewrite Hw.
Qed.

Lemma length_dest (dst : path) sub n : length ((dst ++ [sub]) ++ [n]) = (length dst + 2)%nat.
Proof. rewrite !length_app. cbn. lia. Qed.

Lemma length_subdir (dst : path) sub : length (dst ++ [sub]) = (length dst + 1)%nat.
Proof. rewrite length_app. cbn. lia. Qed.

Lemma dest_ne_subdir (dst dst' : path) sub sub' n :
  length dst = length dst' -> (dst ++ [sub]) ++ [n] <> dst' ++ [sub'].
Proof.
  intros Hl H. apply (f_equal length) in H. rewrite length_dest, length_subdir in H. lia.
Qed.

Lemma copy_one_ok src_dir dst fp sub s :
  dirs_ok (fs s) [] dst -> fp <> [] ->
  (forall b t, fs s !! (dst ++ [sub]) <> Some (File b t)) ->
  fs s !! (src_dir ++ fp) <> Some Dir ->
  fs s !! ((dst ++ [sub]) ++ [basename fp]) <> Some Dir ->
  (dst ++ [sub]) ++ [basename fp] <> src_dir ++ fp ->
  dst ++ [sub] <> src_dir ++ fp ->
  exists s1, copy_one src_dir dst (fp, sub) s = Ok tt s1 /\
    out s1 = out s ++ [copy_line src_dir dst (fs s) (fp, sub)] /\
    fs s1 !! (dst ++ [sub]) = Some Dir /\
    (forall k, k <> dst ++ [sub] -> k <> (dst ++ [sub]) ++ [basename fp] ->
       fs s1 !! k = fs s !! k) /\
    (forall b t, fs s !! (src_dir ++ fp) = Some (File b t) ->
       fs s1 !! ((dst ++ [sub]) ++ [basename fp]) = Some (File b t)) /\
    (fs s !! (src_dir ++ fp) = None ->
       fs s1 !! ((dst ++ [sub]) ++ [basename fp]) = fs s !! ((dst ++ [sub]) ++ [basename fp])).
Proof.
  intros Hd Hfp Hsub Hsrc Hdest Hne1 Hne2.
  assert (Hdd : (dst ++ [sub]) ++ [basename fp] <> dst ++ [sub])
    by (apply dest_ne_subdir; reflexivity).
  pose proof (mkdir_child_ok _ _ _ Hd Hsub) as E1.
  unfold copy_one, mkdir, fs_op. unfold bind at 1. rewrite E1.
  rewrite (bind_Ok _ _ _ _ _ (path_exists_Ok _ _)). cbn [fs set_fs].
  rewrite lookup_fs_app_ne by exact Hfp. rewrite lookup_insert_ne by congruence.
  destruct (fs s !! (src_dir ++ fp)) as [[|b t]|] eqn:Es; [congruence | |].
  - assert (Ew : write_file ((dst ++ [sub]) ++ [basename fp]) b t
                   (<[dst ++ [sub] := Dir]> (fs s)) =
                 inr (<[(dst ++ [sub]) ++ [basename fp] := File b t]>
                        (<[dst ++ [sub] := Dir]> (fs s)))).
    { apply write_file_ok.
      - intros H. apply app_eq_nil in H as [_ H]. discriminate.
      - rewrite removelast_snoc, lookup_fs_nonempty. apply lookup_insert_eq.
      - rewrite lookup_insert_ne by congruence. exact Hdest. }
    match goal with
    | |- context [bind (copy2 ?x ?y) _ ?st] =>
        assert (Ec : copy2 x y st = Ok tt (set_fs st
                  (<[(dst ++ [sub]) ++ [basename fp] := File b t]>
                     (<[dst ++ [sub] := Dir]> (fs s)))))
    end.
    { apply (copy2_Ok _ _ _ b t); cbn [fs set_fs].
      - rewrite lookup_fs_nonempty, lookup_insert_ne by congruence. exact Hdest.
      - rewrite lookup_fs_app_ne by exact Hfp. rewrite lookup_insert_ne by congruence.
        exact Es.
      - congruence.
      - exact Ew. }
    rewrite (bind_Ok _ _ _ _ _ Ec), print_Ok. eexists. split; [reflexivity |].
    cbn [fs out set_fs copy_line]. rewrite Es. split; [reflexivity |].
    split; [rewrite lookup_insert_ne by congruence; apply lookup_insert_eq |].
    split; [intros k H1 H2; now rewrite !lookup_insert_ne by congruence |].
    split; [| discriminate].
    intros b' t' Hb. injection Hb as <- <-. apply lookup_insert_eq.
  - rewrite print_Ok. eexists. split; [reflexivity |].
    cbn [fs out set_fs copy_line]. rewrite Es. split; [reflexivity |].
    split; [apply lookup_insert_eq |].
    split; [intros k H1 H2; now rewrite lookup_insert_ne by congruence |].
    split; [discriminate |].
    intros _. now rewrite lookup_insert_ne by congruence.
Qed.

Lemma copy_loop_ok src_dir dst l s :
  dirs_ok (fs s) [] dst -> NoDup l ->
  (forall fp sub, In (fp, sub) l -> fp <> []) ->
  (forall fp sub fp' sub', In (fp, sub) l -> In (fp', sub') l ->
     (dst ++ [sub]) ++ [basename fp] = (dst ++ [sub']) ++ [basename fp'] ->
     fp = fp' /\ sub = sub') ->
  (forall fp sub fp' sub', In (fp, sub) l -> In (fp', sub') l ->
     (dst ++ [sub]) ++ [basename fp] <> src_dir ++ fp' /\ dst ++ [sub] <> src_dir ++ fp') ->
  (forall fp sub, In (fp, sub) l ->
     (forall b t, fs s !! (dst ++ [sub]) <> Some (File b t)) /\
     fs s !! (src_dir ++ fp) <> Some Dir /\
     fs s !! ((dst ++ [sub]) ++ [basename fp]) <> Some Dir) ->
  exists s', for_each l (copy_one src_dir dst) s = Ok tt s' /\
    out s' = out s ++ map (copy_line src_dir dst (fs s)) l /\
    (forall k, (forall fp sub, In (fp, sub) l ->
                  k <> dst ++ [sub] /\ k <> (dst ++ [sub]) ++ [basename fp]) ->
       fs s' !! k = fs s !! k) /\
    (forall k, (forall fp sub, In (fp, sub) l -> k <> (dst ++ [sub]) ++ [basename fp]) ->
       fs s !! k = Some Dir -> fs s' !! k = Some Dir) /\
    (forall fp sub, In (fp, sub) l ->
       fs s' !! (dst ++ [sub]) = Some Dir /\
       (forall b t, fs s !! (src_dir ++ fp) = Some (File b t) ->
          fs s' !! ((dst ++ [sub]) ++ [basename fp]) = Some (File b t)) /\
       (fs s !! (src_dir ++ fp) = None ->
          fs s' !! ((dst ++ [sub]) ++ [basename fp]) =
          fs s !! ((dst ++ [sub]) ++ [basename fp]))).
Proof.
  revert s. induction l as [|[fp sub] l IH]; intros s Hd Hnd Hfp Hinj Hsd Hpre.
  - exists s. split; [reflexivity |]. split; [cbn; now rewrite app_nil_r |].
    split; [auto |]. split; [auto |]. intros ? ? [].
  - destruct (Hpre fp sub (or_introl eq_refl)) as [H2 [H3 H4]].
    destruct (Hsd fp sub fp sub (or_introl eq_refl) (or_introl eq_refl)) as [Hne1 Hne2].
    destruct (copy_one_ok src_dir dst fp sub s Hd (Hfp _ _ (or_introl eq_refl))
                H2 H3 H4 Hne1 Hne2) as [s1 [E1 [Ho1 [Hdir1 [Hfr1 [Hcp1 Hmiss1]]]]]].
    apply NoDup_cons in Hnd as [Hx Hnd].
    assert (Hx' : ~ In (fp, sub) l) by (intros Hin; apply Hx; apply list_elem_of_In; exact Hin).
    assert (Hxfar : forall fp2 sub2, In (fp2, sub2) l ->
              (dst ++ [sub]) ++ [basename fp] <> dst ++ [sub2] /\
              (dst ++ [sub]) ++ [basename fp] <> (dst ++ [sub2]) ++ [basename fp2]).
    { intros fp2 sub2 Hin2. split; [apply dest_ne_subdir; reflexivity |].
      intros H. destruct (Hinj fp sub fp2 sub2 (or_introl eq_refl) (or_intror Hin2) H)
        as [<- <-]. exact (Hx' Hin2). }
    assert (Hsrc_eq : forall fp' sub', In (fp', sub') l ->
              fs s1 !! (src_dir ++ fp') = fs s !! (src_dir ++ fp')).
    { intros fp' sub' Hin. destruct (Hsd fp sub fp' sub' (or_introl eq_refl) (or_intror Hin))
        as [A B]. apply Hfr1; intros H; [apply B | apply A]; now symmetry. }
    assert (Hdest_eq : forall fp' sub', In (fp', sub') l ->
              fs s1 !! ((dst ++ [sub']) ++ [basename fp']) =
              fs s !! ((dst ++ [sub']) ++ [basename fp'])).
    { intros fp' sub' Hin. destruct (Hxfar fp' sub' Hin) as [_ B].
      apply Hfr1; [apply dest_ne_subdir; reflexivity | intros H; apply B; now symmetry]. }
    assert (Hdirs1 : dirs_ok (fs s1) [] dst).
    { apply (dirs_ok_mono _ _ (fs s)); [| exact Hd]. intros k Hk Hkd. cbn in Hk.
      rewrite Hfr1; [exact Hkd | |]; intros ->;
        [rewrite length_subdir in Hk | rewrite length_dest in Hk]; lia. }
    assert (Hpre1 : forall fp' sub', In (fp', sub') l ->
              (forall b t, fs s1 !! (dst ++ [sub']) <> Some (File b t)) /\
              fs s1 !! (src_dir ++ fp') <> Some Dir /\
              fs s1 !! ((dst ++ [sub']) ++ [basename fp']) <> Some Dir).
    { intros fp' sub' Hin. destruct (Hpre fp' sub' (or_intror Hin)) as [A [B C]].
      split; [| split].
      - intros b t. destruct (decide (dst ++ [sub'] = dst ++ [sub])) as [Heq | Hneq].
        + rewrite Heq, Hdir1. discriminate.
        + rewrite Hfr1; [apply A | exact Hneq |].
          intros H. exact (dest_ne_subdir dst dst sub sub' (basename fp) eq_refl (eq_sym H)).
      - rewrite (Hsrc_eq _ _ Hin). exact B.
      - rewrite (Hdest_eq _ _ Hin). exact C. }
    destruct (IH s1 Hdirs1 Hnd (fun a b H => Hfp a b (or_intror H))
                (fun a b c d H H' => Hinj a b c d (or_intror H) (or_intror H'))
                (fun a b c d H H' => Hsd a b c d (or_intror H) (or_intror H')) Hpre1)
      as [s' [E2 [Ho2 [Hfr2 [Hdir2 Hall2]]]]].
    exists s'. cbn [for_each]. rewrite (bind_Ok _ _ _ _ _ E1). split; [exact E2 |].
    split.
    { rewrite Ho2, Ho1, <- app_assoc. cbn [map app]. f_equal. f_equal.
      apply map_ext_in. intros [fp' sub'] Hin. cbn [copy_line].
      now rewrite (Hsrc_eq _ _ Hin). }
    split.
    { intros k Hk. rewrite Hfr2.
      - destruct (Hk fp sub (or_introl eq_refl)) as [A B]. exact (Hfr1 k A B).
      - intros fp' sub' Hin. exact (Hk fp' sub' (or_intror Hin)). }
    split.
    { intros k Hk Hkd. apply Hdir2; [intros fp' sub' Hin; exact (Hk fp' sub' (or_intror Hin)) |].
      destruct (decide (k = dst ++ [sub])) as [-> | Hn]; [exact Hdir1 |].
      rewrite Hfr1; [exact Hkd | exact Hn | exact (Hk fp sub (or_introl eq_refl))]. }
    intros fp' sub' [Heq | Hin].
    + injection Heq as <- <-. split; [| split].
      * apply Hdir2; [| exact Hdir1]. intros fp2 sub2 Hin2 H.
        exact (dest_ne_subdir dst dst sub2 sub (basename fp2) eq_refl (eq_sym H)).
      * intros b t Hb. rewrite Hfr2; [exact (Hcp1 b t Hb) |].
        intros fp2 sub2 Hin2. exact (Hxfar fp2 sub2 Hin2).
      * intros Hn. rewrite Hfr2; [exact (Hmiss1 Hn) |].
        intros fp2 sub2 Hin2. exact (Hxfar fp2 sub2 Hin2).
    + destruct (Hall2 fp' sub' Hin) as [A [B C]]. split; [exact A | split].
      * intros b t Hb. apply B. rewrite (Hsrc_eq _ _ Hin). exact Hb.
      * intros Hn. rewrite C; [exact (Hdest_eq _ _ Hin) |]. rewrite (Hsrc_eq _ _ Hin). exact Hn.
Qed.

Lemma dest_inj (dst : path) sub sub' n n' :
  (dst ++ [sub]) ++ [n] = (dst ++ [sub']) ++ [n'] -> sub = sub' /\ n = n'.
Proof.
  intros H. apply app_inj_tail in H as [H Hn]. apply app_inj_tail in H as [_ Hs]. auto.
Qed.

Lemma dest_ne_src (dst src_dir : path) sub n a b :
  src_dir <> dst -> (dst ++ [sub]) ++ [n] <> src_dir ++ [a; b].
Proof.
  intros Hne H. change [a; b] with ([a] ++ [b]) in H. rewrite app_assoc in H.
  apply app_inj_tail in H as [H _]. apply app_inj_tail in H as [H _]. congruence.
Qed.

Lemma subdir_ne_src (dst src_dir : path) sub a b :
  sub <> b -> dst ++ [sub] <> src_dir ++ [a; b].
Proof.
  intros Hne H. change [a; b] with ([a] ++ [b]) in H. rewrite app_assoc in H.
  apply app_inj_tail in H as [_ H]. congruence.
Qed.

Ltac xml_cases H :=
  cbn [xml_files In] in H; destruct H as [H | [H | [H | [H | []]]]]; injection H as <- <-.

(** C8.  [copy_xml_resources] walks the fixed list of the four pairs
    [values/strings.xml], [values/styles.xml], [values/colors.xml] (into
    [values]) and [drawable/splashscreen.xml] (into [drawable]), in that
    order.  Assume the destination directory exists and the source and
    destination directories differ.  Assume no destination subdirectory
    is a file, and no source file or destination file is a directory.  Then
    the call completes normally.  Each destination subdirectory exists
    afterwards.  Each existing source is copied, data and modification time,
    to [dest_dir/subdir/<basename>], replacing what was there.  A missing
    source leaves its destination as it was.  The printed lines report a copy
    or a missing source, for each pair in order.  Nothing else changes. *)
Theorem copy_xml_resources_spec src_dir dst s :
  dirs_ok (fs s) [] dst -> src_dir <> dst ->
  (forall fp sub, In (fp, sub) xml_files ->
     (forall b t, fs s !! (dst ++ [sub]) <> Some (File b t)) /\
     fs s !! (src_dir ++ fp) <> Some Dir /\
     fs s !! ((dst ++ [sub]) ++ [basename fp]) <> Some Dir) ->
  xml_files = [(["values"; "strings.xml"], "values");
               (["values"; "styles.xml"], "values");
               (["values"; "colors.xml"], "values");
               (["drawable"; "splashscreen.xml"], "drawable")] /\
  exists s', copy_xml_resources src_dir dst s = Ok tt s' /\
    out s' = out s ++ [Text "Copying XML resources..."] ++
             map (copy_line src_dir dst (fs s)) xml_files ++ [Text ""] /\
    (forall k, (forall fp sub, In (fp, sub) xml_files ->
                  k <> dst ++ [sub] /\ k <> (dst ++ [sub]) ++ [basename fp]) ->
       fs s' !! k = fs s !! k) /\
    (forall fp sub, In (fp, sub) xml_files ->
       fs s' !! (dst ++ [sub]) = Some Dir /\
       (forall b t, fs s !! (src_dir ++ fp) = Some (File b t) ->
          fs s' !! ((dst ++ [sub]) ++ [basename fp]) = Some (File b t)) /\
       (fs s !! (src_dir ++ fp) = None ->
          fs s' !! ((dst ++ [sub]) ++ [basename fp]) =
          fs s !! ((dst ++ [sub]) ++ [basename fp]))).
Proof.
  intros Hd Hne Hpre. split; [reflexivity |].
  assert (Hnd : NoDup xml_files) by (apply (bool_decide_unpack _); vm_compute; exact I).
  assert (Hfp : forall fp sub, In (fp, sub) xml_files -> fp <> [])
    by (intros fp sub H; xml_cases H; discriminate).
  assert (Hinj : forall fp sub fp' sub', In (fp, sub) xml_files -> In (fp', sub') xml_files ->
            (dst ++ [sub]) ++ [basename fp] = (dst ++ [sub']) ++ [basename fp'] ->
            fp = fp' /\ sub = sub').
  { intros fp sub fp' sub' H H'. xml_cases H; xml_cases H'; intros Heq;
      apply dest_inj in Heq as [_ Heq]; cbn in Heq;
      first [split; reflexivity | discriminate Heq]. }
  assert (Hsd : forall fp sub fp' sub', In (fp, sub) xml_files -> In (fp', sub') xml_files ->
            (dst ++ [sub]) ++ [basename fp] <> src_dir ++ fp' /\ dst ++ [sub] <> src_dir ++ fp').
  { intros fp sub fp' sub' H H'. xml_cases H; xml_cases H';
      (split; [apply dest_ne_src; exact Hne | apply subdir_ne_src; discriminate]). }
  unfold copy_xml_resources. rewrite (bind_Ok _ _ _ _ _ (print_Ok _ _)). unfold bind at 1.
  match goal with
  | |- context [for_each xml_files (copy_one src_dir dst) ?st] =>
      destruct (copy_loop_ok src_dir dst xml_files st Hd Hnd Hfp Hinj Hsd Hpre)
        as [s1 [E1 [Ho1 [Hfr1 [_ Hall1]]]]]
  end.
  rewrite E1, print_Ok. eexists. split; [reflexivity |]. cbn [fs out] in *.
  split; [rewrite Ho1, <- !app_assoc; reflexivity |].
  split; [exact Hfr1 | exact Hall1].
Qed.

(** ** When [generate_icons] returns [False] *)

Lemma bind_Ok_inv {A B} (m : M A) (k : A -> M B) s b s' :
  bind m k s = Ok b s' -> exists a s1, m s = Ok a s1 /\ k a s1 = Ok b s'.
Proof. unfold bind. destruct (m s); [eauto | discriminate]. Qed.

Lemma try_except_Ok {A} (body : M A) h s a s1 :
  body s = Ok a s1 -> try_except body h s = Ok a s1.
Proof. intros H. unfold try_except. now rewrite H. Qed.

Lemma try_except_Exc {A} (body : M A) h s e s1 :
  body s = Exc e s1 -> (forall c, e <> SystemExit c) -> try_except body h s = h e s1.
Proof. intros H He. unfold try_except. rewrite H. destruct e; try reflexivity. now destruct (He code). Qed.

(** Opening the source only allocates image objects. *)
Lemma open_rgba_exc src s e s1 :
  open_rgba src s = Exc e s1 -> fs s1 = fs s /\ out s1 = out s.
Proof.
  unfold open_rgba, Image_open, convert, load, get_obj, set_obj, alloc, with_data,
    bind, ret, raise.
  intros H. repeat case_match; simplify_eq; auto.
Qed.

Lemma open_rgba_no_exit src s e s1 :
  open_rgba src s = Exc e s1 -> forall c, e <> SystemExit c.
Proof.
  unfold open_rgba, Image_open, convert, load, get_obj, set_obj, alloc, with_data,
    bind, ret, raise.
  intros H c ->. repeat case_match; simplify_eq.
Qed.

(** The [try] block of [generate_icons]: on success the rest of the body
    runs, and it can only end in [True]. *)
Lemma generate_success_branch_true tbl root si s b s' :
  (o <- get_obj si ;;
   print (MsgSourceSize (im_w o) (im_h o)) ;;;
   print (Text "") ;;;
   for_each tbl (gen_density root si) ;;;
   print (Text "") ;;;
   print (Text "SUCCESS! All Android icons generated.") ;;;
   ret true) s = Ok b s' -> b = true.
Proof.
  intros H.
  repeat match type of H with
         | bind _ _ _ = Ok _ _ => apply bind_Ok_inv in H as [? [? [_ H]]]
         end.
  unfold ret in H. congruence.
Qed.

(** X1.  [generate_icons] returns [False] only from its [except] branch:
    the file system is exactly as before the call, and the lines printed
    are the loading line and the error line. *)
Theorem generate_icons_false_no_effect tbl src root s s' :
  generate_icons_with tbl src root s = Ok false s' ->
  fs s' = fs s /\
  exists e, (forall c, e <> SystemExit c) /\
            out s' = out s ++ [MsgLoading src; MsgLoadError src e].
Proof.
  intros H. unfold generate_icons_with in H.
  rewrite (bind_Ok _ _ _ _ _ (print_Ok _ _)) in H.
  apply bind_Ok_inv in H as [r [s2 [Ht Hk]]].
  match type of Ht with
  | try_except _ _ ?st = _ =>
      destruct (open_rgba src st) as [i s1 | e s1] eqn:Eo
  end.
  - rewrite (try_except_Ok _ _ _ _ _ (bind_Ok (open_rgba src) (fun i => ret (Some i)) _ _ _ Eo)) in Ht.
    unfold ret in Ht. injection Ht as <- <-.
    apply generate_success_branch_true in Hk. discriminate.
  - pose proof (open_rgba_no_exit _ _ _ _ Eo) as He.
    rewrite (try_except_Exc _ _ _ _ _ (bind_Exc (open_rgba src) (fun i => ret (Some i)) _ _ _ Eo) He) in Ht.
    rewrite (bind_Ok _ _ _ _ _ (print_Ok _ _)) in Ht. unfold ret in Ht.
    injection Ht as <- <-. unfold ret in Hk. injection Hk as <-.
    destruct (open_rgba_exc _ _ _ _ Eo) as [Hf Ho]. rec_simpl.
    split; [exact Hf |]. exists e. split; [exact He |].
    rewrite Ho, <- app_assoc. reflexivity.
Qed.

Lemma open_rgba_bad src s :
  lookup_fs (fs s) src = None \/ lookup_fs (fs s) src = Some Dir \/
  (exists str t, lookup_fs (fs s) src = Some (File (Raw str) t)) \/
  (exists m w h body t, lookup_fs (fs s) src = Some (File (Encoded m w h body) t) /\
     m <> mode_RGBA /\ decode_rgba (Encoded m w h body) = None) ->
  exists e s1, open_rgba src s = Exc e s1.
Proof.
  intros [E | [E | [[str [t E]] | [m [w [h [body [t [E [Hm Hdec]]]]]]]]]]; unfold open_rgba.
  1-3: unfold bind at 1, Image_open; rewrite E; eauto.
  destruct (decompression_bomb w h) eqn:Eb.
  { unfold bind at 1, Image_open. rewrite E, Eb. eauto. }
  rewrite (bind_Ok _ _ _ _ _ (eq_trans (Image_open_Ok _ _ _ _ _ _ _ E Eb) (alloc_Ok _ _))).
  rewrite (bind_Ok _ _ _ _ _ (get_obj_Ok _ _ _ (lookup_insert_eq _ _ _))).
  cbn [im_mode]. rewrite decide_False by exact Hm.
  destruct body as [b0|].
  - cbn [decode_rgba] in Hdec. rewrite Eb, decide_False in Hdec by exact Hm.
    unfold convert.
    rewrite (bind_Ok _ _ _ _ _ (load_Ok _ _ _ _ _ _ b0 (lookup_insert_eq _ _ _) (or_intror eq_refl))).
    erewrite bind_Ok by (apply get_obj_Ok; heap_lookup).
    cbn [im_mode im_w im_h]. rewrite decide_False by exact Hm.
    destruct (convert_px m mode_RGBA w h b0); [discriminate |]. unfold raise. eauto.
  - unfold convert, load, bind, get_obj, raise. cbn [heap set_heap].
    rewrite lookup_insert_eq. eauto.
Qed.

(** X2.  [generate_icons] returns [False] when the source cannot be opened
    or converted: the path is missing, is a directory, or is not an image,
    or it is a non-RGBA image whose data does not decode to RGBA.  Nothing
    is written, and an error line follows the loading line. *)
Theorem generate_icons_false_on_bad_source tbl src root s :
  lookup_fs (fs s) src = None \/ lookup_fs (fs s) src = Some Dir \/
  (exists str t, lookup_fs (fs s) src = Some (File (Raw str) t)) \/
  (exists m w h body t, lookup_fs (fs s) src = Some (File (Encoded m w h body) t) /\
     m <> mode_RGBA /\ decode_rgba (Encoded m w h body) = None) ->
  exists e s', generate_icons_with tbl src root s = Ok false s' /\ fs s' = fs s /\
               out s' = out s ++ [MsgLoading src; MsgLoadError src e].
Proof.
  intros Hbad. unfold generate_icons_with.
  rewrite (bind_Ok _ _ _ _ _ (print_Ok _ _)).
  match goal with
  | |- context [bind (try_except ?b ?hd) ?k ?st] =>
      destruct (open_rgba_bad src st Hbad) as [e [s1 Eo]];
      pose proof (open_rgba_no_exit _ _ _ _ Eo) as He;
      rewrite (bind_Ok _ _ _ _ _ (try_except_Exc b hd st e s1
                 (bind_Exc (open_rgba src) (fun i => ret (Some i)) _ _ _ Eo) He))
  end.
  destruct (open_rgba_exc _ _ _ _ Eo) as [Hf Ho].
  exists e. eexists. split; [reflexivity |]. rec_simpl.
  split; [exact Hf |]. rewrite Ho, <- app_assoc. reflexivity.
Qed.

Lemma open_rgba_bomb src s m w h body t :
  lookup_fs (fs s) src = Some (File (Encoded m w h body) t) ->
  decompression_bomb w h = true ->
  open_rgba src s = Exc DecompressionBombError s.
Proof. intros E Hb. unfold open_rgba, bind at 1, Image_open. now rewrite E, Hb. Qed.

(** X11.  A source whose header declares more than [2 * MAX_IMAGE_PIXELS]
    pixels makes [generate_icons] return [False], whatever its mode and
    data: [Image.open] raises [DecompressionBombError] inside the [try].
    Nothing is written, and the error line carries that exception. *)
Theorem generate_icons_false_on_bomb tbl src root s m w h body t :
  lookup_fs (fs s) src = Some (File (Encoded m w h body) t) ->
  decompression_bomb w h = true ->
  exists s', generate_icons_with tbl src root s = Ok false s' /\ fs s' = fs s /\
             out s' = out s ++ [MsgLoading src; MsgLoadError src DecompressionBombError].
Proof.
  intros E Hb. unfold generate_icons_with.
  rewrite (bind_Ok _ _ _ _ _ (print_Ok _ _)).
  match goal with
  | |- context [bind (try_except ?b ?hd) ?k ?st] =>
      assert (Eo : open_rgba src st = Exc DecompressionBombError st)
        by (apply (open_rgba_bomb _ _ m w h body t); [exact E | exact Hb]);
      rewrite (bind_Ok _ _ _ _ _ (try_except_Exc b hd st _ st
                 (bind_Exc (open_rgba src) (fun i => ret (Some i)) _ _ _ Eo)
                 (fun c H => ltac:(discriminate H))))
  end.
  eexists. split; [reflexivity |]. rec_simpl.
  split; [reflexivity |]. rewrite <- app_assoc. reflexivity.
Qed.

(** ** What a run may change in the file system *)

Lemma changes_refl P m : changes_within P m m.
Proof. split; auto. Qed.

Lemma changes_trans P m1 m2 m3 :
  changes_within P m1 m2 -> changes_within P m2 m3 -> changes_within P m1 m3.
Proof.
  intros [A1 B1] [A2 B2]. split.
  - intros k Hk. rewrite A2 by exact Hk. exact (A1 k Hk).
  - intros k Hk. exact (B2 k (B1 k Hk)).
Qed.

Lemma changes_mono (P Q : path -> Prop) m m' :
  (forall k, P k -> Q k) -> changes_within P m m' -> changes_within Q m m'.
Proof. intros HPQ [A B]. split; [| exact B]. intros k Hk. apply A. auto. Qed.

Lemma changes_insert p v m : changes_within (fun k => k = p) m (<[p := v]> m).
Proof.
  split.
  - intros k Hk. apply lookup_insert_ne. congruence.
  - intros k Hk. destruct (decide (k = p)) as [-> | Hne].
    + rewrite lookup_insert_eq. eauto.
    + rewrite lookup_insert_ne by congruence. exact Hk.
Qed.

Lemma fs_within_mono {A} (P Q : path -> Prop) (c : M A) :
  (forall k, P k -> Q k) -> fs_within P c -> fs_within Q c.
Proof. intros HPQ H s. exact (changes_mono _ _ _ _ HPQ (H s)). Qed.

Lemma keeps_within {A} P (c : M A) : keeps_fs c -> fs_within P c.
Proof. intros H s. rewrite H. apply changes_refl. Qed.

Lemma fs_within_bind {A B} P (m : M A) (k : A -> M B) :
  fs_within P m -> (forall a, fs_within P (k a)) -> fs_within P (bind m k).
Proof.
  intros Hm Hk s. specialize (Hm s). unfold bind.
  destruct (m s) as [a s1 | e s1]; cbn [result_state] in *; [| exact Hm].
  exact (changes_trans _ _ _ _ Hm (Hk a s1)).
Qed.

Lemma fs_within_try {A} P (body : M A) h :
  fs_within P body -> (forall e, fs_within P (h e)) -> fs_within P (try_except body h).
Proof.
  intros Hb Hh s. specialize (Hb s). unfold try_except.
  destruct (body s) as [a s1 | e s1]; cbn [result_state] in *; [exact Hb |].
  destruct e; try exact Hb; exact (changes_trans _ _ _ _ Hb (Hh _ s1)).
Qed.

Lemma fs_within_for_each {A} P (l : list A) body :
  (forall x, In x l -> fs_within P (body x)) -> fs_within P (for_each l body).
Proof.
  induction l as [|x l IH]; intros H; cbn [for_each].
  - intros s. apply changes_refl.
  - apply fs_within_bind; [apply H; now left |].
    intros _. apply IH. intros y Hy. apply H. now right.
Qed.

Lemma keeps_bind {A B} (m : M A) (k : A -> M B) :
  keeps_fs m -> (forall a, keeps_fs (k a)) -> keeps_fs (bind m k).
Proof.
  intros Hm Hk s. specialize (Hm s). unfold bind.
  destruct (m s) as [a s1 | e s1]; cbn [result_state] in *; [| exact Hm].
  now rewrite Hk.
Qed.

Lemma keeps_ret {A} (a : A) : keeps_fs (ret a).
Proof. intros s. reflexivity. Qed.
Lemma keeps_raise {A} e : keeps_fs (A := A) (raise e).
Proof. intros s. reflexivity. Qed.
Lemma keeps_print m : keeps_fs (print m).
Proof. intros s. reflexivity. Qed.
Lemma keeps_get_obj i : keeps_fs (get_obj i).
Proof. intros s. unfold get_obj. now case_match. Qed.
Lemma keeps_set_obj i o : keeps_fs (set_obj i o).
Proof. intros s. reflexivity. Qed.
Lemma keeps_alloc o : keeps_fs (alloc o).
Proof. intros s. reflexivity. Qed.
Lemma keeps_now : keeps_fs now.
Proof. intros s. reflexivity. Qed.
Lemma keeps_tick : keeps_fs tick.
Proof. intros s. reflexivity. Qed.
Lemma keeps_path_exists p : keeps_fs (path_exists p).
Proof. intros s. reflexivity. Qed.

Create HintDb keeps.
#[local] Hint Resolve keeps_ret keeps_raise keeps_print keeps_get_obj keeps_set_obj
  keeps_alloc keeps_now keeps_tick keeps_path_exists : keeps.

Ltac keeps_tac :=
  repeat first [ solve [eauto with keeps]
               | apply keeps_bind; intros
               | progress case_match ].

Lemma keeps_load i : keeps_fs (load i).
Proof. unfold load. keeps_tac. Qed.
#[local] Hint Resolve keeps_load : keeps.

Lemma keeps_Image_new m size color : keeps_fs (Image_new m size color).
Proof. unfold Image_new. auto with keeps. Qed.
Lemma keeps_convert i m' : keeps_fs (convert i m').
Proof. unfold convert. keeps_tac. Qed.
Lemma keeps_resize i size f : keeps_fs (resize i size f).
Proof. unfold resize. keeps_tac. Qed.
Lemma keeps_ellipse i box ink : keeps_fs (ImageDraw_ellipse i box ink).
Proof. unfold ImageDraw_ellipse. keeps_tac. Qed.
Lemma keeps_paste t src pos : keeps_fs (paste t src pos).
Proof. unfold paste. keeps_tac. Qed.
Lemma keeps_putalpha i a : keeps_fs (putalpha i a).
Proof. unfold putalpha. keeps_tac. Qed.
#[local] Hint Resolve keeps_Image_new keeps_convert keeps_resize keeps_ellipse
  keeps_paste keeps_putalpha : keeps.

Lemma keeps_create_round_icon i : keeps_fs (create_round_icon i).
Proof. unfold create_round_icon. keeps_tac. Qed.

Lemma keeps_Image_open p : keeps_fs (Image_open p).
Proof. intros s. unfold Image_open. repeat case_match; reflexivity. Qed.
#[local] Hint Resolve keeps_create_round_icon keeps_Image_open : keeps.

Lemma keeps_open_rgba src : keeps_fs (open_rgba src).
Proof. unfold open_rgba. keeps_tac. Qed.

Lemma fs_within_write p b t : fs_within (fun k => k = p) (fs_op (write_file p b t)).
Proof.
  intros s. unfold fs_op.
  destruct (write_file p b t (fs s)) as [e | m] eqn:E; cbn [result_state fs set_fs].
  - apply changes_refl.
  - apply write_file_inv in E as ->. apply changes_insert.
Qed.

Lemma mkdir_walk_changes cur rest m m' :
  mkdir_walk cur rest m = inr m' ->
  changes_within (fun k => (exists c l, k = cur ++ c :: l) /\ k `prefix_of` cur ++ rest) m m'.
Proof.
  revert cur m. induction rest as [|c cs IH]; intros cur m Hw; cbn in Hw.
  - injection Hw as <-. apply changes_refl.
  - assert (Hmono : forall k, ((exists c' l', k = (cur ++ [c]) ++ c' :: l') /\
                              k `prefix_of` (cur ++ [c]) ++ cs) ->
                    (exists c' l', k = cur ++ c' :: l') /\ k `prefix_of` cur ++ c :: cs).
    { intros k [[c' [l' ->]] Hp]. rewrite <- (app_assoc cur [c] cs) in Hp.
      rewrite <- app_assoc in Hp |- *.
      split; [eexists _, _; reflexivity | exact Hp]. }
    destruct (m !! (cur ++ [c])) as [[|b t]|] eqn:E.
    + exact (changes_mono _ _ _ _ Hmono (IH _ _ Hw)).
    + discriminate.
    + refine (changes_trans _ _ _ _ _ (changes_mono _ _ _ _ Hmono (IH _ _ Hw))).
      refine (changes_mono _ _ _ _ _ (changes_insert _ _ _)).
      intros k ->. split; [exists c, []; reflexivity |]. exists cs. now rewrite <- app_assoc.
Qed.

Lemma fs_within_mkdir p : fs_within (fun k => k <> [] /\ k `prefix_of` p) (mkdir p).
Proof.
  intros s. unfold mkdir, fs_op, mkdir_p.
  destruct (mkdir_walk [] p (fs s)) as [e | m] eqn:E; cbn [result_state fs set_fs].
  - apply changes_refl.
  - refine (changes_mono _ _ _ _ _ (mkdir_walk_changes _ _ _ _ E)).
    intros k [[c [l ->]] Hp]. split; [discriminate | exact Hp].
Qed.

Lemma fs_within_save i p : fs_within (fun k => k = p) (save i p).
Proof.
  unfold save. apply fs_within_bind; [apply keeps_within, keeps_load | intros px].
  apply fs_within_bind; [apply keeps_within, keeps_get_obj | intros o].
  case_match; [| apply keeps_within, keeps_raise].
  apply fs_within_bind; [apply keeps_within, keeps_now | intros t].
  apply fs_within_bind; [apply fs_within_write | intros _].
  apply keeps_within, keeps_tick.
Qed.

Lemma fs_within_gen_density root si d e :
  fs_within (density_paths root d) (gen_density root si (d, e)).
Proof.
  unfold gen_density, density_paths.
  apply fs_within_bind; [| intros _].
  { refine (fs_within_mono _ _ _ _ (fs_within_mkdir _)). auto. }
  apply fs_within_bind; [apply keeps_within, keeps_resize | intros sq].
  apply fs_within_bind; [| intros _].
  { refine (fs_within_mono _ _ _ _ (fs_within_save _ _)). auto. }
  apply fs_within_bind; [apply keeps_within, keeps_print | intros _].
  apply fs_within_bind; [apply keeps_within, keeps_create_round_icon | intros rd].
  apply fs_within_bind; [| intros _].
  { refine (fs_within_mono _ _ _ _ (fs_within_save _ _)). auto. }
  apply keeps_within, keeps_print.
Qed.

Lemma fs_within_generate tbl src root :
  fs_within (fun k => exists d e, In (d, e) tbl /\ density_paths root d k)
    (generate_icons_with tbl src root).
Proof.
  unfold generate_icons_with.
  apply fs_within_bind; [apply keeps_within, keeps_print | intros _].
  apply fs_within_bind; [apply keeps_within | intros r].
  { intros s. unfold try_except.
    pose proof (keeps_bind _ _ (keeps_open_rgba src) (fun i => keeps_ret (Some i)) s) as H.
    destruct (bind _ _ s) as [a s1 | e s1]; cbn [result_state] in *; [exact H |].
    destruct e; try exact H; cbn [print bind ret result_state fs]; exact H. }
  destruct r as [si |]; [| apply keeps_within, keeps_ret].
  apply fs_within_bind; [apply keeps_within, keeps_get_obj | intros o].
  apply fs_within_bind; [apply keeps_within, keeps_print | intros _].
  apply fs_within_bind; [apply keeps_within, keeps_print | intros _].
  apply fs_within_bind; [| intros _].
  { apply fs_within_for_each. intros [d e] Hde.
    refine (fs_within_mono _ _ _ _ (fs_within_gen_density root si d e)).
    intros k Hk. exists d, e. auto. }
  apply fs_within_bind; [apply keeps_within, keeps_print | intros _].
  apply fs_within_bind; [apply keeps_within, keeps_print | intros _].
  apply keeps_within, keeps_ret.
Qed.

(** X3.  Whether [generate_icons] returns or raises, it changes the file
    system only at the two icon files of a density and at the directories
    on the way to that density's mipmap directory; it removes nothing. *)
Theorem generate_icons_frame src root s :
  let s' := result_state (generate_icons src root s) in
  (forall k, ~ (exists d e, In (d, e) densities /\
                  (k = square_path root d \/ k = round_path root d \/
                   (k <> [] /\ k `prefix_of` mipmap_dir root d))) ->
     fs s' !! k = fs s !! k) /\
  (forall k, is_Some (fs s !! k) -> is_Some (fs s' !! k)).
Proof. exact (fs_within_generate densities src root s). Qed.

Lemma fs_within_copy2 src dst : fs_within (fun k => dst `prefix_of` k) (copy2 src dst).
Proof.
  intros s. unfold copy2.
  set (dst' := match lookup_fs (fs s) dst with Some Dir => dst ++ [basename src] | _ => dst end).
  assert (Hp : dst `prefix_of` dst') by (unfold dst'; case_match; [case_match | ..];
    first [exists [basename src]; reflexivity | exists []; now rewrite app_nil_r]).
  destruct (lookup_fs (fs s) src) as [[|b t]|]; cbn [result_state]; try apply changes_refl.
  destruct (decide (src = dst')); cbn [result_state]; [apply changes_refl |].
  refine (changes_mono _ _ _ _ _ (fs_within_write dst' b t s)). intros k ->. exact Hp.
Qed.

Lemma fs_within_copy_one src_dir dst fp sub :
  fs_within (fun k => (k <> [] /\ k `prefix_of` dst ++ [sub]) \/ (dst ++ [sub]) `prefix_of` k)
    (copy_one src_dir dst (fp, sub)).
Proof.
  unfold copy_one.
  apply fs_within_bind; [| intros _].
  { refine (fs_within_mono _ _ _ _ (fs_within_mkdir _)). auto. }
  apply fs_within_bind; [apply keeps_within, keeps_path_exists | intros b].
  destruct b; [| apply keeps_within, keeps_print].
  apply fs_within_bind; [| intros _; apply keeps_within, keeps_print].
  refine (fs_within_mono _ _ _ _ (fs_within_copy2 _ _)).
  intros k [r ->]. right. exists ([basename fp] ++ r). now rewrite app_assoc.
Qed.

Lemma fs_within_copy_xml src_dir dst :
  fs_within (fun k => exists fp sub, In (fp, sub) xml_files /\
               ((k <> [] /\ k `prefix_of` dst ++ [sub]) \/ (dst ++ [sub]) `prefix_of` k))
    (copy_xml_resources src_dir dst).
Proof.
  unfold copy_xml_resources.
  apply fs_within_bind; [apply keeps_within, keeps_print | intros _].
  apply fs_within_bind; [| intros _; apply keeps_within, keeps_print].
  apply fs_within_for_each. intros [fp sub] Hin.
  refine (fs_within_mono _ _ _ _ (fs_within_copy_one _ _ _ _)). eauto.
Qed.

(** X4.  Whether [copy_xml_resources] returns or raises, it changes the
    file system only at [dest_dir/values] and [dest_dir/drawable], at the
    directories on the way to them, and at paths below them; it removes
    nothing. *)
Theorem copy_xml_resources_frame src_dir dst s :
  let s' := result_state (copy_xml_resources src_dir dst s) in
  (forall k, ~ (exists fp sub, In (fp, sub) xml_files /\
                  ((k <> [] /\ k `prefix_of` dst ++ [sub]) \/ (dst ++ [sub]) `prefix_of` k)) ->
     fs s' !! k = fs s !! k) /\
  (forall k, is_Some (fs s !! k) -> is_Some (fs s' !! k)).
Proof. exact (fs_within_copy_xml src_dir dst s). Qed.

Lemma prefix_snoc_inv (k p : path) x :
  k `prefix_of` p ++ [x] -> k `prefix_of` p \/ k = p ++ [x].
Proof.
  intros [r Hr]. destruct r as [|y r'] using rev_ind.
  - right. now rewrite app_nil_r in Hr.
  - left. rewrite app_assoc in Hr. apply app_inj_tail in Hr as [-> _]. now exists r'.
Qed.

Lemma res_paths_mipmap (root : path) (d : string) (k : path) :
  density_paths root d k ->
  (k <> [] /\ k `prefix_of` root) \/ root `prefix_of` k.
Proof.
  unfold density_paths, square_path, round_path, mipmap_dir.
  intros [-> | [-> | [Hne Hp]]].
  - right. exists (["mipmap-" +:+ d] ++ ["ic_launcher.png"]). now rewrite app_assoc.
  - right. exists (["mipmap-" +:+ d] ++ ["ic_launcher_round.png"]). now rewrite app_assoc.
  - destruct (prefix_snoc_inv _ _ _ Hp) as [H | ->]; [now left | right; eexists; reflexivity].
Qed.

Lemma res_paths_copy (root : path) (sub : string) (k : path) :
  (k <> [] /\ k `prefix_of` root ++ [sub]) \/ (root ++ [sub]) `prefix_of` k ->
  (k <> [] /\ k `prefix_of` root) \/ root `prefix_of` k.
Proof.
  intros [[Hne Hp] | [r ->]].
  - destruct (prefix_snoc_inv _ _ _ Hp) as [H | ->]; [now left | right; eexists; reflexivity].
  - right. exists ([sub] ++ r). now rewrite app_assoc.
Qed.

(** X5.  Whether [main] completes, exits or raises, it changes the file
    system only at [android/app/src/main/res], at the directories on the
    way to it, and at paths below it; it removes nothing.  In particular it
    never changes the source icon or the manual-fix directory. *)
Theorem main_frame root s :
  let s' := result_state (main root s) in
  (forall k, ~ ((k <> [] /\ k `prefix_of` android_res root) \/ android_res root `prefix_of` k) ->
     fs s' !! k = fs s !! k) /\
  (forall k, is_Some (fs s !! k) -> is_Some (fs s' !! k)).
Proof.
  revert s. change (fs_within (fun k => (k <> [] /\ k `prefix_of` android_res root) \/
                                        android_res root `prefix_of` k) (main root)).
  assert (Hg : fs_within (fun k => (k <> [] /\ k `prefix_of` android_res root) \/
                                   android_res root `prefix_of` k)
                 (generate_icons (source_icon root) (android_res root))).
  { refine (fs_within_mono _ _ _ _ (fs_within_generate _ _ _)).
    intros k [d [e [_ Hk]]]. exact (res_paths_mipmap _ _ _ Hk). }
  assert (Hc : fs_within (fun k => (k <> [] /\ k `prefix_of` android_res root) \/
                                   android_res root `prefix_of` k)
                 (copy_xml_resources (manual_fix_dir root) (android_res root))).
  { refine (fs_within_mono _ _ _ _ (fs_within_copy_xml _ _)).
    intros k [fp [sub [_ Hk]]]. exact (res_paths_copy _ _ _ Hk). }
  unfold main, banner.
  remember (generate_icons (source_icon root) (android_res root)) as g eqn:Eg.
  remember (copy_xml_resources (manual_fix_dir root) (android_res root)) as cp eqn:Ec.
  clear Eg Ec.
  repeat first [ apply keeps_within; solve [keeps_tac]
               | exact Hg
               | apply fs_within_bind; [| intros] ].
  case_match; [exact Hc | apply keeps_within; keeps_tac].
Qed.

(** ** Where [SystemExit] comes from *)

Lemma no_exit_bind {A B} (m : M A) (k : A -> M B) :
  no_exit m -> (forall a, no_exit (k a)) -> no_exit (bind m k).
Proof.
  intros Hm Hk s e s' H. unfold bind in H.
  destruct (m s) as [a s1 | e1 s1] eqn:E; [exact (Hk a _ _ _ H) |].
  injection H as <- <-. exact (Hm _ _ _ E).
Qed.

Lemma no_exit_ret {A} (a : A) : no_exit (ret a).
Proof. intros s e s' H. discriminate. Qed.
Lemma no_exit_raise {A} e : (forall code, e <> SystemExit code) -> no_exit (A := A) (raise e).
Proof. intros He s e' s' H. injection H as <- _. exact He. Qed.
Lemma no_exit_print m : no_exit (print m).
Proof. intros s e s' H. discriminate. Qed.
Lemma no_exit_get_obj i : no_exit (get_obj i).
Proof. intros s e s' H. unfold get_obj in H. case_match; simplify_eq. discriminate. Qed.
Lemma no_exit_set_obj i o : no_exit (set_obj i o).
Proof. intros s e s' H. discriminate. Qed.
Lemma no_exit_alloc o : no_exit (alloc o).
Proof. intros s e s' H. discriminate. Qed.
Lemma no_exit_now : no_exit now.
Proof. intros s e s' H. discriminate. Qed.
Lemma no_exit_tick : no_exit tick.
Proof. intros s e s' H. discriminate. Qed.
Lemma no_exit_path_exists p : no_exit (path_exists p).
Proof. intros s e s' H. discriminate. Qed.

Lemma no_exit_fs_op f :
  (forall m e, f m = inl e -> forall code, e <> SystemExit code) -> no_exit (fs_op f).
Proof.
  intros Hf s e s' H. unfold fs_op in H.
  destruct (f (fs s)) as [e1 | m] eqn:E; [injection H as <- _; exact (Hf _ _ E) | discriminate].
Qed.

Lemma mkdir_walk_no_exit cur rest m e :
  mkdir_walk cur rest m = inl e -> forall code, e <> SystemExit code.
Proof.
  revert cur m. induction rest as [|c cs IH]; intros cur m H; cbn in H; [discriminate |].
  destruct (m !! (cur ++ [c])) as [[|b t]|]; eauto.
  injection H as <-. destruct cs; discriminate.
Qed.

Lemma no_exit_mkdir p : no_exit (mkdir p).
Proof. apply no_exit_fs_op. intros m e H. exact (mkdir_walk_no_exit _ _ _ _ H). Qed.

Lemma no_exit_write p b t : no_exit (fs_op (write_file p b t)).
Proof.
  apply no_exit_fs_op. intros m e H. unfold write_file in H.
  repeat case_match; simplify_eq; discriminate.
Qed.

Lemma no_exit_copy2 src dst : no_exit (copy2 src dst).
Proof.
  intros s e s' H. unfold copy2 in H.
  destruct (lookup_fs (fs s) src) as [[|b t]|]; try (injection H as <- _; discriminate).
  case_match; [injection H as <- _; discriminate |].
  exact (no_exit_write _ _ _ _ _ _ H).
Qed.

Lemma no_exit_Image_open p : no_exit (Image_open p).
Proof. intros s e s' H. unfold Image_open, alloc in H. repeat case_match; simplify_eq; discriminate. Qed.

Lemma no_exit_try {A} (body : M A) h :
  no_exit body -> (forall e, no_exit (h e)) -> no_exit (try_except body h).
Proof.
  intros Hb Hh s e s' H. unfold try_except in H.
  destruct (body s) as [a s1 | e1 s1] eqn:E; [discriminate |].
  destruct e1; try exact (Hh _ _ _ _ H). exfalso. exact (Hb _ _ _ E _ eq_refl).
Qed.

Lemma no_exit_for_each {A} (l : list A) body :
  (forall x, no_exit (body x)) -> no_exit (for_each l body).
Proof.
  intros H. induction l as [|x l IH]; cbn [for_each]; [apply no_exit_ret |].
  apply no_exit_bind; auto.
Qed.

Create HintDb noexit.
#[local] Hint Resolve no_exit_ret no_exit_raise no_exit_print no_exit_get_obj no_exit_set_obj
  no_exit_alloc no_exit_now no_exit_tick no_exit_path_exists no_exit_mkdir no_exit_write
  no_exit_copy2 no_exit_Image_open : noexit.
#[local] Hint Extern 1 (forall code, _ <> SystemExit code) => (intros ?; discriminate) : noexit.

Ltac noexit_tac :=
  repeat first [ solve [eauto with noexit]
               | apply no_exit_bind; intros
               | apply no_exit_try; intros
               | apply no_exit_for_each; intros
               | progress case_match ].

Lemma no_exit_load i : no_exit (load i).
Proof. unfold load. noexit_tac. Qed.
#[local] Hint Resolve no_exit_load : noexit.

Lemma no_exit_create_round_icon i : no_exit (create_round_icon i).
Proof.
  unfold create_round_icon, Image_new, ImageDraw_ellipse, paste, putalpha. noexit_tac.
Qed.
#[local] Hint Resolve no_exit_create_round_icon : noexit.

Lemma no_exit_generate tbl src root : no_exit (generate_icons_with tbl src root).
Proof.
  unfold generate_icons_with, open_rgba, convert, gen_density, resize, save. noexit_tac.
Qed.

Lemma no_exit_copy_xml src_dir dst : no_exit (copy_xml_resources src_dir dst).
Proof. unfold copy_xml_resources, copy_one. noexit_tac. Qed.

Lemma exits_with_no_exit {A} z (c : M A) : no_exit c -> exits_with z c.
Proof. intros H s c' s' E. exfalso. exact (H _ _ _ E c' eq_refl). Qed.

Lemma exits_with_bind {A B} z (m : M A) (k : A -> M B) :
  exits_with z m -> (forall a, exits_with z (k a)) -> exits_with z (bind m k).
Proof.
  intros Hm Hk s c' s' H. unfold bind in H.
  destruct (m s) as [a s1 | e1 s1] eqn:E; [exact (Hk a _ _ _ H) |].
  injection H as -> <-. exact (Hm _ _ _ E).
Qed.

Lemma exits_with_raise {A} z e : (e = SystemExit z \/ forall code, e <> SystemExit code) ->
  exits_with (A := A) z (raise e).
Proof.
  intros He s c' s' H. injection H as -> _.
  destruct He as [He | He]; [congruence | exfalso; exact (He c' eq_refl)].
Qed.

(** X6.  [main] calls [sys.exit] only with status 1: every [SystemExit]
    that leaves it carries 1, so the process exits with 0 when [main]
    completes and with 1 otherwise, an uncaught exception included. *)
Theorem main_exit_status root s :
  (forall c s', main root s = Exc (SystemExit c) s' -> c = 1) /\
  (exit_status (main root s) = 0 \/ exit_status (main root s) = 1).
Proof.
  assert (Hmain : exits_with 1 (main root)).
  { assert (Hg : no_exit (generate_icons (source_icon root) (android_res root)))
      by apply no_exit_generate.
    pose proof (no_exit_copy_xml (manual_fix_dir root) (android_res root)) as Hc.
    unfold main, banner.
    remember (generate_icons (source_icon root) (android_res root)) as g eqn:Eg.
    remember (copy_xml_resources (manual_fix_dir root) (android_res root)) as cp eqn:Ec.
    clear Eg Ec.
    repeat first [ apply exits_with_no_exit; solve [auto with noexit]
                 | apply exits_with_raise; solve [left; reflexivity]
                 | apply exits_with_bind; intros
                 | progress case_match ]. }
  split; [intros c s'; exact (Hmain s c s') |].
  unfold exit_status. destruct (main root s) as [a s' | e s'] eqn:E; [now left |].
  destruct e; try (now right). right. exact (Hmain _ _ _ E).
Qed.

(** ** An output root that is a file *)

Lemma mkdir_walk_file cur rest c m b t :
  rest <> [] -> m !! (cur ++ rest) = Some (File b t) ->
  mkdir_walk cur (rest ++ [c]) m = inl NotADirectoryError.
Proof.
  revert cur m. induction rest as [|x xs IH]; intros cur m Hne Hf; [congruence |].
  cbn [app mkdir_walk].
  destruct xs as [|y ys].
  - rewrite Hf. reflexivity.
  - assert (Hq : cur ++ x :: y :: ys = (cur ++ [x]) ++ y :: ys) by now rewrite <- app_assoc.
    destruct (m !! (cur ++ [x])) as [[|b' t']|] eqn:E.
    + apply IH; [discriminate | now rewrite <- Hq].
    + reflexivity.
    + apply IH; [discriminate |]. rewrite lookup_insert_ne; [now rewrite <- Hq |].
      intros H. apply (f_equal length) in H. rewrite !length_app in H. cbn in H. lia.
Qed.

(** X7.  When the output path exists as a file and the source decodes
    ([Image.open] accepts its size and its data converts to RGBA),
    [generate_icons] does not return [False]: creating the first mipmap
    directory raises [NotADirectoryError] outside the [try], and the
    exception leaves the function after the size of the source has been
    printed. *)
Theorem generate_icons_root_is_file src root s b t bs ts w h px :
  root <> [] -> fs s !! root = Some (File b t) ->
  lookup_fs (fs s) src = Some (File bs ts) -> decode_rgba bs = Some (w, h, px) ->
  exists s', generate_icons src root s = Exc NotADirectoryError s' /\
             out s' = out s ++ [MsgLoading src; MsgSourceSize w h; Text ""].
Proof.
  intros Hne Hr Es Hdec. unfold generate_icons, generate_icons_with.
  rewrite (bind_Ok _ _ _ _ _ (print_Ok _ _)).
  unfold bind at 1, try_except. unfold bind at 1.
  match goal with
  | |- context [open_rgba src ?st] =>
      destruct (open_rgba_ok src st bs ts w h px Es Hdec) as [si [s1 [Eo [Hfs1 [Ho1 Hsrc1]]]]]
  end.
  rewrite Eo. unfold ret at 1.
  destruct Hsrc1 as [[dd [Hsi Hdd]] Hlt].
  rewrite (bind_Ok _ _ _ _ _ (get_obj_Ok _ _ _ Hsi)). cbn [im_w im_h].
  rewrite (bind_Ok _ _ _ _ _ (print_Ok _ _)).
  rewrite (bind_Ok _ _ _ _ _ (print_Ok _ _)).
  match goal with
  | |- context [bind (for_each densities (gen_density root si)) _ ?st] =>
      assert (Hl : for_each densities (gen_density root si) st = Exc NotADirectoryError st)
  end.
  { cbn [densities for_each]. apply bind_Exc.
    unfold gen_density, mkdir, fs_op, mkdir_p, mipmap_dir, bind at 1.
    rec_simpl. rewrite Hfs1.
    rewrite (mkdir_walk_file [] root _ (fs s) b t Hne Hr). reflexivity. }
  rewrite (bind_Exc _ _ _ _ _ Hl). eexists. split; [reflexivity |].
  rec_simpl. rewrite Ho1, <- !app_assoc. reflexivity.
Qed.

(** ** When [generate_icons] succeeds *)

Lemma round_path_ne_dir root d : round_path root d <> mipmap_dir root d.
Proof.
  intros H. apply (f_equal length) in H.
  rewrite length_round_path, length_mipmap_dir in H. lia.
Qed.

Lemma mipmap_dir_inj root d d' : mipmap_dir root d = mipmap_dir root d' -> d = d'.
Proof. unfold mipmap_dir. intros H. apply app_inj_tail in H as [_ H]. now apply mipmap_inj. Qed.

Lemma mipmap_ne_icon root d d' :
  mipmap_dir root d <> square_path root d' /\ mipmap_dir root d <> round_path root d'.
Proof. split; intros H; apply (f_equal length) in H;
  rewrite length_mipmap_dir in H; [rewrite length_square_path in H | rewrite length_round_path in H]; lia.
Qed.

Lemma loop_succeeds root si tbl w h px s :
  src_obj s si w h px -> NoDup (map fst tbl) -> dirs_ok (fs s) [] root ->
  (forall d e, In (d, e) tbl ->
     (forall b t, fs s !! mipmap_dir root d <> Some (File b t)) /\
     fs s !! square_path root d <> Some Dir /\ fs s !! round_path root d <> Some Dir) ->
  exists s', for_each tbl (gen_density root si) s = Ok tt s'.
Proof.
  revert s. induction tbl as [|[d e] tbl IH]; intros s Hsrc Hnd Hroot Hall.
  - exists s. reflexivity.
  - destruct (Hall d e (or_introl eq_refl)) as [Hm [Hsq Hrd]].
    set (m1 := <[mipmap_dir root d := Dir]> (fs s)).
    set (m2 := <[square_path root d := File (square_blob w h px e) (clock s)]> m1).
    set (m3 := <[round_path root d := File (round_blob w h px e) (clock s + 1)]> m2).
    assert (E1 : mkdir_p (mipmap_dir root d) (fs s) = inr m1)
      by exact (mkdir_child_ok _ _ _ Hroot Hm).
    assert (E2 : write_file (square_path root d) (square_blob w h px e) (clock s) m1 = inr m2).
    { apply write_file_ok; [unfold square_path; destruct root; discriminate | |].
      - rewrite square_path_parent. apply lookup_insert_eq.
      - unfold m1. rewrite lookup_insert_ne by exact (not_eq_sym (square_path_ne_dir root d)).
        exact Hsq. }
    assert (E3 : write_file (round_path root d) (round_blob w h px e) (clock s + 1) m2 = inr m3).
    { apply write_file_ok; [unfold round_path; destruct root; discriminate | |].
      - rewrite round_path_parent. unfold m2.
        rewrite lookup_insert_ne by exact (square_path_ne_dir root d).
        apply lookup_insert_eq.
      - unfold m2, m1. rewrite lookup_insert_ne by exact (square_round_ne root d d).
        rewrite lookup_insert_ne by exact (not_eq_sym (round_path_ne_dir root d)).
        exact Hrd. }
    destruct (gen_density_eval _ _ _ _ _ _ _ _ _ _ _ Hsrc E1 E2 E3)
      as [s1 [Hrun [Hfs [_ Hsrc1]]]].
    assert (Hkeep : forall k, k <> mipmap_dir root d -> k <> square_path root d ->
                    k <> round_path root d -> fs s1 !! k = fs s !! k).
    { intros k H1 H2 H3. rewrite Hfs. unfold m3, m2, m1.
      rewrite !lookup_insert_ne by congruence. reflexivity. }
    cbn [map fst] in Hnd. apply NoDup_cons in Hnd as [Hd Hnd].
    assert (Hd' : forall e', ~ In (d, e') tbl).
    { intros e' Hin. apply Hd. apply list_elem_of_In. apply in_map_iff.
      exists (d, e'). auto. }
    assert (Hroot1 : dirs_ok (fs s1) [] root).
    { apply (dirs_ok_mono _ _ (fs s)); [| exact Hroot]. intros k Hk Hkd. cbn in Hk.
      rewrite Hkeep; [exact Hkd | ..]; intros ->;
        [rewrite length_mipmap_dir in Hk | rewrite length_square_path in Hk
        | rewrite length_round_path in Hk]; lia. }
    assert (Hall1 : forall d' e', In (d', e') tbl ->
              (forall b t, fs s1 !! mipmap_dir root d' <> Some (File b t)) /\
              fs s1 !! square_path root d' <> Some Dir /\
              fs s1 !! round_path root d' <> Some Dir).
    { intros d' e' Hin.
      assert (Hdd : d' <> d) by (intros ->; exact (Hd' e' Hin)).
      destruct (Hall d' e' (or_intror Hin)) as [A [B C]].
      destruct (mipmap_ne_icon root d' d) as [M1 M2].
      split; [| split].
      - rewrite Hkeep; [exact A | intros H; exact (Hdd (mipmap_dir_inj _ _ _ H)) | exact M1 | exact M2].
      - rewrite Hkeep; [exact B | | | exact (square_round_ne root d' d)].
        + intros H. exact (proj1 (mipmap_ne_icon root d d') (eq_sym H)).
        + intros H. exact (Hdd (square_path_inj _ _ _ H)).
      - rewrite Hkeep; [exact C | | |].
        + intros H. exact (proj2 (mipmap_ne_icon root d d') (eq_sym H)).
        + intros H. exact (square_round_ne root d d' (eq_sym H)).
        + intros H. exact (Hdd (round_path_inj _ _ _ H)). }
    destruct (IH s1 Hsrc1 Hnd Hroot1 Hall1) as [s2 E].
    exists s2. cbn [for_each]. rewrite (bind_Ok _ _ _ _ _ Hrun). exact E.
Qed.

(** X8.  [generate_icons] returns [True] when the source file decodes to
    an RGBA image ([Image.open] accepts its size, see [decode_rgba]), every
    directory on the output path exists, no mipmap
    directory exists as a file, and no icon path exists as a directory.
    Existing mipmap directories and icon files do not prevent it. *)
Theorem generate_icons_succeeds src root s b t w h px :
  lookup_fs (fs s) src = Some (File b t) -> decode_rgba b = Some (w, h, px) ->
  dirs_ok (fs s) [] root ->
  (forall d e, In (d, e) densities ->
     (forall b' t', fs s !! mipmap_dir root d <> Some (File b' t')) /\
     fs s !! square_path root d <> Some Dir /\ fs s !! round_path root d <> Some Dir) ->
  exists s', generate_icons src root s = Ok true s'.
Proof.
  intros Es Hdec Hroot Hall. unfold generate_icons, generate_icons_with.
  rewrite (bind_Ok _ _ _ _ _ (print_Ok _ _)).
  unfold bind at 1, try_except. unfold bind at 1.
  match goal with
  | |- context [open_rgba src ?st] =>
      destruct (open_rgba_ok src st b t w h px Es Hdec) as [si [s1 [Eo [Hfs1 [_ Hsrc1]]]]]
  end.
  rewrite Eo. unfold ret at 1.
  destruct Hsrc1 as [[dd [Hsi Hdd]] Hlt].
  rewrite (bind_Ok _ _ _ _ _ (get_obj_Ok _ _ _ Hsi)). cbn [im_w im_h].
  rewrite (bind_Ok _ _ _ _ _ (print_Ok _ _)).
  rewrite (bind_Ok _ _ _ _ _ (print_Ok _ _)).
  match goal with
  | |- context [bind (for_each densities (gen_density root si)) _ ?st] =>
      assert (Hsrc2 : src_obj st si w h px) by (split; [eauto | exact Hlt]);
      assert (Hst : fs st = fs s) by (rec_simpl; exact Hfs1);
      rewrite <- Hst in Hroot, Hall;
      destruct (loop_succeeds root si densities w h px st Hsrc2 densities_nodup Hroot Hall)
        as [s2 El]
  end.
  rewrite (bind_Ok _ _ _ _ _ El).
  rewrite (bind_Ok _ _ _ _ _ (print_Ok _ _)).
  rewrite (bind_Ok _ _ _ _ _ (print_Ok _ _)).
  eexists. reflexivity.
Qed.

(** ** Running [copy_xml_resources] twice *)

Lemma keeps_dirs_fs {A} (c : M A) : keeps_fs c -> keeps_dirs c.
Proof. intros H s k Hk. now rewrite H. Qed.

Lemma keeps_dirs_bind {A B} (m : M A) (k : A -> M B) :
  keeps_dirs m -> (forall a, keeps_dirs (k a)) -> keeps_dirs (bind m k).
Proof.
  intros Hm Hk s p Hp. specialize (Hm s p Hp). unfold bind.
  destruct (m s) as [a s1 | e s1]; cbn [result_state] in *; [| exact Hm].
  exact (Hk a s1 p Hm).
Qed.

Lemma keeps_dirs_for_each {A} (l : list A) body :
  (forall x, keeps_dirs (body x)) -> keeps_dirs (for_each l body).
Proof.
  intros H. induction l as [|x l IH]; cbn [for_each].
  - intros s k Hk. exact Hk.
  - apply keeps_dirs_bind; auto.
Qed.

Lemma write_file_keeps_dir p b t m m' k :
  write_file p b t m = inr m' -> m !! k = Some Dir -> m' !! k = Some Dir.
Proof.
  intros Hw Hk. pose proof (write_file_inv _ _ _ _ _ Hw) as ->.
  destruct (decide (k = p)) as [-> | Hne]; [| now rewrite lookup_insert_ne by congruence].
  exfalso. unfold write_file in Hw.
  assert (Hl : lookup_fs m p = Some Dir) by (destruct p; [reflexivity | exact Hk]).
  rewrite Hl in Hw. destruct (lookup_fs m (removelast p)) as [[|? ?]|]; discriminate.
Qed.

Lemma keeps_dirs_fs_op f :
  (forall m m' k, f m = inr m' -> m !! k = Some Dir -> m' !! k = Some Dir) ->
  keeps_dirs (fs_op f).
Proof.
  intros Hf s k Hk. unfold fs_op.
  destruct (f (fs s)) as [e | m] eqn:E; cbn [result_state fs set_fs]; eauto.
Qed.

Lemma keeps_dirs_copy2 src dst : keeps_dirs (copy2 src dst).
Proof.
  intros s k Hk. unfold copy2.
  destruct (lookup_fs (fs s) src) as [[|b t]|]; cbn [result_state]; try exact Hk.
  case_decide; cbn [result_state]; [exact Hk |].
  unfold fs_op. destruct (write_file _ b t (fs s)) as [e | m] eqn:E; cbn [result_state fs set_fs];
    [exact Hk | exact (write_file_keeps_dir _ _ _ _ _ _ E Hk)].
Qed.

Lemma keeps_dirs_copy_one src_dir dst x : keeps_dirs (copy_one src_dir dst x).
Proof.
  destruct x as [fp sub]. unfold copy_one.
  apply keeps_dirs_bind.
  { apply keeps_dirs_fs_op. intros m m' k E. exact (mkdir_walk_keep _ _ _ _ _ _ E). }
  intros _. apply keeps_dirs_bind; [apply keeps_dirs_fs, keeps_path_exists | intros b].
  destruct b; [| apply keeps_dirs_fs, keeps_print].
  apply keeps_dirs_bind; [| intros _; apply keeps_dirs_fs, keeps_print].
  apply keeps_dirs_copy2.
Qed.

Lemma basename_app (p fp : path) : fp <> [] -> basename (p ++ fp) = basename fp.
Proof.
  intros H. unfold basename. destruct fp as [|c l] using rev_ind; [congruence |].
  rewrite app_assoc, !last_last. reflexivity.
Qed.

Lemma fs_within_copy2_exact src dst :
  fs_within (fun k => k = dst \/ k = dst ++ [basename src]) (copy2 src dst).
Proof.
  intros s. unfold copy2.
  set (dst' := match lookup_fs (fs s) dst with Some Dir => dst ++ [basename src] | _ => dst end).
  assert (Hp : dst' = dst \/ dst' = dst ++ [basename src])
    by (unfold dst'; repeat case_match; auto).
  destruct (lookup_fs (fs s) src) as [[|b t]|]; cbn [result_state]; try apply changes_refl.
  destruct (decide (src = dst')); cbn [result_state]; [apply changes_refl |].
  refine (changes_mono _ _ _ _ _ (fs_within_write dst' b t s)). intros k ->. exact Hp.
Qed.

Lemma fs_within_copy_one_exact src_dir dst fp sub :
  fp <> [] ->
  fs_within (fun k => (k <> [] /\ k `prefix_of` dst ++ [sub]) \/
                      k = (dst ++ [sub]) ++ [basename fp] \/
                      k = ((dst ++ [sub]) ++ [basename fp]) ++ [basename fp])
    (copy_one src_dir dst (fp, sub)).
Proof.
  intros Hfp. unfold copy_one.
  apply fs_within_bind; [| intros _].
  { refine (fs_within_mono _ _ _ _ (fs_within_mkdir _)). auto. }
  apply fs_within_bind; [apply keeps_within, keeps_path_exists | intros b].
  destruct b; [| apply keeps_within, keeps_print].
  apply fs_within_bind; [| intros _; apply keeps_within, keeps_print].
  refine (fs_within_mono _ _ _ _ (fs_within_copy2_exact _ _)).
  rewrite basename_app by exact Hfp. intros k [-> | ->]; auto.
Qed.

Lemma dirs_ok_prefix m cur rest k :
  dirs_ok m cur rest -> k `prefix_of` cur ++ rest -> (length cur < length k)%nat ->
  m !! k = Some Dir.
Proof.
  revert cur. induction rest as [|c cs IH]; intros cur Hd Hk Hl; cbn in Hd.
  - rewrite app_nil_r in Hk. apply prefix_length in Hk. lia.
  - destruct Hd as [Hc Hd].
    assert (Hp : (cur ++ [c]) `prefix_of` cur ++ c :: cs) by (exists cs; now rewrite <- app_assoc).
    destruct (prefix_weak_total _ _ _ Hk Hp) as [H1 | H1].
    + rewrite (prefix_length_eq _ _ H1); [exact Hc |].
      rewrite length_app. cbn. lia.
    + destruct (decide (length k = length (cur ++ [c]))) as [Heq | Hne].
      * rewrite <- (prefix_length_eq _ _ H1) by lia. exact Hc.
      * apply (IH (cur ++ [c])); [exact Hd | now rewrite <- app_assoc |].
        apply prefix_length in H1. lia.
Qed.

Lemma xml_item fp sub :
  In (fp, sub) xml_files ->
  exists base, fp = [sub; base] /\ (sub = "values" \/ sub = "drawable") /\
    base <> "values" /\ base <> "drawable".
Proof. intros H. xml_cases H; eexists; (split; [reflexivity | split; [auto | split; discriminate]]). Qed.

Lemma set_fs_same s : set_fs s (fs s) = s.
Proof. now destruct s. Qed.

Lemma copy_one_replay src_dir dst fp sub s s' :
  fp <> [] ->
  copy_one src_dir dst (fp, sub) s = Ok tt s' ->
  dirs_ok (fs s') [] (dst ++ [sub]) /\ fs s' !! (src_dir ++ fp) <> Some Dir /\
  exists ln, out s' = out s ++ [ln] /\
  forall t,
    dirs_ok (fs t) [] (dst ++ [sub]) ->
    fs t !! (src_dir ++ fp) = fs s' !! (src_dir ++ fp) ->
    fs t !! ((dst ++ [sub]) ++ [basename fp]) = fs s' !! ((dst ++ [sub]) ++ [basename fp]) ->
    fs t !! (((dst ++ [sub]) ++ [basename fp]) ++ [basename fp]) =
      fs s' !! (((dst ++ [sub]) ++ [basename fp]) ++ [basename fp]) ->
    exists t', copy_one src_dir dst (fp, sub) t = Ok tt t' /\ fs t' = fs t /\ out t' = out t ++ [ln].
Proof.
  intros Hfp H.
  set (dest := (dst ++ [sub]) ++ [basename fp]) in *.
  assert (Hdt : forall t, dirs_ok (fs t) [] (dst ++ [sub]) ->
            (mkdir (dst ++ [sub]) ;;; (b <- path_exists (src_dir ++ fp) ;;
               if b then (copy2 (src_dir ++ fp) dest ;;; print (MsgCopied dest))
               else print (MsgSourceNotFound (src_dir ++ fp)))) t =
            (b <- path_exists (src_dir ++ fp) ;;
               if b then (copy2 (src_dir ++ fp) dest ;;; print (MsgCopied dest))
               else print (MsgSourceNotFound (src_dir ++ fp))) t).
  { intros t Ht. unfold mkdir, fs_op, mkdir_p. unfold bind at 1.
    rewrite (mkdir_walk_noop _ _ _ Ht), set_fs_same. reflexivity. }
  unfold copy_one in H |- *. fold dest in H |- *.
  unfold bind at 1 in H. unfold mkdir, fs_op at 1 in H.
  destruct (mkdir_p (dst ++ [sub]) (fs s)) as [e | ma] eqn:Em; [discriminate |].
  pose proof (mkdir_walk_post _ _ _ _ Em) as Hda.
  rewrite (bind_Ok _ _ _ _ _ (path_exists_Ok _ _)) in H. cbn [fs set_fs] in H.
  rewrite lookup_fs_app_ne in H by exact Hfp.
  destruct (ma !! (src_dir ++ fp)) as [[|b t]|] eqn:Es.
  - unfold bind, copy2 in H. cbn [fs set_fs] in H.
    rewrite lookup_fs_app_ne, Es in H by exact Hfp. discriminate.
  - unfold bind at 1, copy2 at 1 in H. cbn [fs set_fs] in H.
    rewrite lookup_fs_app_ne, Es in H by exact Hfp.
    assert (Hld : forall m, lookup_fs m dest = m !! dest) by (intros m; apply lookup_fs_nonempty).
    rewrite Hld in H.
    rewrite basename_app in H by exact Hfp.
    destruct (ma !! dest) as [[|bd td]|] eqn:Ed.
    { case_decide as Hne; [discriminate |].
      unfold fs_op in H. cbn [fs set_fs] in H.
      destruct (write_file (dest ++ [basename fp]) b t ma) as [e | m'] eqn:Ew;
        cbv beta iota in H; [discriminate |].
      rewrite print_Ok in H. injection H as <-. cbn [fs out set_fs].
      pose proof (write_file_inv _ _ _ _ _ Ew) as Em'.
      assert (Hdd : dest ++ [basename fp] <> dest)
        by (intros E; apply (f_equal length) in E; rewrite length_app in E; cbn in E; lia).
      split; [apply (dirs_ok_mono _ _ ma); [intros k _; exact (write_file_keeps_dir _ _ _ _ _ _ Ew) | exact Hda] |].
      split; [rewrite Em', lookup_insert_ne, Es by congruence; discriminate |].
      eexists. split; [reflexivity |].
      intros u Hu Hs Hd1 Hd2. cbn [fs] in Hs, Hd1, Hd2. rewrite (Hdt u Hu).
      rewrite (bind_Ok _ _ _ _ _ (path_exists_Ok _ _)).
      rewrite lookup_fs_app_ne, Hs, Em', lookup_insert_ne, Es by (exact Hfp || congruence).
      cbv beta iota. unfold bind at 1, copy2 at 1.
      rewrite lookup_fs_app_ne, Hs, Em', lookup_insert_ne, Es by (exact Hfp || congruence).
      rewrite Hld, Hd1, Em', lookup_insert_ne, Ed by congruence.
      rewrite basename_app by exact Hfp. rewrite decide_False by exact Hne.
      unfold fs_op. rewrite write_file_ok.
      * cbv beta iota. rewrite print_Ok. eexists. split; [reflexivity |]. cbn [fs out set_fs].
        split; [| reflexivity]. apply insert_id. rewrite Hd2, Em'. apply lookup_insert_eq.
      * intros E. apply app_eq_nil in E as [_ E]. discriminate.
      * rewrite removelast_snoc, Hld, Hd1, Em', lookup_insert_ne, Ed by congruence. reflexivity.
      * rewrite Hd2, Em', lookup_insert_eq. discriminate. }
    all: case_decide as Hne; [discriminate |].
    all: unfold fs_op in H; cbn [fs set_fs] in H.
    all: destruct (write_file dest b t ma) as [e | m'] eqn:Ew; cbv beta iota in H; [discriminate |].
    all: rewrite print_Ok in H; injection H as <-; cbn [fs out set_fs].
    all: pose proof (write_file_inv _ _ _ _ _ Ew) as Em'.
    all: split; [apply (dirs_ok_mono _ _ ma);
                 [intros k _; exact (write_file_keeps_dir _ _ _ _ _ _ Ew) | exact Hda] |].
    all: split; [rewrite Em', lookup_insert_ne, Es by congruence; discriminate |].
    all: eexists; split; [reflexivity |].
    all: intros u Hu Hs Hd1 _; cbn [fs] in Hs, Hd1; rewrite (Hdt u Hu).
    all: rewrite (bind_Ok _ _ _ _ _ (path_exists_Ok _ _)).
    all: rewrite lookup_fs_app_ne, Hs, Em', lookup_insert_ne, Es by (exact Hfp || congruence).
    all: cbv beta iota; unfold bind at 1, copy2 at 1.
    all: rewrite lookup_fs_app_ne, Hs, Em', lookup_insert_ne, Es by (exact Hfp || congruence).
    all: rewrite Hld, Hd1, Em', lookup_insert_eq.
    all: rewrite decide_False by exact Hne.
    all: unfold fs_op; rewrite write_file_ok by
      first [ (unfold dest; intros E; apply app_eq_nil in E as [_ E]; discriminate)
            | (unfold dest at 1; rewrite removelast_snoc, lookup_fs_nonempty;
               exact (dirs_ok_last _ _ _ Hu ltac:(intros E; apply app_eq_nil in E as [_ E]; discriminate)))
            | (rewrite Hd1, Em', lookup_insert_eq; discriminate) ].
    all: cbv beta iota; rewrite print_Ok; eexists; split; [reflexivity |]; cbn [fs out set_fs].
    all: split; [| reflexivity].
    all: apply insert_id; rewrite Hd1, Em'; apply lookup_insert_eq.
  - rewrite print_Ok in H. injection H as <-. cbn [fs out].
    split; [exact Hda |]. split; [rewrite Es; discriminate |].
    eexists. split; [reflexivity |].
    intros t' Ht Hs _ _. rewrite (Hdt t' Ht).
    rewrite (bind_Ok _ _ _ _ _ (path_exists_Ok _ _)). cbn [fs].
    rewrite lookup_fs_app_ne, Hs by exact Hfp. cbn [fs]. rewrite Es, print_Ok.
    eexists. split; [reflexivity |]. cbn [fs out]. auto.
Qed.

Lemma copy_loop_replay src_dir dst l s s1 :
  NoDup l -> (forall x, In x l -> In x xml_files) ->
  for_each l (copy_one src_dir dst) s = Ok tt s1 ->
  exists ls, out s1 = out s ++ ls /\
  forall t, fs t = fs s1 ->
    exists t', for_each l (copy_one src_dir dst) t = Ok tt t' /\ fs t' = fs s1 /\
               out t' = out t ++ ls.
Proof.
  revert s. induction l as [|[fp sub] l IH]; intros s Hnd Hsub H.
  - cbn in H. injection H as <-. exists []. split; [now rewrite app_nil_r |].
    intros t Ht. exists t. split; [reflexivity |]. split; [exact Ht | now rewrite app_nil_r].
  - apply NoDup_cons in Hnd as [Hnin Hnd].
    cbn [for_each] in H. unfold bind at 1 in H.
    destruct (copy_one src_dir dst (fp, sub) s) as [[] sa | e sa] eqn:E1; [| discriminate].
    destruct (xml_item fp sub (Hsub _ (or_introl eq_refl))) as [base [-> [Hsv [Hb1 Hb2]]]].
    destruct (copy_one_replay src_dir dst [sub; base] sub s sa ltac:(discriminate) E1)
      as [Hda [Hsd [ln [Hout Hrep]]]].
    destruct (IH sa Hnd (fun x Hx => Hsub x (or_intror Hx)) H) as [ls [Hout1 Hrest]].
    exists (ln :: ls). split; [rewrite Hout1, Hout, <- app_assoc; reflexivity |].
    assert (Hkd : forall k, fs sa !! k = Some Dir -> fs s1 !! k = Some Dir).
    { intros k Hk. pose proof (keeps_dirs_for_each l _ (keeps_dirs_copy_one src_dir dst) sa k Hk)
        as Hk1. now rewrite H in Hk1. }
    set (Q := fun k => exists fp' sub', In (fp', sub') l /\
               ((k <> [] /\ k `prefix_of` dst ++ [sub']) \/ k = (dst ++ [sub']) ++ [basename fp'] \/
                k = ((dst ++ [sub']) ++ [basename fp']) ++ [basename fp'])).
    assert (Hfr : forall k, ~ Q k -> fs s1 !! k = fs sa !! k).
    { assert (Hw : fs_within Q (for_each l (copy_one src_dir dst))).
      { apply fs_within_for_each. intros [fp' sub'] Hin.
        destruct (xml_item fp' sub' (Hsub _ (or_intror Hin))) as [b' [-> _]].
        refine (fs_within_mono _ _ _ _ (fs_within_copy_one_exact src_dir dst [sub'; b'] sub' ltac:(discriminate))).
        intros k Hk. exists [sub'; b'], sub'. auto. }
      specialize (Hw sa). rewrite H in Hw. exact (proj1 Hw). }
    change (basename [sub; base]) with base in *.
    assert (Esrc : src_dir ++ [sub; base] = (src_dir ++ [sub]) ++ [base])
      by now rewrite <- app_assoc.
    rewrite Esrc in Hsd, Hrep.
    assert (Hlen : forall (p : path) c, length (p ++ [c]) = S (length p))
      by (intros p c; rewrite length_app; cbn; lia).
    assert (HQ : forall k, Q k -> k = (src_dir ++ [sub]) ++ [base] \/
                 k = (dst ++ [sub]) ++ [base] \/ k = ((dst ++ [sub]) ++ [base]) ++ [base] -> False).
    { intros k [fp' [sub' [Hin Hk]]] Hkk.
      destruct (xml_item fp' sub' (Hsub _ (or_intror Hin))) as [b' [-> [Hsv' [Hb1' Hb2']]]].
      change (basename [sub'; b']) with b' in Hk.
      assert (Hne : ~ (sub' = sub /\ b' = base)) by (intros [-> ->]; apply Hnin, list_elem_of_In; exact Hin).
      destruct Hkk as [-> | [-> | ->]]; destruct Hk as [[_ Hk] | [Hk | Hk]].
      - apply prefix_snoc_inv in Hk as [Hk | Hk].
        + apply Hsd. apply (dirs_ok_prefix _ _ _ _ Hda); [| cbn; rewrite Hlen; lia].
          cbn. transitivity dst; [exact Hk | exists [sub]; reflexivity].
        + apply app_inj_tail in Hk as [_ ->]. destruct Hsv' as [-> | ->]; auto.
      - apply app_inj_tail in Hk as [Hk ->]. apply app_inj_tail in Hk as [_ ->]. auto.
      - apply app_inj_tail in Hk as [Hk ->]. apply app_inj_tail in Hk as [_ ->].
        destruct Hsv as [-> | ->]; auto.
      - apply prefix_length in Hk. rewrite !Hlen in Hk. lia.
      - apply app_inj_tail in Hk as [Hk ->]. apply app_inj_tail in Hk as [_ ->]. auto.
      - apply (f_equal length) in Hk. rewrite !Hlen in Hk. lia.
      - apply prefix_length in Hk. rewrite !Hlen in Hk. lia.
      - apply (f_equal length) in Hk. rewrite !Hlen in Hk. lia.
      - apply app_inj_tail in Hk as [Hk _]. apply app_inj_tail in Hk as [Hk ->].
        apply app_inj_tail in Hk as [_ ->]. auto. }
    intros t Ht.
    destruct (Hrep t) as [ta [Ea [Hfa Houta]]].
    + rewrite Ht. apply (dirs_ok_mono _ _ (fs sa)); [intros k _; apply Hkd | exact Hda].
    + rewrite Ht. apply Hfr. intros Hq. exact (HQ _ Hq (or_introl eq_refl)).
    + rewrite Ht. apply Hfr. intros Hq. exact (HQ _ Hq (or_intror (or_introl eq_refl))).
    + rewrite Ht. apply Hfr. intros Hq. exact (HQ _ Hq (or_intror (or_intror eq_refl))).
    + destruct (Hrest ta ltac:(congruence)) as [t' [E2 [Hf2 Ho2]]].
      exists t'. cbn [for_each]. rewrite (bind_Ok _ _ _ _ _ Ea). split; [exact E2 |].
      split; [exact Hf2 |]. rewrite Ho2, Houta, <- app_assoc. reflexivity.
Qed.

(** X9.  Whenever [copy_xml_resources] completes, running it a second
    time on the state it left completes as well.  The second run leaves the
    file system exactly as the first left it, modification times included,
    and prints once more the lines the first run printed. *)
Theorem copy_xml_resources_idempotent src_dir dst s s1 :
  copy_xml_resources src_dir dst s = Ok tt s1 ->
  exists s2, copy_xml_resources src_dir dst s1 = Ok tt s2 /\ fs s2 = fs s1 /\
    exists ls, out s1 = out s ++ ls /\ out s2 = out s1 ++ ls.
Proof.
  intros Hrun. unfold copy_xml_resources in Hrun |- *.
  rewrite (bind_Ok _ _ _ _ _ (print_Ok _ _)) in Hrun. unfold bind at 1 in Hrun.
  destruct (for_each xml_files (copy_one src_dir dst) _) as [[] sa | e sa] eqn:E1;
    [| discriminate].
  rewrite print_Ok in Hrun. injection Hrun as <-.
  assert (Hnd : NoDup xml_files) by (apply (bool_decide_unpack _); vm_compute; exact I).
  destruct (copy_loop_replay src_dir dst xml_files _ sa Hnd (fun x H => H) E1) as [ls [Hout Hrep]].
  rewrite (bind_Ok _ _ _ _ _ (print_Ok _ _)). unfold bind at 1.
  match goal with
  | |- context [for_each xml_files (copy_one src_dir dst) ?st] =>
      destruct (Hrep st eq_refl) as [t' [E2 [Hf2 Ho2]]]
  end.
  rewrite E2, print_Ok. eexists. split; [reflexivity |]. cbn [fs out] in *.
  split; [exact Hf2 |].
  exists ([Text "Copying XML resources..."] ++ ls ++ [Text ""]).
  rewrite Ho2, Hout. cbn [out]. rewrite <- !app_assoc. split; reflexivity.
Qed.

(** ** When [main] completes *)

Lemma keeps_Ok {A} (c : M A) s a s' : keeps_fs c -> c s = Ok a s' -> fs s' = fs s.
Proof. intros H E. specialize (H s). rewrite E in H. exact H. Qed.

Lemma within_Ok {A} P (c : M A) s a s' :
  fs_within P c -> c s = Ok a s' -> changes_within P (fs s) (fs s').
Proof. intros H E. specialize (H s). rewrite E in H. exact H. Qed.

Lemma icon_not_copy_path (root : path) d k :
  k = square_path root d \/ k = round_path root d ->
  ~ (exists fp sub, In (fp, sub) xml_files /\
       ((k <> [] /\ k `prefix_of` root ++ [sub]) \/ (root ++ [sub]) `prefix_of` k)).
Proof.
  intros Hk [fp [sub [Hin [[_ Hp] | [r Hr]]]]].
  - apply prefix_length in Hp. rewrite length_subdir in Hp.
    destruct Hk as [-> | ->]; [rewrite length_square_path in Hp | rewrite length_round_path in Hp]; lia.
  - assert (Hm : "mipmap-" +:+ d = sub).
    { destruct Hk as [-> | ->]; unfold square_path, round_path, mipmap_dir in Hr;
        rewrite <- !app_assoc in Hr; apply app_inv_head in Hr; cbn in Hr; congruence. }
    xml_cases Hin; discriminate Hm.
Qed.

(** X10.  When [main] completes normally, the source icon exists and
    decodes to an RGBA image, and for each density the Android [res]
    directory holds both icons computed from it: the XML copy that follows
    the generation does not touch them. *)
Theorem main_success_icons root s s' :
  main root s = Ok tt s' ->
  exists b t w h px,
    lookup_fs (fs s) (source_icon root) = Some (File b t) /\ decode_rgba b = Some (w, h, px) /\
    forall d e, In (d, e) densities ->
      (exists t1, fs s' !! square_path (android_res root) d =
                    Some (File (square_blob w h px e) t1)) /\
      (exists t2, fs s' !! round_path (android_res root) d =
                    Some (File (round_blob w h px e) t2)).
Proof.
  intros H. unfold main in H.
  apply bind_Ok_inv in H as [u0 [s0 [H0 H]]].
  assert (F0 : fs s0 = fs s) by (refine (keeps_Ok _ _ _ _ _ H0); unfold banner; keeps_tac).
  apply bind_Ok_inv in H as [b1 [s1 [H1 H]]]. injection H1 as <- <-.
  apply bind_Ok_inv in H as [u2 [s2 [H2 H]]].
  destruct (match lookup_fs _ _ with Some _ => true | None => false end);
    [injection H2 as <- <- | discriminate H2].
  apply bind_Ok_inv in H as [b3 [s3 [H3 H]]]. injection H3 as <- <-.
  apply bind_Ok_inv in H as [u4 [s4 [H4 H]]].
  destruct (match lookup_fs _ _ with Some _ => true | None => false end);
    [injection H4 as <- <- | discriminate H4].
  apply bind_Ok_inv in H as [success [s5 [H5 H]]].
  apply bind_Ok_inv in H as [u6 [s6 [H6 H]]].
  destruct success; [injection H6 as <- <- | discriminate H6].
  destruct (generate_run _ _ _ _ _ densities_nonempty densities_nodup H5)
    as [b [t [w [h [px [Es [Hdec [_ [_ Hfiles]]]]]]]]].
  apply bind_Ok_inv in H as [b7 [s7 [H7 H]]]. injection H7 as _ <-.
  apply bind_Ok_inv in H as [u8 [s8 [H8 H]]].
  assert (F9 : fs s' = fs s8) by (refine (keeps_Ok _ _ _ _ _ H); keeps_tac).
  assert (F8 : forall d e, In (d, e) densities ->
             fs s8 !! square_path (android_res root) d = fs s5 !! square_path (android_res root) d /\
             fs s8 !! round_path (android_res root) d = fs s5 !! round_path (android_res root) d).
  { intros d e _. destruct b7.
    - destruct (within_Ok _ _ _ _ _ (fs_within_copy_xml _ _) H8) as [A _].
      split; apply A; apply (icon_not_copy_path _ d); auto.
    - assert (E8 : fs s8 = fs s5) by (refine (keeps_Ok _ _ _ _ _ H8); keeps_tac).
      rewrite E8. auto. }
  rewrite F0 in Es.
  exists b, t, w, h, px. split; [exact Es |]. split; [exact Hdec |].
  intros d e Hde. destruct (Hfiles d e Hde) as [_ [[t1 Hsq] [t2 Hrd]]].
  destruct (F8 d e Hde) as [A B]. rewrite F9, A, B. eauto.
Qed.

End Pillow.

(** Reading a successful result off its tag, without normalising the
    final state (whose images are functions). *)
Lemma result_Ok_true (r : result bool) :
  match r with Ok true _ => true | _ => false end = true -> r = Ok true (result_state r).
Proof. destruct r as [[|] s|e s]; cbn; congruence. Qed.

Lemma result_Ok_false (r : result bool) :
  match r with Ok false _ => true | _ => false end = true -> r = Ok false (result_state r).
Proof. destruct r as [[|] s|e s]; cbn; congruence. Qed.

Lemma result_Ok_unit (r : result unit) :
  match r with Ok _ _ => true | _ => false end = true -> r = Ok tt (result_state r).
Proof. destruct r as [[] s|e s]; cbn; congruence. Qed.

Lemma result_Ok_Z (z : Z) (r : result Z) :
  match r with Ok x _ => Z.eqb x z | _ => false end = true -> r = Ok z (result_state r).
Proof. destruct r as [x s|e s]; cbn; [intros H; apply Z.eqb_eq in H; congruence | congruence]. Qed.

(** ** C1: the round variant, with Pillow's rasteriser *)

Lemma quarter_next_first q :
  q_finished q = false -> fst (quarter_next q) = Some (q_cx q, q_cy q).
Proof.
  intros H. unfold quarter_next. rewrite H.
  destruct (_ && _); [reflexivity |]. repeat case_match; reflexivity.
Qed.

Lemma quarter_skip_finished fuel q y l :
  q_finished q = true -> quarter_skip fuel q y l = (None, q, l).
Proof. intros H. destruct fuel; cbn; [reflexivity |]. unfold quarter_next. now rewrite H. Qed.

(** The first line [ellipseNew] draws when filling the box [(0, 0, w, h)]
    is the row through the centre, from column 0 to column [w / 2]. *)
Lemma ellipse_first_line w h :
  0 < w -> 0 < h ->
  exists rest, ellipse_new_lines 0 0 w h true 1 = (0, h / 2, w / 2) :: rest.
Proof.
  intros Hw Hh. unfold ellipse_new_lines.
  rewrite !Z.sub_0_r.
  rewrite (proj2 (Z.ltb_ge w 0)), (proj2 (Z.ltb_ge h 0)) by lia. cbn [orb].
  assert (Hf : (4 * walk_fuel w h)%nat <> 0%nat).
  { assert (Z.of_nat (walk_fuel w h) = Z.abs w + Z.abs h + 2)
      by (unfold walk_fuel; rewrite Z2Nat.id; lia). lia. }
  destruct (4 * walk_fuel w h)%nat as [|n]; [congruence |].
  unfold ellipse_init.
  rewrite (proj2 (Z.ltb_ge (w + h) 1)) by lia.
  assert (Hq : quarter_init w h = mkquarter w h w (Z.rem h 2) (Z.rem w 2) h (w * w) (h * h)
                                    (w * w * (h * h)) false).
  { unfold quarter_init. now rewrite (proj2 (Z.ltb_ge w 0)), (proj2 (Z.ltb_ge h 0)) by lia. }
  rewrite Hq.
  pose proof (quarter_next_first (mkquarter w h w (Z.rem h 2) (Z.rem w 2) h (w * w) (h * h)
                                    (w * w * (h * h)) false) eq_refl) as Hn.
  destruct (quarter_next _) as [[[pr py]|] o'] eqn:E; cbn in Hn; [| discriminate].
  injection Hn as -> ->.
  cbn [ellipse_loop ellipse_next e_buf e_finished e_py e_pl e_pr st_o st_i e_leftmost].
  destruct (quarter_skip _ _ _ _) as [[next_o o2] l0].
  rewrite quarter_skip_finished.
  2:{ unfold quarter_init. rewrite (proj2 (Z.ltb_lt (w - 2 * (w + h - 1)) 0)) by lia. reflexivity. }
  destruct (match next_o with None => _ | Some _ => _ end) as [[fin pr'] py'].
  rewrite !app_assoc, rev_unit. cbn [map].
  assert (Hq2 : forall z, 0 <= z -> 0 + (- Z.rem z 2 + z) ÷ 2 = z / 2).
  { intros z Hz. rewrite <- Z.quot_div_nonneg by lia. pose proof (Z.quot_rem' z 2).
    replace (- Z.rem z 2 + z) with (Z.quot z 2 * 2) by lia. rewrite Z.quot_mul; lia. }
  rewrite !Hq2 by lia. rewrite Z.add_opp_diag_l. eexists. reflexivity.
Qed.

Lemma pillow_ellipse_centre w h :
  0 < w -> 0 < h -> pillow_ellipse 0 0 w h (w / 2) (h / 2) = true.
Proof.
  intros Hw Hh. unfold pillow_ellipse. destruct (ellipse_first_line w h Hw Hh) as [rest ->].
  cbn [existsb]. rewrite Z.eqb_refl, Z.leb_refl.
  assert (0 <= w / 2) by (apply Z.div_pos; lia).
  rewrite (proj2 (Z.leb_le 0 (w / 2))) by lia. reflexivity.
Qed.

(** For the five icon sizes, every pixel the filled ellipse covers lies in
    the ellipse inscribed in the (e + 1) x (e + 1) box: the inclusive box
    of Pillow. *)
Lemma pillow_ellipse_icon_sizes_check :
  forallb (fun e =>
    let f := pillow_ellipse 0 0 e e in
    forallb (fun x => forallb (fun y =>
      implb (f x y) (in_inscribed_ellipse 0 0 (e + 1) (e + 1) x y)) (seqZ 0 e)) (seqZ 0 e))
    [48; 72; 96; 144; 192] = true.
Proof. vm_compute. reflexivity. Qed.


Lemma pillow_ellipse_icon_sizes e x y :
  In e (map snd densities) -> 0 <= x < e -> 0 <= y < e ->
  pillow_ellipse 0 0 e e x y = true -> in_inscribed_ellipse 0 0 (e + 1) (e + 1) x y = true.
Proof.
  intros He Hx Hy Hf. pose proof pillow_ellipse_icon_sizes_check as Hc.
  rewrite forallb_forall in Hc. specialize (Hc e He). cbv zeta in Hc.
  rewrite forallb_forall in Hc.
  assert (Hxs : In x (seqZ 0 e)) by (apply list_elem_of_In, elem_of_seqZ; lia).
  assert (Hys : In y (seqZ 0 e)) by (apply list_elem_of_In, elem_of_seqZ; lia).
  specialize (Hc x Hxs). rewrite forallb_forall in Hc. specialize (Hc y Hys).
  rewrite Hf in Hc. exact Hc.
Qed.

(** C1, corrected.  For a loaded RGBA square image [i] of size [w] x [h],
    [create_round_icon] returns a new RGBA image of the same size.  Its
    alpha band is fully replaced, not blended, by the single-channel mask
    that [ImageDraw.ellipse((0, 0) + size, fill=255)] draws: 255 on the
    pixels Pillow's rasteriser fills for the inclusive box [(0, 0, w, h)],
    0 on all others; the colour bands are those of [i].  The centre pixel
    [(w / 2, h / 2)] has alpha 255.  For the five icon sizes the filled
    pixels all lie in the ellipse inscribed in the (w + 1) x (h + 1) box:
    every pixel outside it has alpha 0.  The mask is not the ellipse
    inscribed in the w x h rectangle (see the counterexample below). *)
Theorem create_round_icon_alpha_mask convert_px s i w h px :
  heap s !! i = Some (mkimg mode_RGBA w h (Loaded px)) -> i < next_id s ->
  (forall x y, length (px x y) = 4%nat) -> 0 < w -> 0 < h ->
  exists r s' px',
    create_round_icon convert_px pillow_ellipse i s = Ok r s' /\
    heap s' !! r = Some (mkimg mode_RGBA w h (Loaded px')) /\
    heap s' !! (r - 1) = Some (mkimg mode_L w h (Loaded (mask_px pillow_ellipse w h))) /\
    (forall x y, 0 <= x < w -> 0 <= y < h ->
       px' x y = firstn 3 (px x y) ++ [if pillow_ellipse 0 0 w h x y then 255 else 0] /\
       alpha_of (px' x y) = (if pillow_ellipse 0 0 w h x y then 255 else 0)) /\
    alpha_of (px' (w / 2) (h / 2)) = 255 /\
    (w = h -> In w (map snd densities) ->
       forall x y, 0 <= x < w -> 0 <= y < h ->
       in_inscribed_ellipse 0 0 (w + 1) (h + 1) x y = false -> alpha_of (px' x y) = 0).
Proof.
  intros Hi Hlt H4 Hw Hh.
  destruct (create_round_icon_mask convert_px pillow_ellipse s i w h px Hi Hlt H4)
    as [r [s' [E [Hr [Hm Hpix]]]]].
  exists r, s', (round_px pillow_ellipse w h px).
  split; [exact E |]. split; [exact Hr |]. split; [exact Hm |].
  split; [exact Hpix |].
  assert (0 <= w / 2 < w) by (split; [apply Z.div_pos | apply Z.div_lt]; lia).
  assert (0 <= h / 2 < h) by (split; [apply Z.div_pos | apply Z.div_lt]; lia).
  split.
  - rewrite (proj2 (Hpix (w / 2) (h / 2) ltac:(lia) ltac:(lia))).
    now rewrite pillow_ellipse_centre.
  - intros <- Hin x y Hx Hy Hout. rewrite (proj2 (Hpix _ _ Hx Hy)).
    destruct (pillow_ellipse 0 0 w w x y) eqn:Ef; [| reflexivity].
    rewrite (pillow_ellipse_icon_sizes w x y Hin Hx Hy Ef) in Hout. discriminate.
Qed.

(** C1, counterexample.  On a 48 x 48 square icon (the mdpi size), pixel
    (1, 32) lies outside the ellipse inscribed in the image rectangle yet
    has alpha 255, and pixel (0, 19) lies inside it yet has alpha 0. *)
Lemma create_round_icon_alpha_mask_counterexample :
  exists r s' px',
    create_round_icon convert_basic pillow_ellipse 0 ex_square48_state = Ok r s' /\
    heap s' !! r = Some (mkimg mode_RGBA 48 48 (Loaded px')) /\
    in_inscribed_ellipse 0 0 48 48 1 32 = false /\ alpha_of (px' 1 32) = 255 /\
    in_inscribed_ellipse 0 0 48 48 0 19 = true /\ alpha_of (px' 0 19) = 0.
Proof.
  destruct (create_round_icon_mask convert_basic pillow_ellipse ex_square48_state 0 48 48
              (fun _ _ => [1; 2; 3; 4]) eq_refl ltac:(vm_compute; reflexivity)
              (fun _ _ => eq_refl))
    as [r [s' [E [Hr [_ Hpix]]]]].
  exists r, s', (round_px pillow_ellipse 48 48 (fun _ _ => [1; 2; 3; 4])).
  split; [exact E |]. split; [exact Hr |].
  rewrite (proj2 (Hpix 1 32 ltac:(lia) ltac:(lia))), (proj2 (Hpix 0 19 ltac:(lia) ltac:(lia))).
  vm_compute. repeat split.
Qed.

(** ** C5 and C9: a source whose pixel data does not decode *)

(** C5.  Decoding of the source can fail without [generate_icons]
    returning [False].  [ex_icon_truncated] has an intact RGBA header and
    truncated image data, so it does not decode.  [Image.open] only reads
    the header.  No conversion is needed for an RGBA image, so the [try]
    block succeeds.  The data is first decoded by [resize] in the loop,
    outside the [try].  The resulting [OSError] escapes [generate_icons]
    instead of [False] being returned.  [main] still exits with status 1,
    through the uncaught exception. *)
Theorem generate_icons_truncated_rgba_raises resample convert_px ellipse_px :
  decode_rgba convert_px ex_icon_truncated = None /\
  generate_icons resample convert_px ellipse_px ex_src ex_res (ex_state ex_icon_truncated) =
    Exc OSError_truncated
      (result_state (generate_icons resample convert_px ellipse_px ex_src ex_res
                       (ex_state ex_icon_truncated))) /\
  exit_status (main resample convert_px ellipse_px ex_root (ex_state ex_icon_truncated)) = 1.
Proof. split; [reflexivity |]. split; vm_compute; reflexivity. Qed.

(** C9.  On the same source, the failure comes after the output tree has
    changed: [mipmap-mdpi] did not exist before the call and exists when
    the exception leaves [generate_icons]. *)
Theorem generate_icons_decode_failure_creates_dir resample convert_px ellipse_px :
  fs (ex_state ex_icon_truncated) !! mipmap_dir ex_res "mdpi" = None /\
  exists e s',
    generate_icons resample convert_px ellipse_px ex_src ex_res (ex_state ex_icon_truncated) =
      Exc e s' /\
    fs s' !! mipmap_dir ex_res "mdpi" = Some Dir.
Proof.
  split; [vm_compute; reflexivity |].
  exists OSError_truncated,
    (result_state (generate_icons resample convert_px ellipse_px ex_src ex_res
                     (ex_state ex_icon_truncated))).
  split; vm_compute; reflexivity.
Qed.

(** ** Instances of the theorems on the example inputs *)

Lemma create_round_icon_alpha_mask_witness :
  exists r s' px',
    create_round_icon convert_basic pillow_ellipse 0 ex_heap_state = Ok r s' /\
    heap s' !! r = Some (mkimg mode_RGBA 2 2 (Loaded px')) /\
    alpha_of (px' (2 / 2) (2 / 2)) = 255.
Proof.
  destruct (create_round_icon_alpha_mask convert_basic ex_heap_state 0 2 2
              (fun _ _ => [1; 2; 3; 4]))
    as [r [s' [px' [H1 [H2 [_ [_ [H5 _]]]]]]]];
    [vm_compute; reflexivity | vm_compute; reflexivity | intros; reflexivity
    | lia | lia |].
  exists r, s', px'. split; [exact H1 |]. split; [exact H2 | exact H5].
Defined.

Lemma generate_icons_square_sizes_witness :
  let s1 := result_state (generate_icons resample_nearest convert_basic pillow_ellipse
                            ex_src ex_res (ex_state ex_icon_rgb)) in
  generate_icons resample_nearest convert_basic pillow_ellipse
    ex_src ex_res (ex_state ex_icon_rgb) = Ok true s1 /\
  exists w h px t,
    fs s1 !! square_path ex_res "mdpi" =
      Some (File (Encoded mode_RGBA 48 48
                    (Some (resize_px resample_nearest LANCZOS mode_RGBA w h px 48 48))) t).
Proof.
  intros s1.
  assert (H : generate_icons resample_nearest convert_basic pillow_ellipse
                ex_src ex_res (ex_state ex_icon_rgb) = Ok true s1)
    by (apply result_Ok_true; vm_compute; reflexivity).
  split; [exact H |].
  destruct (generate_icons_square_sizes resample_nearest convert_basic pillow_ellipse
              ex_src ex_res (ex_state ex_icon_rgb) s1 H) as [w [h [px Hall]]].
  destruct (Hall "mdpi" 48 (or_introl eq_refl)) as [_ [t Ht]].
  exists w, h, px, t. exact Ht.
Defined.

Lemma densities_fixed_order_witness :
  let s1 := result_state (generate_icons resample_nearest convert_basic pillow_ellipse
                            ex_src ex_res (ex_state ex_icon_rgb)) in
  generate_icons resample_nearest convert_basic pillow_ellipse
    ex_src ex_res (ex_state ex_icon_rgb) = Ok true s1 /\
  length densities = 5%nat.
Proof.
  intros s1.
  assert (H : generate_icons resample_nearest convert_basic pillow_ellipse
                ex_src ex_res (ex_state ex_icon_rgb) = Ok true s1)
    by (apply result_Ok_true; vm_compute; reflexivity).
  split; [exact H |].
  exact (proj1 (proj2 (densities_fixed_order resample_nearest convert_basic pillow_ellipse
                         ex_src ex_res (ex_state ex_icon_rgb) s1 H))).
Defined.

Lemma generate_icons_rgba_before_resize_witness :
  let s1 := result_state (generate_icons resample_nearest convert_basic pillow_ellipse
                            ex_src ex_res (ex_state ex_icon_rgb)) in
  lookup_fs (fs (ex_state ex_icon_rgb)) ex_src = Some (File (Encoded mode_RGB 4 4 (Some ex_px)) 5) /\
  generate_icons resample_nearest convert_basic pillow_ellipse
    ex_src ex_res (ex_state ex_icon_rgb) = Ok true s1 /\
  exists px, decode_rgba convert_basic (Encoded mode_RGB 4 4 (Some ex_px)) = Some (4, 4, px).
Proof.
  intros s1.
  assert (H1 : lookup_fs (fs (ex_state ex_icon_rgb)) ex_src =
                 Some (File (Encoded mode_RGB 4 4 (Some ex_px)) 5))
    by (vm_compute; reflexivity).
  assert (H2 : generate_icons resample_nearest convert_basic pillow_ellipse
                 ex_src ex_res (ex_state ex_icon_rgb) = Ok true s1)
    by (apply result_Ok_true; vm_compute; reflexivity).
  split; [exact H1 |]. split; [exact H2 |].
  destruct (generate_icons_rgba_before_resize resample_nearest convert_basic pillow_ellipse
              ex_src ex_res (ex_state ex_icon_rgb) s1 mode_RGB 4 4 (Some ex_px) 5 H1 H2)
    as [px [Hd _]].
  exists px. exact Hd.
Defined.

Lemma main_missing_paths_exit_witness :
  lookup_fs (fs ex_state_noicon) (source_icon ex_root) = None /\
  exit_status (main resample_nearest convert_basic pillow_ellipse ex_root ex_state_noicon) = 1.
Proof.
  assert (H : lookup_fs (fs ex_state_noicon) (source_icon ex_root) = None)
    by (vm_compute; reflexivity).
  split; [exact H |].
  exact (proj1 (main_missing_paths_exit resample_nearest convert_basic pillow_ellipse
                  ex_root ex_state_noicon (or_introl H))).
Defined.

Lemma generate_icons_idempotent_witness :
  let s0 := ex_state ex_icon_rgb in
  let s1 := result_state (generate_icons resample_nearest convert_basic pillow_ellipse
                            ex_src ex_res s0) in
  generate_icons resample_nearest convert_basic pillow_ellipse ex_src ex_res s0 = Ok true s1 /\
  lookup_fs (fs s1) ex_src = lookup_fs (fs s0) ex_src /\
  exists s2, generate_icons resample_nearest convert_basic pillow_ellipse ex_src ex_res s1 =
               Ok true s2 /\ strip (fs s2) = strip (fs s1).
Proof.
  intros s0 s1.
  assert (H1 : generate_icons resample_nearest convert_basic pillow_ellipse ex_src ex_res s0 =
                 Ok true s1) by (apply result_Ok_true; vm_compute; reflexivity).
  assert (H2 : lookup_fs (fs s1) ex_src = lookup_fs (fs s0) ex_src)
    by (vm_compute; reflexivity).
  split; [exact H1 |]. split; [exact H2 |].
  exact (generate_icons_idempotent resample_nearest convert_basic pillow_ellipse
           ex_src ex_res s0 s1 H1 H2).
Defined.

Lemma copy_xml_resources_spec_witness :
  dirs_ok (fs ex_fix_state) [] ex_res /\
  exists s', copy_xml_resources ex_fix ex_res ex_fix_state = Ok tt s' /\
    fs s' !! (ex_res ++ ["values"; "strings.xml"]) = Some (File (Raw "strings") 3) /\
    fs s' !! (ex_res ++ ["values"; "styles.xml"]) = None.
Proof.
  assert (Hd : dirs_ok (fs ex_fix_state) [] ex_res) by (vm_compute; repeat split).
  assert (Hne : ex_fix <> ex_res) by (unfold ex_fix, ex_res; discriminate).
  assert (Hpre : forall fp sub, In (fp, sub) xml_files ->
            (forall b t, fs ex_fix_state !! (ex_res ++ [sub]) <> Some (File b t)) /\
            fs ex_fix_state !! (ex_fix ++ fp) <> Some Dir /\
            fs ex_fix_state !! ((ex_res ++ [sub]) ++ [basename fp]) <> Some Dir).
  { intros fp sub H. cbn [xml_files In] in H.
    destruct H as [H | [H | [H | [H | []]]]]; injection H as <- <-;
      (split; [intros b t; vm_compute; intros Heq; discriminate Heq |
               split; vm_compute; intros Heq; discriminate Heq]). }
  split; [exact Hd |].
  destruct (copy_xml_resources_spec ex_fix ex_res ex_fix_state Hd Hne Hpre)
    as [_ [s' [E [_ [_ Hall]]]]].
  exists s'. split; [exact E |].
  destruct (Hall ["values"; "strings.xml"] "values" (or_introl eq_refl)) as [_ [Hc _]].
  destruct (Hall ["values"; "styles.xml"] "values" (or_intror (or_introl eq_refl)))
    as [_ [_ Hm]].
  split.
  - exact (Hc (Raw "strings") 3 ltac:(vm_compute; reflexivity)).
  - refine (eq_trans (Hm ltac:(vm_compute; reflexivity)) _). vm_compute. reflexivity.
Defined.

Lemma density_outputs_independent_witness :
  let s1 := result_state (generate_icons_with resample_nearest convert_basic pillow_ellipse
                            densities ex_src ex_res (ex_state ex_icon_rgb)) in
  let s2 := result_state (generate_icons_with resample_nearest convert_basic pillow_ellipse
                            (rev densities) ex_src ex_res (ex_state ex_icon_rgb)) in
  create_round_icon convert_basic pillow_ellipse 0 ex_heap_state =
    Ok 2 (result_state (create_round_icon convert_basic pillow_ellipse 0 ex_heap_state)) /\
  heap (result_state (create_round_icon convert_basic pillow_ellipse 0 ex_heap_state)) !! 0 =
    heap ex_heap_state !! 0 /\
  strip (fs s1) !! square_path ex_res "xhdpi" = strip (fs s2) !! square_path ex_res "xhdpi".
Proof.
  intros s1 s2.
  destruct (density_outputs_independent resample_nearest convert_basic pillow_ellipse)
    as [Hround Hgen].
  assert (Hi : heap ex_heap_state !! 0 =
                 Some (mkimg mode_RGBA 2 2 (Loaded (fun _ _ => [1; 2; 3; 4]))))
    by (vm_compute; reflexivity).
  assert (Hlt : 0 < next_id ex_heap_state) by (vm_compute; reflexivity).
  assert (Hr : create_round_icon convert_basic pillow_ellipse 0 ex_heap_state =
    Ok 2 (result_state (create_round_icon convert_basic pillow_ellipse 0 ex_heap_state)))
    by (apply result_Ok_Z; vm_compute; reflexivity).
  assert (Hnd1 : NoDup (map fst densities))
    by (apply (bool_decide_unpack _); vm_compute; exact I).
  assert (Hnd2 : NoDup (map fst (rev densities)))
    by (apply (bool_decide_unpack _); vm_compute; exact I).
  assert (Hin1 : In ("xhdpi", 96) densities) by (cbn; right; right; left; reflexivity).
  assert (Hin2 : In ("xhdpi", 96) (rev densities)) by (cbn; right; right; left; reflexivity).
  assert (H1 : generate_icons_with resample_nearest convert_basic pillow_ellipse
                 densities ex_src ex_res (ex_state ex_icon_rgb) = Ok true s1)
    by (apply result_Ok_true; vm_compute; reflexivity).
  assert (H2 : generate_icons_with resample_nearest convert_basic pillow_ellipse
                 (rev densities) ex_src ex_res (ex_state ex_icon_rgb) = Ok true s2)
    by (apply result_Ok_true; vm_compute; reflexivity).
  split; [exact Hr |].
  split; [exact (proj1 (proj2 (proj2 (Hround _ _ _ _ _ _ _ Hi Hlt Hr)))) |].
  exact (proj1 (proj2 (Hgen ex_src ex_res densities (rev densities) (ex_state ex_icon_rgb)
           s1 s2 "xhdpi" 96 Hnd1 Hnd2 Hin1 Hin2 H1 H2))).
Defined.

Lemma generate_icons_false_no_effect_witness :
  let s0 := ex_state (Raw "junk") in
  let s1 := result_state (generate_icons_with resample_nearest convert_basic pillow_ellipse
                            densities ex_src ex_res s0) in
  generate_icons_with resample_nearest convert_basic pillow_ellipse densities ex_src ex_res s0 =
    Ok false s1 /\
  fs s1 = fs s0.
Proof.
  intros s0 s1.
  assert (H : generate_icons_with resample_nearest convert_basic pillow_ellipse
                densities ex_src ex_res s0 = Ok false s1)
    by (apply result_Ok_false; vm_compute; reflexivity).
  split; [exact H |].
  exact (proj1 (generate_icons_false_no_effect resample_nearest convert_basic pillow_ellipse
                  densities ex_src ex_res s0 s1 H)).
Defined.

Lemma generate_icons_false_on_bad_source_witness :
  lookup_fs (fs (ex_state (Raw "junk"))) ex_src = Some (File (Raw "junk") 5) /\
  exists e s', generate_icons_with resample_nearest convert_basic pillow_ellipse
                 densities ex_src ex_res (ex_state (Raw "junk")) = Ok false s' /\
               fs s' = fs (ex_state (Raw "junk")) /\
               out s' = out (ex_state (Raw "junk")) ++ [MsgLoading ex_src; MsgLoadError ex_src e].
Proof.
  assert (H : lookup_fs (fs (ex_state (Raw "junk"))) ex_src = Some (File (Raw "junk") 5))
    by (vm_compute; reflexivity).
  split; [exact H |].
  exact (generate_icons_false_on_bad_source resample_nearest convert_basic pillow_ellipse
           densities ex_src ex_res (ex_state (Raw "junk"))
           (or_intror (or_intror (or_introl (ex_intro _ "junk" (ex_intro _ 5 H)))))).
Defined.

Lemma generate_icons_root_is_file_witness :
  fs (ex_state ex_icon_rgb) !! ex_src = Some (File ex_icon_rgb 5) /\
  exists s', generate_icons resample_nearest convert_basic pillow_ellipse
               ex_src ex_src (ex_state ex_icon_rgb) = Exc NotADirectoryError s'.
Proof.
  assert (Hr : fs (ex_state ex_icon_rgb) !! ex_src = Some (File ex_icon_rgb 5))
    by (vm_compute; reflexivity).
  assert (Es : lookup_fs (fs (ex_state ex_icon_rgb)) ex_src = Some (File ex_icon_rgb 5))
    by (vm_compute; reflexivity).
  assert (Hne : ex_src <> []) by discriminate.
  assert (Hdec : decode_rgba convert_basic ex_icon_rgb =
                   Some (4, 4, fun x y => ex_px x y ++ [255])) by reflexivity.
  split; [exact Hr |].
  destruct (generate_icons_root_is_file resample_nearest convert_basic pillow_ellipse
              ex_src ex_src (ex_state ex_icon_rgb) ex_icon_rgb 5 ex_icon_rgb 5 4 4
              (fun x y => ex_px x y ++ [255]) Hne Hr Es Hdec) as [s' [E _]].
  exists s'. exact E.
Defined.

Lemma generate_icons_succeeds_witness :
  dirs_ok (fs (ex_state ex_icon_rgb)) [] ex_res /\
  exists s', generate_icons resample_nearest convert_basic pillow_ellipse
               ex_src ex_res (ex_state ex_icon_rgb) = Ok true s'.
Proof.
  assert (Es : lookup_fs (fs (ex_state ex_icon_rgb)) ex_src = Some (File ex_icon_rgb 5))
    by (vm_compute; reflexivity).
  assert (Hdec : decode_rgba convert_basic ex_icon_rgb =
                   Some (4, 4, fun x y => ex_px x y ++ [255])) by reflexivity.
  assert (Hd : dirs_ok (fs (ex_state ex_icon_rgb)) [] ex_res) by (vm_compute; repeat split).
  assert (Hall : forall d e, In (d, e) densities ->
            (forall b' t', fs (ex_state ex_icon_rgb) !! mipmap_dir ex_res d <> Some (File b' t')) /\
            fs (ex_state ex_icon_rgb) !! square_path ex_res d <> Some Dir /\
            fs (ex_state ex_icon_rgb) !! round_path ex_res d <> Some Dir).
  { intros d e H. cbn [densities In] in H.
    destruct H as [H | [H | [H | [H | [H | []]]]]]; injection H as <- <-;
      (split; [intros b t; vm_compute; intros Heq; discriminate Heq |
               split; vm_compute; intros Heq; discriminate Heq]). }
  split; [exact Hd |].
  exact (generate_icons_succeeds resample_nearest convert_basic pillow_ellipse
           ex_src ex_res (ex_state ex_icon_rgb) ex_icon_rgb 5 4 4
           (fun x y => ex_px x y ++ [255]) Es Hdec Hd Hall).
Defined.

Lemma copy_xml_resources_idempotent_witness :
  let dst := ex_res ++ ["generated"] in
  let s1 := result_state (copy_xml_resources ex_fix dst ex_fix_state) in
  copy_xml_resources ex_fix dst ex_fix_state = Ok tt s1 /\
  exists s2, copy_xml_resources ex_fix dst s1 = Ok tt s2 /\ fs s2 = fs s1.
Proof.
  intros dst s1.
  assert (H1 : copy_xml_resources ex_fix dst ex_fix_state = Ok tt s1)
    by (apply result_Ok_unit; vm_compute; reflexivity).
  split; [exact H1 |].
  destruct (copy_xml_resources_idempotent ex_fix dst ex_fix_state s1 H1) as [s2 [E [F _]]].
  exists s2. split; [exact E | exact F].
Defined.

Lemma main_success_icons_witness :
  let s1 := result_state (main resample_nearest convert_basic pillow_ellipse ex_root ex_fix_state) in
  main resample_nearest convert_basic pillow_ellipse ex_root ex_fix_state = Ok tt s1 /\
  exists t1, fs s1 !! square_path (android_res ex_root) "mdpi" =
    Some (File (square_blob resample_nearest 4 4 (fun x y => ex_px x y ++ [255]) 48) t1).
Proof.
  intros s1.
  assert (H : main resample_nearest convert_basic pillow_ellipse ex_root ex_fix_state = Ok tt s1)
    by (apply result_Ok_unit; vm_compute; reflexivity).
  split; [exact H |].
  destruct (main_success_icons resample_nearest convert_basic pillow_ellipse ex_root
              ex_fix_state s1 H) as [b [t [w [h [px [Es [Hdec Hall]]]]]]].
  assert (Eb : lookup_fs (fs ex_fix_state) (source_icon ex_root) = Some (File ex_icon_rgb 5))
    by (vm_compute; reflexivity).
  rewrite Eb in Es. injection Es as <- <-.
  cbn in Hdec. injection Hdec as <- <- <-.
  exact (proj1 (Hall "mdpi" 48 (or_introl eq_refl))).
Defined.

Lemma generate_icons_false_on_bomb_witness :
  let s0 := ex_state (Encoded mode_RGBA 14000 14000 None) in
  lookup_fs (fs s0) ex_src = Some (File (Encoded mode_RGBA 14000 14000 None) 5) /\
  decompression_bomb 14000 14000 = true /\
  exists s', generate_icons_with resample_nearest convert_basic pillow_ellipse
               densities ex_src ex_res s0 = Ok false s' /\ fs s' = fs s0.
Proof.
  intros s0.
  assert (E : lookup_fs (fs s0) ex_src = Some (File (Encoded mode_RGBA 14000 14000 None) 5))
    by (vm_compute; reflexivity).
  assert (Hb : decompression_bomb 14000 14000 = true) by (vm_compute; reflexivity).
  split; [exact E |]. split; [exact Hb |].
  destruct (generate_icons_false_on_bomb resample_nearest convert_basic pillow_ellipse
              densities ex_src ex_res s0 mode_RGBA 14000 14000 None 5 E Hb)
    as [s' [H [F _]]].
  exists s'. split; [exact H | exact F].
Defined.
